(** * pysubtools: the SubRip parser, the line buffer and the encoding detector

    A shallow embedding of [pysubtools/parsers/base.py] (the [Parser] base
    class: diagnostics and the line buffer), [pysubtools/parsers/subrip.py]
    (the SubRip state machine and [SubRipParser._parse]) and
    [pysubtools/parsers/encodings.py] ([can_decode], [detect]).

    Python strings are modelled as [string] (ASCII characters), Python ints
    as [Z] or [N], the seconds computed with [float] as exact rationals
    ([Q]); exceptions are the [pyexn] type and stateful methods run in a
    state and exception monad which keeps the state reached when an
    exception is raised, as Python does. *)

From Stdlib Require Import List String Ascii ZArith QArith Lia Bool.
From Stdlib Require Import DecimalString DecimalN Init.Byte Sorted.
Import ListNotations.

Open Scope nat_scope.
Open Scope string_scope.

(* ------------------------------------------------------------------ *)
(** ** Python string primitives *)

Definition is_space (c : ascii) : bool :=
  let n := nat_of_ascii c in
  (((9 <=? n) && (n <=? 13)) || ((28 <=? n) && (n <=? 32)))%nat.

Definition is_digit (c : ascii) : bool :=
  let n := nat_of_ascii c in ((48 <=? n) && (n <=? 57))%nat.

(** [str.lstrip()], [str.rstrip()], [str.strip()] *)
Fixpoint lstrip (s : string) : string :=
  match s with
  | EmptyString => EmptyString
  | String c s' => if is_space c then lstrip s' else s
  end.

Fixpoint rstrip (s : string) : string :=
  match s with
  | EmptyString => EmptyString
  | String c s' =>
      match rstrip s' with
      | EmptyString => if is_space c then EmptyString else String c EmptyString
      | r => String c r
      end
  end.

Definition strip (s : string) : string := lstrip (rstrip s).

(** [s.find(sub)]: the first index of [sub] in [s]; [sub in s] and
    [s.index(sub)] are built on it. *)
Fixpoint py_find (sub s : string) : option nat :=
  if prefix sub s then Some 0
  else match s with
       | EmptyString => None
       | String _ s' => option_map S (py_find sub s')
       end.

Definition py_in (sub s : string) : bool :=
  match py_find sub s with Some _ => true | None => false end.

(** [s.replace(old, new, 1)] *)
Fixpoint py_replace1 (old new s : string) : string :=
  if prefix old s then new ++ substring (length old) (length s - length old)%nat s
  else match s with
       | EmptyString => s
       | String c s' => String c (py_replace1 old new s')
       end.

(** [s.split(sep)] for a non-empty [sep]: [skip] counts the characters of a
    separator still to be dropped. *)
Fixpoint split_aux (sep cur : string) (skip : nat) (s : string) : list string :=
  match s with
  | EmptyString => [cur]
  | String c s' =>
      match skip with
      | S k => split_aux sep cur k s'
      | O => if prefix sep s then cur :: split_aux sep EmptyString (length sep - 1)%nat s'
             else split_aux sep (cur ++ String c EmptyString) 0 s'
      end
  end.

Definition py_split (sep s : string) : list string := split_aux sep EmptyString 0 s.

Definition char_str (c : ascii) : string := String c EmptyString.

(** [str(n)] for a natural number and [int(s)] on a string of decimal
    digits (the only strings the parser hands to [int]). *)
Definition py_str_N (n : N) : string := NilZero.string_of_uint (N.to_uint n).

Definition py_int (s : string) : option N :=
  option_map N.of_uint (NilZero.uint_of_string s).

(** Line splitting of a [io.TextIOWrapper(..., newline='')]: lines end at
    ["\n"], ["\r"] or ["\r\n"], and keep their terminator. *)
Fixpoint lines_acc (cur : string) (s : string) : list string :=
  match s with
  | EmptyString => match cur with EmptyString => [] | _ => [cur] end
  | String c s' =>
      if Ascii.eqb c "010"%char then (cur ++ char_str c) :: lines_acc EmptyString s'
      else if Ascii.eqb c "013"%char then
        match s' with
        | String d s'' =>
            if Ascii.eqb d "010"%char then (cur ++ String c (char_str d)) :: lines_acc EmptyString s''
            else (cur ++ char_str c) :: lines_acc EmptyString s'
        | EmptyString => [cur ++ char_str c]
        end
      else lines_acc (cur ++ char_str c) s'
  end.

Definition py_lines (s : string) : list string := lines_acc EmptyString s.

(* ------------------------------------------------------------------ *)
(** ** Exceptions and the state/exception monad *)

Record msg := Msg {
  line_number : Z;
  col : Z;
  line : string;
  description : string
}.

Inductive pyexn :=
| Skip
| InvalidStateTransition
| ParseWarning (m : msg)
| ParseError (m : msg)
| ValueError (what : string)
| TypeError (what : string)
| IndexError
| AttributeError.

Inductive res (A : Type) :=
| Ok (a : A)
| Exc (e : pyexn).
Arguments Ok {A} a.
Arguments Exc {A} e.

Definition ST (S A : Type) := S -> S * res A.

Definition ret {S A} (a : A) : ST S A := fun s => (s, Ok a).
Definition raise {S A} (e : pyexn) : ST S A := fun s => (s, Exc e).
Definition bind {S A B} (m : ST S A) (k : A -> ST S B) : ST S B :=
  fun s => match m s with
           | (s', Ok a) => k a s'
           | (s', Exc e) => (s', Exc e)
           end.
Definition get {S} : ST S S := fun s => (s, Ok s).
Definition put {S} (s : S) : ST S unit := fun _ => (s, Ok tt).

Declare Scope st_scope.
Notation "x <- m ;; k" := (bind m (fun x => k))
  (at level 61, m at next level, right associativity) : st_scope.
Notation "m ;; k" := (bind m (fun _ => k))
  (at level 61, right associativity) : st_scope.
Open Scope st_scope.

(* ------------------------------------------------------------------ *)
(** ** [base.Parser]: diagnostics and the line buffer *)

(** The text stream [self._data]: its lines and the read position. *)
Record stream := Stream { s_lines : list string; s_pos : nat }.

Definition readline (d : stream) : string * stream :=
  match nth_error (s_lines d) (s_pos d) with
  | Some l => (l, Stream (s_lines d) (S (s_pos d)))
  | None => (EmptyString, d)
  end.

Definition seek0 (d : stream) : stream := Stream (s_lines d) 0.

Record parser := Parser {
  warnings : list msg;
  errors : list msg;
  stop_level : option string;          (* [None] is Python's [None] *)
  data : option stream;
  read_lines : list string;
  current_line_num : Z;
  current_line : option string          (* [None] before the first line *)
}.

Definition new_parser (stop : option string) : parser :=
  Parser [] [] stop None [] (-1) None.

Definition set_data (p : parser) (d : option stream) : parser :=
  Parser (warnings p) (errors p) (stop_level p) d (read_lines p)
         (current_line_num p) (current_line p).

Inductive level := LWarning | LError.

(** [Parser.LEVELS = ("warning", "error")] and [LEVELS.index] *)
Definition level_index (l : level) : nat :=
  match l with LWarning => 0 | LError => 1 end%nat.

Definition levels_index (s : string) : option nat :=
  if String.eqb s "warning" then Some 0%nat
  else if String.eqb s "error" then Some 1%nat
  else None.

Definition truthy_str (o : option string) : bool :=
  match o with None | Some EmptyString => false | Some _ => true end.

(** [Parser._add_msg] *)
Definition add_msg (lvl : level) (ln c : Z) (l d : string) : ST parser unit :=
  fun p =>
    let m := Msg ln c l d in
    let stop :=
      if truthy_str (stop_level p) then
        match levels_index (match stop_level p with Some s => s | None => EmptyString end) with
        | Some j => Ok (j <=? level_index lvl)%nat
        | None => Exc (ValueError "tuple.index(x): x not in tuple")
        end
      else Ok false in
    match stop with
    | Exc e => (p, Exc e)
    | Ok true =>
        match lvl with
        | LWarning => (p, Exc (ParseWarning m))
        | LError => (p, Exc (ParseError m))
        end
    | Ok false =>
        match lvl with
        | LWarning =>
            (Parser (warnings p ++ [m]) (errors p) (stop_level p) (data p)
                    (read_lines p) (current_line_num p) (current_line p), Ok tt)
        | LError =>
            (Parser (warnings p) (errors p ++ [m]) (stop_level p) (data p)
                    (read_lines p) (current_line_num p) (current_line p), Ok tt)
        end
    end.

Definition add_warning := add_msg LWarning.
Definition add_error := add_msg LError.

(** [Parser._next_line] *)
Definition next_line : ST parser bool :=
  fun p =>
    match data p with
    | None => (p, Ok false)
    | Some d =>
        let (l, d') := readline d in
        match l with
        | EmptyString => (set_data p (Some d'), Ok false)
        | _ =>
            (Parser (warnings p) (errors p) (stop_level p) (Some d')
                    (read_lines p ++ [l]) (current_line_num p + 1)
                    (Some (rstrip l)), Ok true)
        end
    end.

(** Python list indexing [xs[i]], negative indices counting from the end. *)
Definition py_index {A} (xs : list A) (i : Z) : option A :=
  if (0 <=? i)%Z then nth_error xs (Z.to_nat i)
  else if (0 <=? Z.of_nat (List.length xs) + i)%Z
       then nth_error xs (Z.to_nat (Z.of_nat (List.length xs) + i))
       else None.

(** [Parser._fetch_line] *)
Definition fetch_line (i : Z) : ST parser string :=
  fun p =>
    if (current_line_num p <? i)%Z then (p, Exc (ValueError "Cannot seek forward."))
    else match py_index (read_lines p) i with
         | Some l => (p, Ok (rstrip l))
         | None => (p, Exc IndexError)
         end.

(** [Parser._rewind] *)
Definition rewind (p : parser) : parser :=
  Parser (warnings p) (errors p) (stop_level p)
         (option_map seek0 (data p)) [] (-1) None.

(* ------------------------------------------------------------------ *)
(** ** The regular expressions of [SubRipStateMachine]

    Each pattern is a deterministic scan: in every one of them a greedy
    quantifier is followed by a character it cannot match, so backtracking
    never finds another match. *)

Fixpoint take_while (f : ascii -> bool) (s : string) : string * string :=
  match s with
  | EmptyString => (EmptyString, EmptyString)
  | String c s' =>
      if f c then let (a, r) := take_while f s' in (String c a, r)
      else (EmptyString, s)
  end.

Definition is_char (d : ascii) (c : ascii) : bool := Ascii.eqb c d.

(** the class [[0-9:,.]] *)
Definition is_hclass (c : ascii) : bool :=
  is_digit c || is_char ":" c || is_char "," c || is_char "." c.

Definition drop (n : nat) (s : string) : string := substring n (length s - n) s.

(** [_sequence = re.compile(r'^\s*\d+\s*$')], [.match] *)
Definition sequence_match (l : string) : bool :=
  match strip l with
  | EmptyString => false
  | t => forallb is_digit (list_ascii_of_string t)
  end.

(** the tail [( .* )$] (spaces added inside this comment): [.] stops at a newline, [$] matches at the end or
    before a final newline *)
Definition dot_star_end (r : string) : option string :=
  if negb (py_in (char_str "010"%char) r) then Some r
  else match py_find (char_str "010"%char) r with
       | Some i => if Nat.eqb (S i) (length r) then Some (substring 0 i r) else None
       | None => None
       end.

(** [_header = re.compile(r'^\s*([0-9:,.]+\s*-->\s*[0-9:,.]+)\s*( .* )$')],
    [.match]: its groups 1 and 2 *)
Definition header_match (l : string) : option (string * string) :=
  let (a, r1) := take_while is_hclass (lstrip l) in
  match a with
  | EmptyString => None
  | _ =>
    let (w1, r2) := take_while is_space r1 in
    if prefix "-->" r2 then
      let (w2, r3) := take_while is_space (drop 3 r2) in
      let (b, r4) := take_while is_hclass r3 in
      match b with
      | EmptyString => None
      | _ =>
        let g1 := a ++ w1 ++ "-->" ++ w2 ++ b in
        option_map (fun g2 => (g1, g2)) (dot_star_end (lstrip r4))
      end
    else None
  end.

(** [\d{1,2}] followed by the character [sep] *)
Definition digits12_then (sep : ascii) (s : string) : option (string * string) :=
  match s with
  | String a (String b (String c r)) =>
      if is_digit a && is_digit b && is_char sep c then Some (String a (String b (char_str c)), r)
      else if is_digit a && is_char sep b then Some (String a (char_str b), String c r)
      else None
  | String a (String b r) =>
      if is_digit a && is_char sep b then Some (String a (char_str b), r) else None
  | _ => None
  end.

(** [\d{1,3}], greedy *)
Definition digits13 (s : string) : option string :=
  match s with
  | String a (String b (String c _)) =>
      if is_digit a then
        if is_digit b then
          if is_digit c then Some (String a (String b (char_str c)))
          else Some (String a (char_str b))
        else Some (char_str a)
      else None
  | String a (String b _) =>
      if is_digit a then
        if is_digit b then Some (String a (char_str b)) else Some (char_str a)
      else None
  | String a _ => if is_digit a then Some (char_str a) else None
  | EmptyString => None
  end.

(** [_time = re.compile(r'(?:\d{1,2}:){2}\d{1,2},\d{1,3}')], [.match]:
    the matched prefix, [group(0)] *)
Definition time_match (s : string) : option string :=
  match digits12_then ":" s with
  | None => None
  | Some (p1, r1) =>
    match digits12_then ":" r1 with
    | None => None
    | Some (p2, r2) =>
      match digits12_then "," r2 with
      | None => None
      | Some (p3, r3) =>
        option_map (fun p4 => p1 ++ p2 ++ p3 ++ p4) (digits13 r3)
      end
    end
  end.

(** [_tagged_header = re.compile(r'^\{([^}]* )\}')] (space added inside
    this comment), [.match]: group 0 and group 1 *)
Definition tagged_match (l : string) : option (string * string) :=
  match l with
  | String c r =>
      if is_char "{" c then
        let (inner, r') := take_while (fun d => negb (is_char "}" d)) r in
        match r' with
        | String _ _ => Some ("{" ++ inner ++ "}", inner)
        | EmptyString => None
        end
      else None
  | EmptyString => None
  end.

(** [_tag_position = re.compile(r'\s*\\pos\(\s*(\d+)\s*,\s*(\d+)\s*\)\s*')]:
    a match starting at the head of [s], as (length of group 0, group 1,
    group 2) *)
Definition pos_at (s : string) : option (nat * string * string) :=
  let (w0, r0) := take_while is_space s in
  if prefix "\pos(" r0 then
    let (w1, r1) := take_while is_space (drop 5 r0) in
    let (x, r2) := take_while is_digit r1 in
    let (w2, r3) := take_while is_space r2 in
    match x, r3 with
    | String _ _, String c r4 =>
      if is_char "," c then
        let (w3, r5) := take_while is_space r4 in
        let (y, r6) := take_while is_digit r5 in
        let (w4, r7) := take_while is_space r6 in
        match y, r7 with
        | String _ _, String d r8 =>
          if is_char ")" d then
            let (w5, _) := take_while is_space r8 in
            Some (length (w0 ++ "\pos(" ++ w1 ++ x ++ w2 ++ "," ++ w3 ++ y ++ w4 ++ ")" ++ w5),
                  x, y)
          else None
        | _, _ => None
        end
      else None
    | _, _ => None
    end
  else None.

(** [.search]: the leftmost match, as (group 0, group 1, group 2) *)
Fixpoint pos_search (s : string) : option (string * string * string) :=
  match pos_at s with
  | Some (n, x, y) => Some (substring 0 n s, x, y)
  | None => match s with
            | EmptyString => None
            | String _ s' => pos_search s'
            end
  end.

(** [s.replace(a, b)] for single characters *)
Fixpoint replace_char_all (a b : ascii) (s : string) : string :=
  match s with
  | EmptyString => EmptyString
  | String c s' => String (if is_char a c then b else c) (replace_char_all a b s')
  end.

(** [float(s)] on the strings [parse_time] hands to it: digits, a dot,
    digits; the value is kept exact *)
Definition py_float (s : string) : option Q :=
  match py_split "." s with
  | [i; f] =>
      let iv := match i with EmptyString => Some 0%N | _ => py_int i end in
      let fv := match f with EmptyString => Some 0%N | _ => py_int f end in
      match iv, fv, i, f with
      | _, _, EmptyString, EmptyString => None
      | Some iv, Some fv, _, _ =>
          Some (Qplus (inject_Z (Z.of_N iv))
                      (Qmake (Z.of_N fv) (Pos.of_nat (Nat.pow 10 (length f)))))
      | _, _, _, _ => None
      end
  | _ => None
  end.

(* ------------------------------------------------------------------ *)
(** ** [SubRipStateMachine] *)

(** A unit under construction, the dict
    [{'sequence': n, 'data': {'lines': [...], 'start': .., 'end': .., 'position': ..}}];
    keys not yet set are [None]. *)
Record unit_rec := Unit {
  u_sequence : N;
  u_lines : list string;
  u_start : option Q;
  u_end : option Q;
  u_position : option (N * N)
}.

Definition empty_unit (n : N) : unit_rec := Unit n [] None None None.

Inductive mstate := MStart | MUnit | MUnitText | MFinished.

Definition mstate_eqb (a b : mstate) : bool :=
  match a, b with
  | MStart, MStart | MUnit, MUnit | MUnitText, MUnitText | MFinished, MFinished => true
  | _, _ => false
  end.

Record machine := Machine {
  m_state : mstate;
  m_temp : option unit_rec;      (* [self.temp] *)
  m_parsed : option unit_rec;    (* [self._parsed] *)
  m_paused : bool;               (* [self.paused] *)
  m_missing_line : bool          (* [self._missing_line] *)
}.

Definition init_machine : machine := Machine MStart None None false false.

(** the machine together with the parser it reads from *)
Record st := St { sp : parser; sm : machine }.

Definition M := ST st.

Definition liftP {A} (m : ST parser A) : M A :=
  fun s => let (p', r) := m (sp s) in (St p' (sm s), r).

Definition modify_m (f : machine -> machine) : M unit :=
  fun s => (St (sp s) (f (sm s)), Ok tt).

Definition set_state (q : mstate) : M unit :=
  modify_m (fun m => Machine q (m_temp m) (m_parsed m) (m_paused m) (m_missing_line m)).
Definition set_temp (t : option unit_rec) : M unit :=
  modify_m (fun m => Machine (m_state m) t (m_parsed m) (m_paused m) (m_missing_line m)).
Definition set_parsed (t : option unit_rec) : M unit :=
  modify_m (fun m => Machine (m_state m) (m_temp m) t (m_paused m) (m_missing_line m)).
Definition set_paused (b : bool) : M unit :=
  modify_m (fun m => Machine (m_state m) (m_temp m) (m_parsed m) b (m_missing_line m)).
Definition set_missing_line (b : bool) : M unit :=
  modify_m (fun m => Machine (m_state m) (m_temp m) (m_parsed m) (m_paused m) b).

Definition get_state : M mstate := fun s => (s, Ok (m_state (sm s))).
Definition get_temp : M (option unit_rec) := fun s => (s, Ok (m_temp (sm s))).
Definition line_num : M Z := fun s => (s, Ok (current_line_num (sp s))).

(** [self.current_line], used as a string: [None] has no string methods *)
Definition cur_line : M string :=
  fun s => match current_line (sp s) with
           | Some l => (s, Ok l)
           | None => (s, Exc AttributeError)
           end.

Definition set_line (l : string) : M unit :=
  fun s => let p := sp s in
           (St (Parser (warnings p) (errors p) (stop_level p) (data p) (read_lines p)
                       (current_line_num p) (Some l)) (sm s), Ok tt).

Definition fetch (i : Z) : M string := liftP (fetch_line i).
Definition warn (ln c : Z) (l d : string) : M unit := liftP (add_warning ln c l d).
Definition err (ln c : Z) (l d : string) : M unit := liftP (add_error ln c l d).

Definition of_option {A} (e : pyexn) (o : option A) : M A :=
  match o with Some a => ret a | None => raise e end.

(** [self.temp['data'][...] = ...] on [self.temp]; [None] is not
    subscriptable *)
Definition update_temp (f : unit_rec -> unit_rec) : M unit :=
  t <- get_temp ;;
  match t with
  | Some u => set_temp (Some (f u))
  | None => raise (TypeError "'NoneType' object is not subscriptable")
  end.

Definition add_lines (ls : list string) : M unit :=
  update_temp (fun u => Unit (u_sequence u) (u_lines u ++ ls) (u_start u) (u_end u) (u_position u)).

(** [pause] *)
Definition pause : M unit := set_paused true.

(** [need_pause] *)
Definition need_pause : M bool :=
  fun s => let p := m_paused (sm s) in
           (St (sp s) (Machine (m_state (sm s)) (m_temp (sm s)) (m_parsed (sm s)) false
                               (m_missing_line (sm s))), Ok p).

(** An event of the [state_machine] library: the transition must leave a
    state of [from] (else [InvalidStateTransition]); the [before]
    callbacks run, then the state changes, then the [after] callbacks run.
    An exception in a callback propagates; one raised by [before] leaves
    the state unchanged. *)
Definition fire (from : list mstate) (to_ : mstate) (before after : M unit) : M unit :=
  q <- get_state ;;
  if existsb (mstate_eqb q) from then before ;; set_state to_ ;; after
  else raise InvalidStateTransition.

(** [validate_unit], before [found_sequence] *)
Definition validate_unit : M unit :=
  t <- get_temp ;;
  let previous_seq := match t with Some u => u_sequence u | None => 0%N end in
  l <- cur_line ;;
  sequence <- of_option (ValueError "invalid literal for int()") (py_int (strip l)) ;;
  if negb (N.eqb sequence (previous_seq + 1)) then
    pause ;;
    set_line (py_str_N (previous_seq + 1)) ;;
    n <- line_num ;;
    orig <- fetch n ;;
    warn (n + 1) 1 orig "Sequence number out of sync" ;;
    raise Skip
  else
    q <- get_state ;;
    if mstate_eqb q MUnitText then
      (* [del self.temp['data']['lines'][-1]] *)
      match t with
      | Some u =>
          match u_lines u with
          | [] => raise IndexError
          | _ => set_temp (Some (Unit (u_sequence u) (removelast (u_lines u))
                                      (u_start u) (u_end u) (u_position u)))
          end
      | None => raise (TypeError "'NoneType' object is not subscriptable")
      end
    else ret tt.

(** [create_unit], after [found_sequence] *)
Definition create_unit : M unit :=
  t <- get_temp ;;
  set_parsed t ;;
  l <- cur_line ;;
  n <- of_option (ValueError "invalid literal for int()") (py_int (strip l)) ;;
  set_temp (Some (empty_unit n)).

(** [convert = lambda x: int(x[0]) * 3600 + int(x[1]) * 60 + float(x[2].replace(',', '.'))] *)
Definition convert (x : list string) : option Q :=
  match x with
  | x0 :: x1 :: x2 :: _ =>
      match py_int x0, py_int x1, py_float (replace_char_all "," "." x2) with
      | Some h, Some m, Some s =>
          Some (Qplus (inject_Z (Z.of_N h * 3600 + Z.of_N m * 60)) s)
      | _, _, _ => None
      end
  | _ => None
  end.

(** [parse_time], after [found_header] *)
Definition parse_time : M unit :=
  l <- cur_line ;;
  match py_split "-->" l with
  | [a; b] =>
      match time_match (strip a), time_match (strip b) with
      | Some ta, Some tb =>
          match convert (py_split ":" ta), convert (py_split ":" tb) with
          | Some vs, Some ve =>
              update_temp (fun u => Unit (u_sequence u) (u_lines u) (Some vs) (Some ve)
                                         (u_position u))
          | _, _ => raise (ValueError "could not convert string to float")
          end
      | _, _ => raise AttributeError   (* [None.group(0)] *)
      end
  | _ => raise (ValueError "not enough values to unpack")
  end.

(** [fix_sequence_skip], after [skip_sequence] *)
Definition fix_sequence_skip : M unit :=
  t <- get_temp ;;
  set_parsed t ;;
  set_temp (Some (empty_unit (match t with Some u => u_sequence u | None => 0%N end + 1))) ;;
  parse_time.

Definition skip_sequence : M unit :=
  fire [MUnitText; MStart] MUnitText (ret tt) fix_sequence_skip.

(** [validate_header], before [found_header] *)
Definition validate_header : M unit :=
  q <- get_state ;;
  if mstate_eqb q MUnitText then
    l <- cur_line ;; n <- line_num ;;
    warn (n + 1) 1 l "Duplicated time information, ignoring." ;;
    raise Skip
  else if mstate_eqb q MStart then
    skip_sequence ;;
    l <- cur_line ;; n <- line_num ;;
    warn (n + 1) 1 l "New unit starts without a sequence." ;;
    raise Skip
  else
    l <- cur_line ;;
    match py_find "." l with
    | Some i =>
        (* stay on the same line *)
        pause ;;
        n <- line_num ;;
        original <- fetch n ;;
        set_line (py_replace1 "." "," l) ;;
        warn (n + 1) (Z.of_nat i + 1) original "Used dot as decimal separator instead of comma." ;;
        raise Skip
    | None =>
        match header_match l with
        | None => raise AttributeError   (* [None.group(2)] *)
        | Some (g1, g2) =>
            match g2 with
            | String _ _ =>
                n <- line_num ;;
                original <- fetch n ;;
                column <- of_option (ValueError "substring not found") (py_find g2 l) ;;
                set_line g1 ;;
                pause ;;
                warn (n + 1) (Z.of_nat column + 1) original "Header has unrecognized content at the end." ;;
                raise Skip
            | EmptyString =>
                match py_split "-->" l with
                | [a; b] =>
                    match time_match (strip a), time_match (strip b) with
                    | Some _, Some _ => ret tt
                    | _, _ =>
                        n <- line_num ;;
                        orig <- fetch n ;;
                        err (n + 1) 1 orig "Could not parse timings." ;;
                        raise Skip
                    end
                | _ => raise (ValueError "too many values to unpack")
                end
            end
        end
    end.

(** [validate_text], before [found_text] *)
Definition validate_text : M unit :=
  q <- get_state ;;
  if mstate_eqb q MStart then
    t <- get_temp ;;
    match t with
    | Some _ => add_lines [EmptyString]
    | None =>
        l <- cur_line ;; n <- line_num ;;
        warn (n + 1) 1 l "Junk before first unit." ;;
        raise Skip
    end
  else ret tt.

(** [insert_text], after [found_text] *)
Definition insert_text : M unit :=
  l <- cur_line ;;
  tagged <-
    match tagged_match l with
    | None => ret None
    | Some (g0, inner) =>
        set_line (drop (length g0) l) ;;
        match pos_search inner with
        | Some (pg0, xs, ys) =>
            x <- of_option (ValueError "invalid literal for int()") (py_int xs) ;;
            y <- of_option (ValueError "invalid literal for int()") (py_int ys) ;;
            update_temp (fun u => Unit (u_sequence u) (u_lines u) (u_start u) (u_end u)
                                       (Some (x, y))) ;;
            ret (Some (py_replace1 pg0 EmptyString inner))
        | None => ret (Some inner)
        end
    end ;;
  l' <- cur_line ;;
  add_lines (map rstrip (py_split "|" l')) ;;
  (* unknown TAG headers *)
  if truthy_str tagged then
    n <- line_num ;;
    orig <- fetch n ;;
    warn (n + 1) 1 orig "Tagged header not fully parsed." ;;
    raise Skip
  else ret tt.

(** [validate_empty], before [found_empty] *)
Definition validate_empty : M unit :=
  q <- get_state ;;
  if mstate_eqb q MStart then
    t <- get_temp ;;
    match t with
    | Some _ => add_lines [EmptyString]
    | None =>
        n <- line_num ;; orig <- fetch n ;;
        warn (n + 1) 1 orig "Have empty line before first unit." ;;
        raise Skip
    end
  else if mstate_eqb q MUnit then
    n <- line_num ;; orig <- fetch n ;;
    warn (n + 1) 1 orig "Have empty line between sequence number and timings." ;;
    raise Skip
  else ret tt.

(** the two [final_unit] callbacks, before and after [done] *)
Definition final_unit_before : M unit :=
  q <- get_state ;; set_missing_line (negb (mstate_eqb q MStart)).

Definition final_unit_after : M unit :=
  t <- get_temp ;;
  set_parsed t ;;
  set_temp None ;;
  ml <- (fun s => (s, Ok (m_missing_line (sm s)))) ;;
  if ml then
    n <- line_num ;;
    original <- fetch n ;;
    l <- cur_line ;;
    warn (n + 1) (Z.of_nat (length l)) original "Missing empty line after unit." ;;
    raise Skip
  else ret tt.

(** the events *)
Definition found_sequence : M unit := fire [MStart] MUnit validate_unit create_unit.
Definition found_header : M unit :=
  fire [MUnit; MUnitText; MStart] MUnitText validate_header parse_time.
Definition found_text : M unit := fire [MUnitText; MStart] MUnitText validate_text insert_text.
Definition found_empty : M unit :=
  fire [MUnitText; MStart; MUnit] MStart validate_empty (ret tt).
Definition done : M unit :=
  fire [MUnit; MUnitText; MStart] MFinished final_unit_before final_unit_after.

(** [iterate]: classify the current line *)
Definition classify : M unit :=
  l <- cur_line ;;
  match strip l with
  | EmptyString => found_empty
  | _ =>
      q <- get_state ;;
      if mstate_eqb q MStart && sequence_match l then found_sequence
      else match header_match l with
           | Some _ => found_header
           | None => found_text
           end
  end.

Definition iterate : M unit :=
  p <- need_pause ;;
  if p then classify
  else b <- liftP next_line ;;
       if b then classify else done.

(** [parsed] *)
Definition parsed : M (option unit_rec) :=
  fun s => match m_parsed (sm s) with
           | Some u => (St (sp s) (Machine (m_state (sm s)) (m_temp (sm s)) None
                                           (m_paused (sm s)) (m_missing_line (sm s))), Ok (Some u))
           | None => (s, Ok None)
           end.

(** One pass of the [while True] loop of [SubRipParser._parse]: what it
    yields, and whether it breaks. *)
Definition loop_body : M (option unit_rec * bool) :=
  fun s =>
    let body : M (option unit_rec * bool) :=
      q <- get_state ;;
      (if mstate_eqb q MFinished then ret tt else iterate) ;;
      y <- parsed ;;
      q' <- get_state ;;
      ret (y, mstate_eqb q' MFinished) in
    match body s with
    | (s', Exc Skip) => (s', Ok (None, false))
    | (s', Exc InvalidStateTransition) =>
        let p := sp s' in
        let l := match current_line p with Some l => l | None => "None" end in
        match add_error (current_line_num p + 1) 1 l "Unparsable line" p with
        | (p', Ok _) => (St p' (sm s'), Ok (None, false))
        | (p', Exc e) => (St p' (sm s'), Exc e)
        end
    | r => r
    end.

Inductive outcome :=
| Finished (s : st)            (* the generator is exhausted *)
| Raised (e : pyexn) (s : st)  (* an exception escaped [_parse] *)
| OutOfFuel (s : st).

(** [SubRipParser._parse], run for at most [fuel] passes of its loop: the
    units it yields, in order, and how it ends. *)
Fixpoint run (fuel : nat) (s : st) : list unit_rec * outcome :=
  match fuel with
  | O => ([], OutOfFuel s)
  | S f =>
      match loop_body s with
      | (s', Ok (y, brk)) =>
          let ys := match y with Some u => [u] | None => [] end in
          if brk then (ys, Finished s')
          else let (r, o) := run f s' in ((ys ++ r)%list, o)
      | (s', Exc e) => ([], Raised e s')
      end
  end.

(** a parser over the decoded text [doc], with the given stop level *)
Definition init_st (stop : option string) (doc : string) : st :=
  St (set_data (new_parser stop) (Some (Stream (py_lines doc) 0))) init_machine.

(** ["\n"] *)
Definition nl : string := String "010"%char EmptyString.

(** [SubRipParser._parse] run to its end on the text [doc]: [fuel] bounds
    the passes of its loop by the cost of the lines (see [parse_terminates]). *)
Definition line_cost (l : string) : nat := 2 * length l + 4.

Definition parse_fuel (doc : string) : nat :=
  fold_right (fun l n => line_cost l + n) 4 (py_lines doc).

Definition parse_doc (stop : option string) (doc : string) : list unit_rec * outcome :=
  run (parse_fuel doc) (init_st stop doc).

(** the units yielded and the final [warnings] and [errors], when the
    generator is exhausted without an exception *)
Definition parse_result (stop : option string) (doc : string)
  : option (list unit_rec * list msg * list msg) :=
  match parse_doc stop doc with
  | (ys, Finished s) => Some (ys, warnings (sp s), errors (sp s))
  | _ => None
  end.

(* ------------------------------------------------------------------ *)
(** ** [encodings.py] *)

(** a [io.BytesIO]: its bytes and position *)
Record bstream := BStream { b_bytes : list byte; b_pos : nat }.

Definition bytes_io (b : list byte) : bstream := BStream b 0.
Definition bseek0 (d : bstream) : bstream := BStream (b_bytes d) 0.

(** [data.read(n)] and [data.read()] *)
Definition bread (n : nat) (d : bstream) : list byte * bstream :=
  let r := firstn n (skipn (b_pos d) (b_bytes d)) in
  (r, BStream (b_bytes d) (b_pos d + List.length r)).
Definition bread_all (d : bstream) : list byte * bstream :=
  let r := skipn (b_pos d) (b_bytes d) in
  (r, BStream (b_bytes d) (List.length (b_bytes d))).

Fixpoint bprefix (p s : list byte) : bool :=
  match p, s with
  | [], _ => true
  | x :: p', y :: s' => Byte.eqb x y && bprefix p' s'
  | _ :: _, [] => false
  end.

(** [codecs.BOM_UTF8]; [codecs.BOM_UTF16] is the byte order mark in the
    host's byte order, here a little-endian host (x86, ARM). *)
Definition BOM_UTF8 : list byte := [xef; xbb; xbf]%byte.
Definition BOM_UTF16 : list byte := [xff; xfe]%byte.

(** [invalid_chars = u'\x9e'] *)
Definition invalid_char : N := 158%N.

(** [similar_encodings] *)
Definition similar_encodings (e : string) : option (list string) :=
  if String.eqb e "ISO-8859-2" then Some ["windows-1250"]
  else if String.eqb e "windows-1255" then Some ["windows-1256"]
  else if String.eqb e "GB2312" then Some ["GB18030"]
  else if String.eqb e "EUC-TW" then Some ["BIG5-TW"]
  else None.

(** the dict literal of [guess_from_lang], in source order; the key ['es']
    appears twice and a dict literal keeps the last value *)
Definition lang_guesses : list (string * list string) :=
  [("sl", ["windows-1250"]); ("ko", ["euckr"]); ("ja", ["sjis"]);
   ("ar", ["windows-1256"]); ("el", ["windows-1253"]); ("zh", ["big5"]);
   ("he", ["windows-1255"]); ("ru", ["koi8-r"]); ("es", ["windows-1252"]);
   ("fr", ["windows-1252"]); ("bg", ["windows-1251"]); ("mk", ["windows-1251"]);
   ("th", ["windows-874"]); ("uk", ["koi8-u"]); ("sr", ["windows-1251"]);
   ("vi", ["windows-1258"]); ("fa", ["windows-1256"]); ("fi", ["iso8859-15"]);
   ("es", ["iso8859-15"])].

Fixpoint dict_get_last (k : string) (kvs : list (string * list string)) : option (list string) :=
  match kvs with
  | [] => None
  | (k', v) :: r =>
      match dict_get_last k r with
      | Some w => Some w
      | None => if String.eqb k k' then Some v else None
      end
  end.

(** [guess_from_lang] *)
Definition guess_from_lang (lang : string) : list string :=
  match dict_get_last lang lang_guesses with Some v => v | None => [] end.

(** A candidate of [detect]: a plain encoding name (hint, language guess,
    similar encoding) or the [(encoding, confidence)] tuple of chardet. *)
Inductive cand := CName (e : string) | CGuess (e : string) (conf : Q).

Definition cand_name (c : cand) : string :=
  match c with CName e => e | CGuess e _ => e end.

(** the value returned for a candidate: [(encoding, None)] or the tuple *)
Definition cand_result (c : cand) : string * option Q :=
  match c with CName e => (e, None) | CGuess e q => (e, Some q) end.

Inductive detect_res :=
| DOk (enc : string) (confidence : option Q)
| EncodingError (message : string) (tried : list string)
| DIndexError                  (* [pop from empty list] *)
| DOutOfFuel.

Definition ok_of (r : detect_res) : option (string * option Q) :=
  match r with DOk e q => Some (e, q) | _ => None end.

(** [encodings.pop()]: the last element *)
Definition pop {A} (xs : list A) : option (A * list A) :=
  match rev xs with [] => None | x :: r => Some (x, rev r) end.

(** the list [encodings] built by [detect] before it is reversed: the
    encoding hint, the language guesses, the tuple of chardet *)
Definition candidates (encoding language : option string) (detected : option string * Q)
  : list cand :=
  (match encoding with
   | Some e => if truthy_str encoding then [CName e] else []
   | None => [] end ++
   match language with
   | Some l => if truthy_str language then map CName (guess_from_lang l) else []
   | None => [] end ++
   match fst detected with
   | Some e => if truthy_str (Some e) then [CGuess e (snd detected)] else []
   | None => []
   end)%list.

Section Detect.

(** the statistical detector: [chardet.detect(b)['encoding']] and its
    ['confidence'] *)
Variable chardet : list byte -> option string * Q.

(** decoding a whole byte string with a codec: the code points, or [None]
    when Python raises [UnicodeDecodeError] or [LookupError] *)
Variable decode : string -> list byte -> option (list N).

(** [can_decode]: decodes from the current position, then seeks to 0 *)
Definition can_decode (d : bstream) (enc : string) : bool * bstream :=
  let proper :=
    match decode enc (skipn (b_pos d) (b_bytes d)) with
    | Some text => negb (existsb (N.eqb invalid_char) text)
    | None => false
    end in
  (proper, bseek0 d).

(** the [while True] loop of [detect]; [tried] is [tried_encodings] (a set,
    kept without duplicates) *)
Fixpoint detect_loop (fuel : nat) (encs : list cand) (tried : list string) (d : bstream)
  : detect_res * bstream :=
  match fuel with
  | O => (DOutOfFuel, d)
  | S f =>
      match pop encs with
      | None => (DIndexError, d)
      | Some (c, rest) =>
          let (ok, d') := can_decode d (cand_name c) in
          if ok then (let (e, q) := cand_result c in DOk e q, d')
          else
            let name := cand_name c in
            let tried' := if existsb (String.eqb name) tried then tried else (tried ++ [name])%list in
            let rest' :=
              match similar_encodings name with
              | Some ((_ :: _) as sim) =>
                  (* [list(set(similar).difference(tried_encodings))] *)
                  (rest ++ map CName (filter (fun s => negb (existsb (String.eqb s) tried')) sim))%list
              | _ => rest
              end in
            match rest' with
            | [] => (EncodingError "Could not detect proper encoding" tried', d')
            | _ => detect_loop f rest' tried' d'
            end
      end
  end.

(** [detect(data, encoding, language)] *)
Definition detect (data : bstream) (encoding language : option string) : detect_res * bstream :=
  let (test_data, d1) := bread 8 data in
  let d2 := bseek0 d1 in
  if bprefix BOM_UTF8 test_data then (DOk "utf-8-sig" None, d2)
  else if bprefix BOM_UTF16 test_data then (DOk "utf16" None, d2)
  else
    let (all, d3) := bread_all d2 in
    let d4 := bseek0 d3 in
    let encs := candidates encoding language (chardet all) in
    match encs with
    | [] => (EncodingError "Have no clue where to start." [], d4)
    | _ => detect_loop (2 * List.length encs + 1) (rev encs) [] d4
    end.

End Detect.

(** Example inputs for the detector: a chardet that finds nothing, and
    codecs that agree with Python's on ASCII bytes and on the bytes listed
    (code points of [latin-1] are the bytes; [0x9e] is [U+009E] in
    [ISO-8859-2], [U+017E] in [windows-1250], [U+00B7] in [koi8-r]); other
    bytes are left undecodable. *)
Definition chardet_none (_ : list byte) : option string * Q := (None, 0%Q).

Definition byte_N (b : byte) : N := N.of_nat (Byte.to_nat b).

Definition codec_ex (enc : string) (bs : list byte) : option (list N) :=
  let one (b : byte) : option N :=
    let n := byte_N b in
    if String.eqb enc "latin-1" then Some n
    else if (n <? 128)%N then Some n
    else if (n =? 158)%N then
      if String.eqb enc "ISO-8859-2" then Some 158%N
      else if String.eqb enc "windows-1250" then Some 382%N
      else if String.eqb enc "koi8-r" then Some 183%N
      else None
    else None in
  fold_right (fun b acc => match one b, acc with
                           | Some n, Some r => Some (n :: r)
                           | _, _ => None
                           end) (Some []) bs.

(** [find_spec]: the candidates of [detect] with, after each one, the
    encodings [similar_encodings] lists for it *)
Definition expand (cs : list cand) : list cand :=
  flat_map (fun c => c :: map CName (match similar_encodings (cand_name c) with
                                     | Some s => s | None => [] end)) cs.

(** the first candidate that decodes the buffer [buf] *)
Definition first_decoding (decode : string -> list byte -> option (list N))
  (buf : list byte) (cs : list cand) : option cand :=
  find (fun c => fst (can_decode decode (bytes_io buf) (cand_name c))) cs.

(** "strictly below the stop level", or no stop level at all *)
Definition below_stop (stop : option string) (lvl : level) : Prop :=
  match stop with
  | None => True
  | Some s => s = EmptyString \/ exists j, levels_index s = Some j /\ (level_index lvl < j)%nat
  end.

Definition raised_as (lvl : level) (m : msg) : pyexn :=
  match lvl with LWarning => ParseWarning m | LError => ParseError m end.

(** the C2 document *)
Definition doc_hello : string :=
  "1" ++ nl ++ "00:00:15,000 --> 00:00:30,000" ++ nl ++ "Hello" ++ nl ++ nl.

Definition Qeq_opt (o : option Q) (q : Q) : Prop :=
  match o with Some v => Qeq v q | None => False end.

(** one unit: sequence line, timing line, one text line, blank line *)
Definition unit_block (seq hdr txt : string) : string :=
  seq ++ nl ++ hdr ++ nl ++ txt ++ nl ++ nl.

(** four units numbered 1, 2, 4, 5 *)
Definition doc_gap : string :=
  unit_block "1" "00:00:01,000 --> 00:00:02,000" "A" ++
  unit_block "2" "00:00:03,000 --> 00:00:04,000" "B" ++
  unit_block "4" "00:00:05,000 --> 00:00:06,000" "D" ++
  unit_block "5" "00:00:07,000 --> 00:00:08,000" "E".

Definition sync_warnings (ws : list msg) : list msg :=
  filter (fun m => String.eqb (description m) "Sequence number out of sync") ws.

(** the same unit with dots and with commas as decimal separators *)
Definition doc_dot : string := unit_block "1" "00:00:01.000 --> 00:00:02.000" "A".
Definition doc_comma : string := unit_block "1" "00:00:01,000 --> 00:00:02,000" "A".

Definition msg_pos (m : msg) : Z * Z * string := (line_number m, col m, description m).

(* ================================================================== *)
(** ** Termination measure of the parsing loop *)

(** [m] leaves the observation [f] of the state unchanged *)
Definition keeps {B A} (f : st -> B) (m : M A) : Prop := forall s, f (fst (m s)) = f s.

(** the data stream and the pause flag *)
Definition core_d (s : st) : option stream * bool := (data (sp s), m_paused (sm s)).

(** the data stream, the pause flag and the machine state *)
Definition core_s (s : st) : option stream * bool * mstate :=
  (data (sp s), m_paused (sm s), m_state (sm s)).

(** length of a line where a [.] counts twice: replacing a dot by a comma
    lowers it *)
Fixpoint weight (s : string) : nat :=
  match s with
  | EmptyString => 0
  | String c s' => (if Ascii.eqb c "." then 2 else 1) + weight s'
  end.

(** an exception that ends [_parse]: [Skip] and [InvalidStateTransition]
    are caught by its loop *)
Definition quits {A} (r : res A) : bool :=
  match r with Exc Skip | Exc InvalidStateTransition | Ok _ => false | Exc _ => true end.

(** from an unpaused state, [m] keeps the data stream, and when it leaves
    the machine paused it raised an exception, after which, if the loop
    catches it, [P] relates the state before and after *)
Definition pspec {A} (P : st -> st -> Prop) (m : M A) : Prop :=
  forall s, m_paused (sm s) = false ->
    data (sp (fst (m s))) = data (sp s) /\
    (m_paused (sm (fst (m s))) = true ->
       (exists e, snd (m s) = Exc e) /\ (quits (snd (m s)) = false -> P s (fst (m s)))).

(** [self.temp['sequence'] if self.temp else 0] *)
Definition prev (t : option unit_rec) : N := match t with Some u => u_sequence u | None => 0%N end.

(** the retry of [validate_unit]: the line is not the expected number, and
    is replaced by it *)
Definition Pvu (s s' : st) : Prop :=
  m_state (sm s') = m_state (sm s) /\ m_temp (sm s') = m_temp (sm s) /\
  (exists l, current_line (sp s) = Some l /\ py_int (strip l) <> Some (prev (m_temp (sm s)) + 1)%N) /\
  current_line (sp s') = Some (py_str_N (prev (m_temp (sm s)) + 1)).

(** the retries of [validate_header]: in state [unit], the line gets a
    lower weight *)
Definition Pvh (s s' : st) : Prop :=
  m_state (sm s') = m_state (sm s) /\ m_state (sm s) <> MStart /\ m_state (sm s) <> MUnitText /\
  exists l l', current_line (sp s) = Some l /\ current_line (sp s') = Some l' /\ weight l' < weight l.

(** the retries reachable from [iterate] *)
Definition Pcl (s s' : st) : Prop :=
  (m_state (sm s) = MStart /\ Pvu s s') \/ (m_state (sm s) = MUnit /\ Pvh s s').

(** the passes a paused line may still take *)
Definition ppot (q : mstate) (cl : option string) (t : option unit_rec) : nat :=
  match q, cl with
  | MUnit, Some l => 1 + weight l
  | MStart, Some l =>
      match py_int (strip l) with
      | Some n => if N.eqb n (prev t + 1) then 1 else 2
      | None => 2
      end
  | _, _ => 1
  end.

Definition pot (s : st) : nat :=
  if m_paused (sm s) then ppot (m_state (sm s)) (current_line (sp s)) (m_temp (sm s)) else 0.

(** the passes left for the unread lines *)
Definition cost_lines (ls : list string) : nat := fold_right (fun l n => line_cost l + n) 0 ls.

Definition rest (d : option stream) : nat :=
  match d with Some d => cost_lines (skipn (s_pos d) (s_lines d)) | None => 0 end.

(** decreases at each pass of the loop that does not break *)
Definition measure (s : st) : nat :=
  match m_state (sm s) with
  | MFinished => 0
  | _ => 2 + pot s + rest (data (sp s))
  end.

(** the machine after [need_pause] *)
Definition unpause (m : machine) : machine :=
  Machine (m_state m) (m_temp m) (m_parsed m) false (m_missing_line m).

(* ------------------------------------------------------------------ *)
(** ** Well-formed SubRip documents *)

(** the digit character of [d] *)
Definition dchar (d : nat) : ascii := ascii_of_nat (48 + d).

(** a SubRip time [hh:mm:ss,mmm] *)
Record srt_time := SrtTime { t_h : nat; t_m : nat; t_s : nat; t_ms : nat }.

Definition time_ok (t : srt_time) : Prop :=
  t_h t < 100 /\ t_m t < 100 /\ t_s t < 100 /\ t_ms t < 1000.

Definition two_digits (n : nat) : string :=
  String (dchar (n / 10)) (String (dchar (n mod 10)) EmptyString).

Definition three_digits (n : nat) : string :=
  String (dchar (n / 100)) (String (dchar (n / 10 mod 10)) (String (dchar (n mod 10)) EmptyString)).

(** the time as written in a timing line, two digits per field and three
    for the milliseconds *)
Definition time_str (t : srt_time) : string :=
  two_digits (t_h t) ++ ":" ++ two_digits (t_m t) ++ ":" ++ two_digits (t_s t) ++ ","
  ++ three_digits (t_ms t).

(** the number of seconds the time stands for *)
Definition seconds (t : srt_time) : Q :=
  Qplus (inject_Z (Z.of_nat (3600 * t_h t + 60 * t_m t + t_s t))) (Z.of_nat (t_ms t) # 1000).

(** a unit of a well-formed document: its times and its text lines *)
Record srt_unit := SrtUnit { su_start : srt_time; su_end : srt_time; su_text : list string }.

(** its timing line [start --> end] *)
Definition header_str (u : srt_unit) : string :=
  time_str (su_start u) ++ " --> " ++ time_str (su_end u).

Definition no_char (d : ascii) (s : string) : Prop := forall c, In c (list_ascii_of_string s) -> c <> d.

(** a text line the parser keeps as it is: not blank, no trailing blank,
    no [|], no line break, no leading [{] and not itself a timing line *)
Definition text_ok (x : string) : Prop :=
  strip x <> EmptyString /\ rstrip x = x /\
  no_char "|" x /\ no_char "010" x /\ no_char "013" x /\
  (forall r, x <> String "{" r) /\ header_match x = None.

Definition unit_ok (u : srt_unit) : Prop :=
  time_ok (su_start u) /\ time_ok (su_end u) /\ Forall text_ok (su_text u).

Definition blank_after (trailing : bool) (rest : list srt_unit) : list string :=
  match rest with [] => if trailing then [EmptyString] else [] | _ => [EmptyString] end.

(** the lines of a document with the units [us] numbered from [n], a blank
    line between two units and, when [trailing], one after the last *)
Fixpoint srt_lines (n : N) (trailing : bool) (us : list srt_unit) : list string :=
  match us with
  | [] => []
  | u :: us' =>
      py_str_N n :: header_str u :: su_text u ++ blank_after trailing us' ++
      srt_lines (n + 1) trailing us'
  end.

Definition join_lines (ls : list string) : string := fold_right (fun l acc => l ++ nl ++ acc) EmptyString ls.

(** the document text: each line ended by a newline *)
Definition srt_doc (trailing : bool) (us : list srt_unit) : string := join_lines (srt_lines 1 trailing us).

(** a parsed unit [y] numbered [n] carries the text and times of [u] *)
Definition unit_matches (y : unit_rec) (n : N) (u : srt_unit) : Prop :=
  u_sequence y = n /\ u_lines y = su_text u /\
  Qeq_opt (u_start y) (seconds (su_start u)) /\ Qeq_opt (u_end y) (seconds (su_end u)).

Fixpoint units_match (ys : list unit_rec) (n : N) (us : list srt_unit) : Prop :=
  match ys, us with
  | [], [] => True
  | y :: ys', u :: us' => unit_matches y n u /\ units_match ys' (n + 1) us'
  | _, _ => False
  end.

Definition py_int_is (s : string) (n : nat) : bool :=
  match py_int s with Some k => N.eqb k (N.of_nat n) | None => false end.

Definition tchar (c : ascii) : Prop :=
  is_hclass c = true /\ is_space c = false /\ c <> "."%char /\ c <> "-"%char /\ c <> "|"%char /\
  c <> "010"%char /\ c <> "013"%char.

Definition all_t (s : string) : Prop := forall c, In c (list_ascii_of_string s) -> tchar c.

Definition dstr9 (d1 d2 d3 d4 d5 d6 d7 d8 d9 : ascii) : string :=
  String d1 (String d2 (String ":" (String d3 (String d4 (String ":" (String d5 (String d6
    (String "," (String d7 (String d8 (String d9 EmptyString))))))))))).

(** the characters of a rendered time that are not separators *)
Definition dchars (c : ascii) : Prop :=
  c <> ":"%char /\ c <> ","%char /\ c <> "."%char.

Definition schar (c : ascii) : Prop :=
  is_digit c = true /\ is_space c = false /\ c <> "010"%char /\ c <> "013"%char.

(** the parser and machine while reading the line at index [pos] of [L] *)
Definition cfg (stop : option string) (L : list string) (pos : nat) (cl : option string)
  (q : mstate) (t pz : option unit_rec) : st :=
  St (Parser [] [] stop (Some (Stream L pos)) (firstn pos L) (Z.of_nat pos - 1) cl)
     (Machine q t pz false false).

Definition opt_list (y : option unit_rec) : list unit_rec :=
  match y with Some u => [u] | None => [] end.

Definition addnl (l : string) : string := (l ++ nl)%string.

Definition crlf_free (l : string) : Prop := no_char "010" l /\ no_char "013" l.

(** one unit, from 1 s to 2.5 s, with the text line [Hello] *)
Definition u_hello : srt_unit := SrtUnit (SrtTime 0 0 1 0) (SrtTime 0 0 2 500) ["Hello"].

(** one unit whose text line holds a [|] *)
Definition doc_pipe : string := unit_block "1" "00:00:01,000 --> 00:00:02,000" "a|b".

(** ** The line buffer and the parser state, observed *)

(** the read history of the parser agrees with its stream: the lines
    before the read position, and the cursor on the last of them *)
Definition hist_ok (p : parser) : Prop :=
  match data p with
  | Some d => read_lines p = firstn (s_pos d) (s_lines d) /\
              current_line_num p = (Z.of_nat (s_pos d) - 1)%Z
  | None => read_lines p = [] /\ current_line_num p = (-1)%Z
  end.

(** a text stream as [readline] sees it: no line is empty, since each
    ends with its line break except maybe the last *)
Definition lines_ok (p : parser) : Prop :=
  match data p with Some d => Forall (fun l => l <> EmptyString) (s_lines d) | None => True end.

(** a parser two lines into the stream [a], [b], having read [a] *)
Definition p_ab : parser := Parser [] [] None (Some (Stream ["a"; "b"] 1)) ["a"] 0 None.

(** the parser after reading the first [pos] lines of [L] (with its
    diagnostics [ws] and [es]), and the machine [m] *)
Definition at_line (ws es : list msg) (stop : option string) (L : list string) (pos : nat)
  (cl : option string) (m : machine) : st :=
  St (Parser ws es stop (Some (Stream L pos)) (firstn pos L) (Z.of_nat pos - 1) cl) m.

(** what the sequence-number invariant looks at: the machine state, and
    the numbers of the last yielded unit and of the unit being read *)
Definition seq_obs (s : st) : mstate * option N * option N :=
  (m_state (sm s), option_map u_sequence (m_parsed (sm s)), option_map u_sequence (m_temp (sm s))).

(** every number seen is above the last yielded one [lo]; the unit being
    read is numbered above the parsed one; with no unit being read the
    machine has finished or nothing has been yielded yet *)
Definition seq_inv (lo : N) (o : mstate * option N * option N) : Prop :=
  let '(q, po, to) := o in
  (forall p, po = Some p -> (lo < p)%N) /\
  (forall t, to = Some t -> (lo < t)%N /\ forall p, po = Some p -> (p < t)%N) /\
  (to = None -> q = MFinished \/ (lo = 0%N /\ po = None)).

(** [m] leaves [P] true on the state it reaches, result or exception *)
Definition pres {A} (P : st -> Prop) (m : M A) : Prop := forall s, P s -> P (fst (m s)).

(** [m], when it succeeds, leaves the observed numbers as they were *)
Definition okkeeps {A} (m : M A) : Prop := forall s s1 a, m s = (s1, Ok a) -> seq_obs s1 = seq_obs s.

(** [m] always raises *)
Definition raises {A} (m : M A) : Prop := forall s, exists e, snd (m s) = Exc e.

(** a unit already read, numbered 1 *)
Definition u_one : unit_rec := Unit 1 ["A"] None None None.

(** Python's invariant of the line buffer: [len(self._read_lines) ==
    self._current_line_num + 1] *)
Definition cursor_ok (p : parser) : Prop :=
  Z.of_nat (List.length (read_lines p)) = (current_line_num p + 1)%Z.

(** ** Generated SubRip documents *)

(** the timing line with dots as decimal separators *)
Definition dot12 : string := "00:00:01.000 --> 00:00:02.000".

Definition time_1s : srt_time := SrtTime 0 0 1 0.
Definition time_2s : srt_time := SrtTime 0 0 2 0.

(** a timing line: [HComma a b] is [a --> b] written with commas, [HDot12]
    is [dot12] *)
Inductive hline := HComma (a b : srt_time) | HDot12.

Definition hline_str (h : hline) : string :=
  match h with HComma a b => header_str (SrtUnit a b []) | HDot12 => dot12 end.

(** the times the line stands for *)
Definition hline_times (h : hline) : srt_time * srt_time :=
  match h with HComma a b => (a, b) | HDot12 => (time_1s, time_2s) end.

(** the same line written with commas *)
Definition hline_comma (h : hline) : string :=
  header_str (SrtUnit (fst (hline_times h)) (snd (hline_times h)) []).

Definition hline_ok (h : hline) : Prop :=
  match h with HComma a b => time_ok a /\ time_ok b | HDot12 => True end.

(** the columns of its dots *)
Definition hline_cols (h : hline) : list Z :=
  match h with HComma _ _ => [] | HDot12 => [9; 26]%Z end.

(** a unit as written: its sequence number (any), its timing line and its
    text lines *)
Record gunit := GUnit { g_seq : N; g_hdr : hline; g_text : list string }.

Definition gunit_ok (g : gunit) : Prop := hline_ok (g_hdr g) /\ Forall text_ok (g_text g).

(** a well-formed unit numbered [k] *)
Definition su_gunit (k : N) (u : srt_unit) : gunit := GUnit k (HComma (su_start u) (su_end u)) (su_text u).

(** the lines of the document: a blank line between two units and, when
    [trailing], one after the last *)
Fixpoint gen_lines (trailing : bool) (gs : list gunit) : list string :=
  match gs with
  | [] => []
  | g :: gs' =>
      py_str_N (g_seq g) :: hline_str (g_hdr g) :: g_text g ++
      match gs' with [] => if trailing then [EmptyString] else [] | _ => [EmptyString] end ++
      gen_lines trailing gs'
  end.

Definition gen_doc (trailing : bool) (gs : list gunit) : string := join_lines (gen_lines trailing gs).

Definition dot_msg : string := "Used dot as decimal separator instead of comma.".

(** the unit [g] read as the unit numbered [n] *)
Definition gen_unit (n : N) (g : gunit) : unit_rec :=
  Unit n (g_text g) (convert (py_split ":" (time_str (fst (hline_times (g_hdr g))))))
       (convert (py_split ":" (time_str (snd (hline_times (g_hdr g)))))) None.

Fixpoint gen_units (n : N) (gs : list gunit) : list unit_rec :=
  match gs with [] => [] | g :: gs' => gen_unit n g :: gen_units (n + 1) gs' end.

(** the warnings on the unit [g] expected as number [n], its first line at
    index [pos] *)
Definition unit_warns (n : N) (pos : nat) (g : gunit) : list msg :=
  (if N.eqb (g_seq g) n then []
   else [Msg (Z.of_nat pos + 1) 1 (py_str_N (g_seq g)) "Sequence number out of sync"]) ++
  map (fun c => Msg (Z.of_nat pos + 2) c (hline_str (g_hdr g)) dot_msg) (hline_cols (g_hdr g)).

Fixpoint gen_warns (n : N) (pos : nat) (gs : list gunit) : list msg :=
  match gs with
  | [] => []
  | g :: gs' => unit_warns n pos g ++ gen_warns (n + 1) (pos + 3 + List.length (g_text g)) gs'
  end.

(** the warning on a document whose last unit is not followed by a blank
    line *)
Fixpoint gen_tail (pos : nat) (gs : list gunit) : list msg :=
  match gs with
  | [] => []
  | [g] => [Msg (Z.of_nat (pos + 2 + List.length (g_text g)))
                (Z.of_nat (length (last (g_text g) (hline_comma (g_hdr g)))))
                (last (g_text g) (hline_str (g_hdr g))) "Missing empty line after unit."]
  | g :: gs' => gen_tail (pos + 3 + List.length (g_text g)) gs'
  end.

Definition sync_line (m : msg) : Z * Z * string := (line_number m, col m, line m).

(** the dotted timing line after its first dot has been replaced *)
Definition dot12a : string := "00:00:01,000 --> 00:00:02.000".

(** the warnings on dots, and the others *)
Definition dot_warnings (ws : list msg) : list msg :=
  filter (fun m => String.eqb (description m) dot_msg) ws.
Definition other_warnings (ws : list msg) : list msg :=
  filter (fun m => negb (String.eqb (description m) dot_msg)) ws.


(** * Proofs *)

(** ** The diagnostics sink *)

(** C9: at or above the stop level [_add_msg] raises [ParseWarning] or
    [ParseError] and leaves the parser (its [warnings] and [errors]) as it
    was; strictly below it (or with no stop level) the message is appended
    to the list of its severity. *)
Theorem add_msg_stop_level (lvl : level) (ln c : Z) (l d : string) (p : parser) :
  (forall s j, stop_level p = Some s -> levels_index s = Some j ->
     (j <= level_index lvl)%nat ->
     add_msg lvl ln c l d p = (p, Exc (raised_as lvl (Msg ln c l d)))) /\
  (below_stop (stop_level p) lvl ->
     let (p', r) := add_msg lvl ln c l d p in
     r = Ok tt /\
     warnings p' = (warnings p ++ match lvl with LWarning => [Msg ln c l d] | LError => [] end)%list /\
     errors p' = (errors p ++ match lvl with LError => [Msg ln c l d] | LWarning => [] end)%list).
Proof.
  destruct p as [w e stop dt rl n cl]; simpl.
  split.
  - intros s j -> Hj Hle.
    destruct s as [|a s']; [discriminate Hj|].
    unfold add_msg; simpl. rewrite Hj. apply Nat.leb_le in Hle. rewrite Hle.
    destruct lvl; reflexivity.
  - intros Hb. unfold add_msg; simpl.
    destruct stop as [s|]; simpl in Hb.
    + destruct Hb as [-> | [j [Hj Hlt]]].
      * destruct lvl; simpl; rewrite ?app_nil_r; repeat split.
      * destruct s as [|a s']; [destruct lvl; simpl; rewrite ?app_nil_r; repeat split|].
        simpl truthy_str. cbv iota beta. rewrite Hj.
        assert (Hf : (j <=? level_index lvl)%nat = false) by (apply Nat.leb_gt; lia).
        rewrite Hf. destruct lvl; simpl; rewrite ?app_nil_r; repeat split.
    + destruct lvl; simpl; rewrite ?app_nil_r; repeat split.
Qed.

Lemma add_msg_stop_level_witness :
  levels_index "warning" = Some 0%nat /\
  add_msg LError 3 1 "x" "d" (new_parser (Some "warning")) =
    (new_parser (Some "warning"), Exc (ParseError (Msg 3 1 "x" "d"))).
Proof.
  split; [reflexivity|].
  exact (proj1 (add_msg_stop_level LError 3 1 "x" "d" (new_parser (Some "warning")))
           "warning" 0%nat eq_refl eq_refl (Nat.le_0_l _)).
Defined.

(** ** The line buffer *)

(** C8, as stated: the history survives [_rewind], so an index that
    [_fetch_line] accepted before still gives the same line. *)
Lemma rewind_keeps_history_fails :
  ~ (forall (p : parser) (i : Z) (l : string),
       snd (fetch_line i p) = Ok l -> snd (fetch_line i (rewind p)) = Ok l).
Proof.
  intros H.
  set (p0 := set_data (new_parser (Some "error")) (Some (Stream ["Hello" ++ nl] 0))).
  set (p1 := fst (next_line p0)).
  specialize (H p1 0%Z "Hello" eq_refl).
  vm_compute in H. discriminate H.
Qed.

(** C8, amended: [_rewind] clears the history and resets the cursor to -1
    (and seeks the stream to its start); afterwards [_fetch_line] raises
    for every index: [ValueError("Cannot seek forward.")] for an index
    [>= 0], [IndexError] for a negative one. *)
Theorem rewind_clears_history (p : parser) (i : Z) :
  read_lines (rewind p) = [] /\ current_line_num (rewind p) = (-1)%Z /\
  option_map s_pos (data (rewind p)) = option_map (fun _ => 0) (data p) /\
  fetch_line i (rewind p) =
    (rewind p, Exc (if (0 <=? i)%Z then ValueError "Cannot seek forward." else IndexError)).
Proof.
  split; [reflexivity|]. split; [reflexivity|]. split.
  - unfold rewind; simpl. destruct (data p); reflexivity.
  - unfold fetch_line; simpl.
    destruct (Z.leb_spec 0 i) as [H|H].
    + replace (-1 <? i)%Z with true by (symmetry; apply Z.ltb_lt; lia). reflexivity.
    + replace (-1 <? i)%Z with false by (symmetry; apply Z.ltb_ge; lia).
      unfold py_index; simpl.
      replace (0 <=? i)%Z with false by (symmetry; apply Z.leb_gt; lia).
      reflexivity.
Qed.

(** ** The C2 example *)

(** C2: [1], [00:00:15,000 --> 00:00:30,000], [Hello] and a blank line
    parse, whatever the stop level, to one unit starting at 15 s, ending at
    30 s, with the lines [["Hello"]], and no warning and no error. *)
Theorem parse_hello (stop : option string) :
  match parse_result stop doc_hello with
  | Some ([u], [], []) =>
      u_lines u = ["Hello"] /\ Qeq_opt (u_start u) 15 /\ Qeq_opt (u_end u) 30
  | _ => False
  end.
Proof.
  vm_compute. split; [reflexivity | split; reflexivity].
Qed.

(** ** The encoding detector *)

Lemma bprefix_firstn (p s : list byte) (n : nat) :
  (List.length p <= n)%nat -> bprefix p (firstn n s) = bprefix p s.
Proof.
  revert s n; induction p as [|x p IH]; intros s n Hn; [reflexivity|].
  destruct n as [|n]; [simpl in Hn; lia|].
  destruct s as [|y s]; [reflexivity|].
  simpl. rewrite IH; [reflexivity | simpl in Hn; lia].
Qed.

Lemma similar_encodings_single (n : string) (s : list string) :
  similar_encodings n = Some s -> exists x, s = [x] /\ similar_encodings x = None.
Proof.
  unfold similar_encodings.
  repeat match goal with |- context [String.eqb ?a ?b] => destruct (String.eqb a b) end;
    intros H; inversion H; subst; eexists; split; reflexivity.
Qed.

Lemma expand_app (a b : list cand) : expand (a ++ b) = (expand a ++ expand b)%list.
Proof. unfold expand. apply flat_map_app. Qed.

Section DetectProofs.

Variable chardet : list byte -> option string * Q.
Variable decode : string -> list byte -> option (list N).
Variable buf : list byte.

Let okn (n : string) : bool := fst (can_decode decode (bytes_io buf) n).

Lemma can_decode_bytes_io (n : string) :
  can_decode decode (bytes_io buf) n = (okn n, bytes_io buf).
Proof. reflexivity. Qed.

Lemma detect_loop_stream (fuel : nat) (encs : list cand) (tried : list string) :
  snd (detect_loop decode fuel encs tried (bytes_io buf)) = bytes_io buf.
Proof.
  revert encs tried; induction fuel as [|f IH]; intros encs tried; [reflexivity|].
  cbn [detect_loop]. destruct (pop encs) as [[c rest]|]; [|reflexivity].
  rewrite can_decode_bytes_io. cbv beta iota.
  destruct (okn (cand_name c)); [destruct (cand_result c); reflexivity|].
  match goal with |- context [match ?r with [] => _ | _ :: _ => _ end] => destruct r end;
    [reflexivity | apply IH].
Qed.

Lemma find_drop_failing (f : cand -> bool) (xs : list string) (l : list cand) (keep : string -> bool) :
  (forall x, In x xs -> keep x = false -> f (CName x) = false) ->
  find f (map CName (filter keep xs) ++ l)%list = find f (map CName xs ++ l)%list.
Proof.
  induction xs as [|x xs IH]; intros H; [reflexivity|].
  simpl. destruct (keep x) eqn:Hk; simpl.
  - destruct (f (CName x)); [reflexivity|]. apply IH; intros; apply H; simpl; auto.
  - rewrite (H x (or_introl eq_refl) Hk). apply IH; intros; apply H; simpl; auto.
Qed.

Lemma expand_cons (c : cand) (r : list cand) :
  expand (c :: r) =
  c :: (map CName (match similar_encodings (cand_name c) with Some s => s | None => [] end)
        ++ expand r)%list.
Proof. reflexivity. Qed.

Lemma expand_id (xs : list cand) :
  (forall y, In y xs -> similar_encodings (cand_name y) = None) -> expand xs = xs.
Proof.
  induction xs as [|x xs IH]; intros H; [reflexivity|].
  rewrite expand_cons, (H x (or_introl eq_refl)). simpl. f_equal.
  apply IH. intros; apply H; simpl; auto.
Qed.

Lemma detect_loop_find (fuel : nat) (q : list cand) (tried : list string) :
  q <> [] ->
  (forall n, In n tried -> okn n = false) ->
  (List.length (expand q) < fuel)%nat ->
  ok_of (fst (detect_loop decode fuel (rev q) tried (bytes_io buf))) =
  option_map cand_result (find (fun c => okn (cand_name c)) (expand q)).
Proof.
  revert q tried; induction fuel as [|f IH]; intros q tried Hq Ht Hf; [lia|].
  destruct q as [|c r]; [congruence|].
  cbn [detect_loop]. unfold pop. rewrite rev_involutive.
  cbv beta iota.
  rewrite can_decode_bytes_io. cbv beta iota.
  rewrite expand_cons in *. cbn [find].
  destruct (okn (cand_name c)) eqn:Hc.
  - cbn [option_map]. destruct (cand_result c); reflexivity.
  - set (name := cand_name c) in *.
    set (tried' := if existsb (String.eqb name) tried then tried else (tried ++ [name])%list).
    assert (Ht' : forall n, In n tried' -> okn n = false).
    { intros n Hn. unfold tried' in Hn.
      destruct (existsb (String.eqb name) tried); [auto|].
      apply in_app_or in Hn. destruct Hn as [Hn|[<-|[]]]; auto. }
    assert (Hstep : forall X : list cand, (List.length X <= 1)%nat ->
              (forall y, In y X -> similar_encodings (cand_name y) = None) ->
              (List.length X + List.length (expand r) < f)%nat ->
              ok_of (fst (match (rev r ++ X)%list with
                          | [] => (EncodingError "Could not detect proper encoding" tried',
                                   bytes_io buf)
                          | _ :: _ => detect_loop decode f (rev r ++ X)%list tried' (bytes_io buf)
                          end)) =
              option_map cand_result (find (fun c => okn (cand_name c)) (X ++ expand r)%list)).
    { intros X HX Hsim Hlen.
      assert (HrX : (rev r ++ X)%list = rev (X ++ r)%list).
      { rewrite rev_app_distr. f_equal.
        destruct X as [|x [|y X]]; [reflexivity | reflexivity | simpl in HX; lia]. }
      rewrite HrX. destruct (X ++ r)%list eqn:E.
      - apply app_eq_nil in E as [-> ->]. reflexivity.
      - destruct (rev (c0 :: l)) eqn:E2.
        { apply (f_equal (@List.length cand)) in E2. rewrite length_rev in E2. discriminate E2. }
        rewrite <- E2, <- E. rewrite IH; [| rewrite E; discriminate | exact Ht' |].
        + rewrite expand_app, (expand_id X Hsim). reflexivity.
        + rewrite expand_app, (expand_id X Hsim), length_app. exact Hlen. }
    cbn [List.length] in Hf. rewrite ?length_app, ?length_map in Hf.
    destruct (similar_encodings name) as [sim|] eqn:Hs.
    + destruct (similar_encodings_single _ _ Hs) as [x [-> Hx]].
      set (P := fun s0 : string => negb (existsb (String.eqb s0) tried')).
      rewrite <- (find_drop_failing _ [x] (expand r) P).
      * apply Hstep.
        -- simpl. destruct (P x); simpl; lia.
        -- intros y Hy. simpl in Hy. destruct (P x); simpl in Hy;
             [destruct Hy as [<-|[]]; exact Hx | destruct Hy].
        -- simpl in Hf. simpl. destruct (P x); simpl; lia.
      * intros y [<-|[]] Hk. unfold P in Hk.
        apply negb_false_iff, existsb_exists in Hk.
        destruct Hk as [z [Hz Hzy]]. apply String.eqb_eq in Hzy. subst z. simpl. auto.
    + rewrite <- (app_nil_r (rev r)).
      apply (Hstep []); [simpl; lia | intros y [] | simpl in Hf; simpl; lia].
Qed.

Lemma length_expand (q : list cand) :
  (List.length (expand q) <= 2 * List.length q)%nat.
Proof.
  induction q as [|c r IH]; [simpl; lia|].
  rewrite expand_cons. cbn [List.length]. rewrite length_app, length_map.
  destruct (similar_encodings (cand_name c)) as [s|] eqn:Hs.
  - destruct (similar_encodings_single _ _ Hs) as [x [-> _]]. simpl. lia.
  - simpl. lia.
Qed.

(** without a byte order mark, [detect] runs its loop on the reversed
    candidate list, on the stream at position 0 *)
Lemma detect_no_bom (enc lang : option string) :
  bprefix BOM_UTF8 buf = false -> bprefix BOM_UTF16 buf = false ->
  detect chardet decode (bytes_io buf) enc lang =
  match candidates enc lang (chardet buf) with
  | [] => (EncodingError "Have no clue where to start." [], bytes_io buf)
  | encs => detect_loop decode (2 * List.length encs + 1) (rev encs) [] (bytes_io buf)
  end.
Proof.
  intros H8 H16. unfold detect, bread, bread_all, bseek0, bytes_io. cbn [b_pos b_bytes skipn].
  rewrite !bprefix_firstn by (simpl; lia).
  rewrite H8, H16. destruct (candidates enc lang (chardet buf)); reflexivity.
Qed.

Lemma detect_first_decoding (enc lang : option string) :
  bprefix BOM_UTF8 buf = false -> bprefix BOM_UTF16 buf = false ->
  ok_of (fst (detect chardet decode (bytes_io buf) enc lang)) =
  option_map cand_result (first_decoding decode buf (expand (candidates enc lang (chardet buf)))).
Proof.
  intros H8 H16. rewrite detect_no_bom by assumption.
  destruct (candidates enc lang (chardet buf)) as [|c r] eqn:E; [reflexivity|].
  apply detect_loop_find; [discriminate | intros n [] |].
  pose proof (length_expand (c :: r)). lia.
Qed.

Lemma detect_stream_no_bom (enc lang : option string) :
  bprefix BOM_UTF8 buf = false -> bprefix BOM_UTF16 buf = false ->
  snd (detect chardet decode (bytes_io buf) enc lang) = bytes_io buf.
Proof.
  intros H8 H16. rewrite detect_no_bom by assumption.
  destruct (candidates enc lang (chardet buf)); [reflexivity|].
  apply detect_loop_stream.
Qed.

End DetectProofs.

(** C4, at a big-endian UTF-16 byte order mark: [codecs.BOM_UTF16] is the
    host's (little-endian) mark [FF FE], so a buffer starting with [FE FF]
    does not short-circuit; with the hint [latin-1], which decodes it,
    [detect] returns [("latin-1", None)], whatever chardet says. *)
Theorem detect_utf16_be_bom_missed
  (chardet : list byte -> option string * Q) (decode : string -> list byte -> option (list N)) :
  decode "latin-1" [xfe; xff; x00; x41]%byte = Some [254; 255; 0; 65]%N ->
  fst (detect chardet decode (bytes_io [xfe; xff; x00; x41]%byte) (Some "latin-1") None) =
  DOk "latin-1" None.
Proof.
  intros Hd. vm_compute.
  destruct (chardet [xfe; xff; x00; x41]%byte) as [[[|a g]|] cf];
    vm_compute; rewrite Hd; reflexivity.
Qed.

Lemma detect_utf16_be_bom_missed_witness :
  codec_ex "latin-1" [xfe; xff; x00; x41]%byte = Some [254; 255; 0; 65]%N /\
  fst (detect chardet_none codec_ex (bytes_io [xfe; xff; x00; x41]%byte) (Some "latin-1") None) =
  DOk "latin-1" None.
Proof.
  split; [reflexivity|].
  apply detect_utf16_be_bom_missed. reflexivity.
Defined.

(** C5, as stated: without a byte order mark [detect] returns the first of
    hint, language guesses, chardet guess (in this order) that decodes. *)
Lemma detect_plain_order_fails :
  ~ (forall (chardet : list byte -> option string * Q)
            (decode : string -> list byte -> option (list N)) buf enc lang,
       bprefix BOM_UTF8 buf = false -> bprefix BOM_UTF16 buf = false ->
       ok_of (fst (detect chardet decode (bytes_io buf) enc lang)) =
       option_map cand_result (first_decoding decode buf (candidates enc lang (chardet buf)))).
Proof.
  intros H.
  specialize (H chardet_none codec_ex [x9e]%byte (Some "ISO-8859-2") (Some "ru") eq_refl eq_refl).
  vm_compute in H. discriminate H.
Qed.

(** C5, amended: without a byte order mark, [detect] tests the hint, then
    the language guesses in table order, then the chardet guess, except
    that right after a candidate that fails it tests the encodings
    [similar_encodings] lists for that candidate; it returns the first
    that decodes ([None] confidence unless it is chardet's guess), and
    fails when none does. *)
Theorem detect_tries_in_order
  (chardet : list byte -> option string * Q) (decode : string -> list byte -> option (list N))
  (buf : list byte) (enc lang : option string) :
  bprefix BOM_UTF8 buf = false -> bprefix BOM_UTF16 buf = false ->
  ok_of (fst (detect chardet decode (bytes_io buf) enc lang)) =
  option_map cand_result (first_decoding decode buf (expand (candidates enc lang (chardet buf)))).
Proof. apply detect_first_decoding. Qed.

Lemma detect_tries_in_order_witness :
  bprefix BOM_UTF8 [x9e]%byte = false /\ bprefix BOM_UTF16 [x9e]%byte = false /\
  ok_of (fst (detect chardet_none codec_ex (bytes_io [x9e]%byte) (Some "ISO-8859-2") (Some "ru"))) =
  option_map cand_result (first_decoding codec_ex [x9e]%byte
     (expand (candidates (Some "ISO-8859-2") (Some "ru") (chardet_none [x9e]%byte)))).
Proof.
  split; [reflexivity|]. split; [reflexivity|].
  apply detect_tries_in_order; reflexivity.
Defined.

(** C10: when [detect] returns an encoding for a buffer without a byte
    order mark, that codec decodes the whole buffer, the decoded text has
    no [U+009E], and the stream is back at position 0. *)
Theorem detect_result_decodes
  (chardet : list byte -> option string * Q) (decode : string -> list byte -> option (list N))
  (buf : list byte) (enc lang : option string) (e : string) (q : option Q) (d' : bstream) :
  bprefix BOM_UTF8 buf = false -> bprefix BOM_UTF16 buf = false ->
  detect chardet decode (bytes_io buf) enc lang = (DOk e q, d') ->
  (exists text, decode e buf = Some text /\ ~ In invalid_char text) /\ b_pos d' = 0.
Proof.
  intros H8 H16 Hd. split.
  - pose proof (detect_first_decoding chardet decode buf enc lang H8 H16) as Hf.
    rewrite Hd in Hf. cbn in Hf.
    destruct (first_decoding decode buf _) as [c|] eqn:Hc; [|discriminate Hf].
    injection Hf as Hr. unfold first_decoding in Hc.
    apply find_some in Hc as [_ Hok].
    assert (He : cand_name c = e) by (destruct c; injection Hr; auto).
    rewrite He in Hok. unfold can_decode, bytes_io in Hok. cbn [fst b_pos b_bytes skipn] in Hok.
    destruct (decode e buf) as [text|]; [|discriminate Hok].
    exists text. split; [reflexivity|].
    intros Hin. apply negb_true_iff in Hok.
    assert (Hex : existsb (N.eqb invalid_char) text = true)
      by (apply existsb_exists; exists invalid_char; split; [exact Hin | apply N.eqb_refl]).
    congruence.
  - pose proof (detect_stream_no_bom chardet decode buf enc lang H8 H16) as Hs.
    rewrite Hd in Hs. cbn in Hs. subst d'. reflexivity.
Qed.

Lemma detect_result_decodes_witness :
  exists text, codec_ex "ascii" [x41]%byte = Some text /\ ~ In invalid_char text.
Proof.
  refine (proj1 (detect_result_decodes chardet_none codec_ex [x41]%byte (Some "ascii") None
                   "ascii" None (bytes_io [x41]%byte) eq_refl eq_refl _)).
  vm_compute. reflexivity.
Defined.

(** C6, as stated: with units numbered 1, 2, 4, 5, [_parse] yields 4 units
    and exactly one "Sequence number out of sync" warning. *)
Lemma gap_single_warning_fails :
  ~ match parse_result (Some "error") doc_gap with
    | Some (us, ws, _) => List.length us = 4%nat /\ List.length (sync_warnings ws) = 1%nat
    | None => False
    end.
Proof. vm_compute. intros [_ H]. discriminate H. Qed.

(** C7, as stated: the dotted timing line gives the same times as the
    comma one and exactly one warning. *)
Lemma dot_single_warning_fails :
  ~ match parse_result (Some "error") doc_dot, parse_result (Some "error") doc_comma with
    | Some ([u], ws, _), Some ([v], _, _) =>
        Qeq_opt (u_start u) (match u_start v with Some x => x | None => 0%Q end) /\
        Qeq_opt (u_end u) (match u_end v with Some x => x | None => 0%Q end) /\
        List.length ws = 1%nat
    | _, _ => False
    end.
Proof. vm_compute. intros [_ [_ H]]. discriminate H. Qed.

(** ** Termination of [_parse] *)

Lemma keeps_ret {B A} (f : st -> B) (a : A) : keeps f (ret a).
Proof. intros s; reflexivity. Qed.

Lemma keeps_raise {B A} (f : st -> B) e : keeps f (@raise st A e).
Proof. intros s; reflexivity. Qed.

Lemma keeps_bind {B A C} (f : st -> B) (m : M A) (k : A -> M C) :
  keeps f m -> (forall a, keeps f (k a)) -> keeps f (bind m k).
Proof.
  intros Hm Hk s. unfold bind. specialize (Hm s).
  destruct (m s) as [s1 [a|e]] eqn:E; simpl in *; [rewrite Hk; exact Hm | exact Hm].
Qed.

Lemma keeps_s_d {A} (m : M A) : keeps core_s m -> keeps core_d m.
Proof. intros H s. specialize (H s). unfold core_s, core_d in *. congruence. Qed.

Lemma add_msg_data lvl ln c l d p :
  data (fst (add_msg lvl ln c l d p)) = data p /\
  current_line (fst (add_msg lvl ln c l d p)) = current_line p.
Proof.
  unfold add_msg. destruct (truthy_str (stop_level p)); [destruct levels_index as [j|]; [destruct (j <=? level_index lvl)%nat|]|];
    destruct lvl; split; reflexivity.
Qed.

Lemma keeps_liftP_add {A} (f : st -> A) lvl ln c l d :
  (forall p p' m, data p' = data p -> f (St p' m) = f (St p m)) ->
  keeps f (liftP (add_msg lvl ln c l d)).
Proof.
  intros Hf [p m]. unfold liftP. simpl.
  destruct (add_msg lvl ln c l d p) as [p' r] eqn:E. simpl.
  apply Hf. pose proof (add_msg_data lvl ln c l d p) as [H _]. rewrite E in H. exact H.
Qed.

Lemma core_s_data p p' m : data p' = data p -> core_s (St p' m) = core_s (St p m).
Proof. intros H. unfold core_s; simpl. rewrite H. reflexivity. Qed.

Lemma keeps_warn ln c l d : keeps core_s (warn ln c l d).
Proof. apply keeps_liftP_add, core_s_data. Qed.

Lemma keeps_err ln c l d : keeps core_s (err ln c l d).
Proof. apply keeps_liftP_add, core_s_data. Qed.

Lemma keeps_fetch i : keeps core_s (fetch i).
Proof.
  intros [p m]. unfold fetch, liftP, fetch_line. simpl.
  destruct (_ <? _)%Z; [reflexivity|]. destruct py_index; reflexivity.
Qed.

Ltac keeps_prim := intros [[] []]; reflexivity.

Lemma keeps_get_state : keeps core_s get_state. Proof. keeps_prim. Qed.

Lemma keeps_get_temp : keeps core_s get_temp. Proof. keeps_prim. Qed.

Lemma keeps_line_num : keeps core_s line_num. Proof. keeps_prim. Qed.

Lemma keeps_cur_line : keeps core_s cur_line.
Proof. intros [[? ? ? ? ? ? []] []]; reflexivity. Qed.

Lemma keeps_set_line l : keeps core_s (set_line l). Proof. keeps_prim. Qed.

Lemma keeps_set_temp t : keeps core_s (set_temp t). Proof. keeps_prim. Qed.

Lemma keeps_set_parsed t : keeps core_s (set_parsed t). Proof. keeps_prim. Qed.

Lemma keeps_set_missing_line b : keeps core_s (set_missing_line b). Proof. keeps_prim. Qed.

Lemma keeps_of_option {A} e (o : option A) : keeps core_s (of_option e o).
Proof. destruct o; keeps_prim. Qed.

Lemma keeps_ml : keeps core_s (fun s : st => (s, Ok (m_missing_line (sm s)))).
Proof. keeps_prim. Qed.

Create HintDb keeps.

#[local] Hint Resolve keeps_ret keeps_raise keeps_warn keeps_err keeps_fetch keeps_get_state
  keeps_get_temp keeps_line_num keeps_cur_line keeps_set_line keeps_set_temp keeps_set_parsed
  keeps_set_missing_line keeps_of_option keeps_ml : keeps.

Ltac keeps_tac :=
  repeat match goal with
  | |- keeps _ (bind _ _) => apply keeps_bind; [ | intros ? ]
  | |- keeps _ (match ?x with _ => _ end) => destruct x
  | |- keeps _ _ => solve [auto with keeps]
  end.

Lemma keeps_update_temp f : keeps core_s (update_temp f).
Proof. unfold update_temp. keeps_tac. Qed.

#[local] Hint Resolve keeps_update_temp : keeps.

Lemma keeps_add_lines ls : keeps core_s (add_lines ls).
Proof. unfold add_lines. keeps_tac. Qed.

#[local] Hint Resolve keeps_add_lines : keeps.

Lemma keeps_parse_time : keeps core_s parse_time.
Proof. unfold parse_time. keeps_tac. Qed.

Lemma keeps_create_unit : keeps core_s create_unit.
Proof. unfold create_unit. keeps_tac. Qed.

Lemma keeps_validate_text : keeps core_s validate_text.
Proof. unfold validate_text. keeps_tac. Qed.

Lemma keeps_insert_text : keeps core_s insert_text.
Proof. unfold insert_text. keeps_tac. Qed.

Lemma keeps_validate_empty : keeps core_s validate_empty.
Proof. unfold validate_empty. keeps_tac. Qed.

Lemma keeps_final_unit_before : keeps core_s final_unit_before.
Proof. unfold final_unit_before. keeps_tac. Qed.

Lemma keeps_final_unit_after : keeps core_s final_unit_after.
Proof. unfold final_unit_after. keeps_tac. Qed.

Lemma weight_app a b : weight (a ++ b) = weight a + weight b.
Proof. induction a as [|c a IH]; simpl; [reflexivity|]. rewrite IH. lia. Qed.

Lemma weight_le_length s : weight s <= 2 * length s.
Proof. induction s as [|c s IH]; simpl; [lia|]. destruct (Ascii.eqb c "."); lia. Qed.

Lemma substring_0_length s : substring 0 (length s) s = s.
Proof. induction s as [|c s IH]; simpl; [reflexivity|]. rewrite IH. reflexivity. Qed.

Lemma weight_substring0 i s : weight (substring 0 i s) <= weight s.
Proof.
  revert i; induction s as [|c s IH]; intros [|i]; simpl; try lia.
  specialize (IH i). lia.
Qed.

Lemma prefix_char d c s : prefix (String d EmptyString) (String c s) = true -> c = d.
Proof. simpl. destruct (ascii_dec d c); [auto | discriminate]. Qed.

Lemma weight_replace_dot l i :
  py_find "." l = Some i -> weight (py_replace1 "." "," l) < weight l.
Proof.
  revert i; induction l as [|c l IH]; intros i H; [discriminate H|].
  cbn [py_find py_replace1] in *.
  destruct (prefix "." (String c l)) eqn:Ep.
  - apply prefix_char in Ep. subst c.
    cbn [length substring String.append weight].
    replace (S (length l) - 1) with (length l) by lia.
    rewrite substring_0_length. cbn. lia.
  - destruct (py_find "." l) as [j|] eqn:E; [|discriminate H].
    specialize (IH j eq_refl). cbn [weight].
    destruct (Ascii.eqb c "."); lia.
Qed.

Lemma lstrip_weight s : weight (lstrip s) <= weight s.
Proof.
  induction s as [|c s IH]; simpl; [lia|].
  destruct (is_space c); simpl; [|lia]. destruct (Ascii.eqb c "."); lia.
Qed.

Lemma take_while_app f s a r : take_while f s = (a, r) -> s = (a ++ r)%string.
Proof.
  revert a r; induction s as [|c s IH]; intros a r H; simpl in H.
  - injection H as <- <-. reflexivity.
  - destruct (f c).
    + destruct (take_while f s) as [a' r'] eqn:E. injection H as <- <-.
      simpl. rewrite (IH a' r' eq_refl). reflexivity.
    + injection H as <- <-. reflexivity.
Qed.

Lemma prefix_cons d p c s : prefix (String d p) (String c s) = true -> c = d /\ prefix p s = true.
Proof. simpl. destruct (ascii_dec d c); [auto | discriminate]. Qed.

Lemma prefix_arrow_weight r : prefix "-->" r = true -> weight r = 3 + weight (drop 3 r).
Proof.
  intros H.
  destruct r as [|c1 r]; [discriminate H|]. apply prefix_cons in H as [-> H].
  destruct r as [|c2 r]; [discriminate H|]. apply prefix_cons in H as [-> H].
  destruct r as [|c3 r]; [discriminate H|]. apply prefix_cons in H as [-> _].
  unfold drop. cbn [length substring]. replace (S (S (S (length r))) - 3) with (length r) by lia.
  rewrite substring_0_length. reflexivity.
Qed.

Lemma dot_star_end_weight r g : dot_star_end r = Some g -> weight g <= weight r.
Proof.
  unfold dot_star_end. destruct (negb _).
  - intros H; injection H as <-. lia.
  - destruct (py_find _ r) as [i|]; [|discriminate].
    destruct (Nat.eqb _ _); [|discriminate].
    intros H; injection H as <-. apply weight_substring0.
Qed.

Lemma header_match_weight l g1 g2 :
  header_match l = Some (g1, g2) -> weight g1 + weight g2 <= weight l.
Proof.
  unfold header_match. pose proof (lstrip_weight l) as Hl.
  destruct (take_while is_hclass (lstrip l)) as [a r1] eqn:E1.
  apply take_while_app in E1.
  destruct a as [|ca a']; [discriminate|].
  destruct (take_while is_space r1) as [w1 r2] eqn:E2. apply take_while_app in E2.
  destruct (prefix "-->" r2) eqn:Ep; [|discriminate].
  apply prefix_arrow_weight in Ep.
  destruct (take_while is_space (drop 3 r2)) as [w2 r3] eqn:E3. apply take_while_app in E3.
  destruct (take_while is_hclass r3) as [b r4] eqn:E4. apply take_while_app in E4.
  destruct b as [|cb b']; [discriminate|].
  destruct (dot_star_end (lstrip r4)) as [g|] eqn:E5; [|discriminate].
  intros H; injection H as <- <-.
  apply dot_star_end_weight in E5. pose proof (lstrip_weight r4).
  rewrite E1, E2, E3, E4 in *. do 3 (rewrite ?weight_app in *; cbn [weight String.append] in *). cbn [Ascii.eqb Bool.eqb] in *. lia.
Qed.

Lemma rstrip_length l : length (rstrip l) <= length l.
Proof.
  induction l as [|c l IH]; simpl; [lia|].
  destruct (rstrip l) as [|c' r]; [destruct (is_space c); simpl|simpl in *]; lia.
Qed.

Ltac destruct_inner :=
  match goal with
  | |- context [match ?x with _ => _ end] =>
      lazymatch x with
      | context [match _ with _ => _ end] => fail
      | _ => let E := fresh "E" in destruct x eqn:E
      end
  end.

Lemma pspec_validate_unit : pspec Pvu validate_unit.
Proof.
  intros [[w e sl d rl cn cl] [q t pr pa ml]] Hp; simpl in Hp; subst pa.
  unfold validate_unit, bind, get_temp, cur_line, of_option, pause, set_paused, modify_m,
    set_line, line_num, ret, raise, fetch, warn, liftP, fetch_line, add_warning, add_msg,
    get_state, set_temp; cbn -[py_int strip py_str_N N.eqb N.add Z.ltb Z.leb Z.add Nat.leb String.eqb truthy_str levels_index py_index negb].
  do 30 (try (destruct_inner; cbn -[py_int strip py_str_N N.eqb N.add Z.ltb Z.leb Z.add Nat.leb String.eqb truthy_str levels_index py_index negb])).
  all: split; [reflexivity|].
  all: intros Hpa; try discriminate Hpa.
  all: split; [eexists; reflexivity|]; intros Hq; try discriminate Hq.
  all: unfold Pvu; cbn [sp sm m_state m_temp current_line prev];
    split; [reflexivity|]; split; [reflexivity|]; split; [|reflexivity];
    eexists; split; [reflexivity|];
    match goal with
    | H : py_int _ = Some _, H2 : negb _ = true |- _ =>
        rewrite H; intros Heq; injection Heq as Heq; rewrite Heq, N.eqb_refl in H2; discriminate H2
    end.
Qed.

Lemma keeps_set_state q : keeps core_d (set_state q).
Proof. keeps_prim. Qed.

Lemma keeps_fire from to_ before after :
  keeps core_s before -> keeps core_s after -> keeps core_d (fire from to_ before after).
Proof.
  intros Hb Ha. unfold fire. apply keeps_bind; [apply keeps_s_d, keeps_get_state|intros q].
  destruct (existsb _ _); [|apply keeps_raise].
  apply keeps_bind; [apply keeps_s_d, Hb|intros _].
  apply keeps_bind; [apply keeps_set_state|intros _]. apply keeps_s_d, Ha.
Qed.

Lemma keeps_fix_sequence_skip : keeps core_s fix_sequence_skip.
Proof. unfold fix_sequence_skip. keeps_tac. apply keeps_parse_time. Qed.

Lemma keeps_skip_sequence : keeps core_d skip_sequence.
Proof. apply keeps_fire; [apply keeps_ret | apply keeps_fix_sequence_skip]. Qed.

Lemma pspec_validate_header : pspec Pvh validate_header.
Proof.
  intros [[w e sl d rl cn cl] [q t pr pa ml]] Hp; simpl in Hp; subst pa.
  unfold validate_header, fetch, warn, err, add_warning, add_error.
  unfold bind, get_state, cur_line, line_num, liftP, add_msg, pause, set_paused, modify_m,
    fetch_line, set_line, of_option, ret, raise.
  destruct q; cbn -[py_int strip py_str_N N.eqb N.add Z.ltb Z.leb Z.add Nat.leb String.eqb
    truthy_str levels_index py_index negb skip_sequence py_find py_replace1 header_match py_split
    time_match].
  all: do 40 (try (destruct_inner; cbn -[py_int strip py_str_N N.eqb N.add Z.ltb Z.leb Z.add
    Nat.leb String.eqb truthy_str levels_index py_index negb skip_sequence py_find py_replace1
    header_match py_split time_match])).
  all: try match goal with
       | E : skip_sequence ?x = (?y, _) |- _ =>
           let K := fresh "K" in
           pose proof (keeps_skip_sequence x) as K; rewrite E in K; unfold core_d in K;
           cbn in K; injection K as ? ?
       end.
  all: try (split; [first [reflexivity | assumption] |]; intros Hpa; try congruence).
  all: split; [eexists; reflexivity|]; intros Hq; try discriminate Hq.
  all: unfold Pvh; cbn [sp sm m_state current_line];
    split; [reflexivity|]; split; [discriminate|]; split; [discriminate|];
    do 2 eexists; split; [reflexivity|]; split; [reflexivity|].
  all: subst.
  all: try match goal with H : py_find "." _ = Some _ |- _ => apply (weight_replace_dot _ _ H) end.
  all: try match goal with H : header_match _ = Some (_, String _ _) |- _ =>
        apply header_match_weight in H; cbn [weight] in H; destruct (Ascii.eqb _ _) in H; lia end.
Qed.

Lemma fire_eq from to_ before after s :
  fire from to_ before after s =
  if existsb (mstate_eqb (m_state (sm s))) from then
    match before s with
    | (s1, Ok _) =>
        after (St (sp s1) (Machine to_ (m_temp (sm s1)) (m_parsed (sm s1)) (m_paused (sm s1))
                                   (m_missing_line (sm s1))))
    | (s1, Exc e) => (s1, Exc e)
    end
  else (s, Exc InvalidStateTransition).
Proof.
  unfold fire, bind, get_state, set_state, modify_m, raise. cbn.
  destruct (existsb _ _); [|reflexivity]. destruct (before s) as [s1 [a|e]]; reflexivity.
Qed.

Lemma pspec_fire (P : st -> st -> Prop) from to_ before after :
  pspec P before -> keeps core_s after ->
  pspec (fun s s' => existsb (mstate_eqb (m_state (sm s))) from = true /\ P s s')
        (fire from to_ before after).
Proof.
  intros Hb Ha s Hp. rewrite fire_eq.
  destruct (existsb (mstate_eqb (m_state (sm s))) from) eqn:Ex.
  - specialize (Hb s Hp).
    destruct (before s) as [s1 [a|e]] eqn:Eb; cbn [fst snd] in Hb |- *.
    + destruct Hb as [Hd Hpz].
      assert (Hp1 : m_paused (sm s1) = false).
      { destruct (m_paused (sm s1)) eqn:E1; [|reflexivity].
        destruct (Hpz eq_refl) as [[e He] _]. discriminate He. }
      match goal with |- context [after ?x] => pose proof (Ha x) as Ha1; destruct (after x) as [s2 r2] end.
      unfold core_s in Ha1. cbn [fst snd sp sm m_paused data] in Ha1 |- *.
      injection Ha1 as Hd2 Hp2 _. split; [congruence|]. intros H. congruence.
    + destruct Hb as [Hd Hpz]. split; [exact Hd|]. intros H.
      destruct (Hpz H) as [He Hq]. split; [exact He|]. intros Hq'. split; [reflexivity | exact (Hq Hq')].
  - cbn. split; [reflexivity|]. intros H. congruence.
Qed.

Lemma pspec_frame {A} (P : st -> st -> Prop) (m : M A) : keeps core_d m -> pspec P m.
Proof.
  intros Hk s Hp. specialize (Hk s). unfold core_d in Hk. injection Hk as Hd Hpz.
  split; [exact Hd|]. intros H. congruence.
Qed.

Lemma pspec_found_sequence : pspec Pcl found_sequence.
Proof.
  intros s Hp. destruct (pspec_fire _ [MStart] MUnit _ _ pspec_validate_unit keeps_create_unit s Hp)
    as [Hd H]. split; [exact Hd|]. intros Hpz. destruct (H Hpz) as [He Hq]. split; [exact He|].
  intros Hq'. destruct (Hq Hq') as [Hs Hv]. left. split; [|exact Hv].
  destruct (m_state (sm s)); try discriminate Hs; reflexivity.
Qed.

Lemma pspec_found_header : pspec Pcl found_header.
Proof.
  intros s Hp.
  destruct (pspec_fire _ [MUnit; MUnitText; MStart] MUnitText _ _ pspec_validate_header
             keeps_parse_time s Hp) as [Hd H].
  split; [exact Hd|]. intros Hpz. destruct (H Hpz) as [He Hq]. split; [exact He|].
  intros Hq'. destruct (Hq Hq') as [Hs Hv]. right. split; [|exact Hv].
  destruct Hv as [_ [H1 [H2 _]]].
  destruct (m_state (sm s)); try discriminate Hs; try congruence; reflexivity.
Qed.

Lemma keeps_found_text : keeps core_d found_text.
Proof. apply keeps_fire; [apply keeps_validate_text | apply keeps_insert_text]. Qed.

Lemma keeps_found_empty : keeps core_d found_empty.
Proof. apply keeps_fire; [apply keeps_validate_empty | apply keeps_ret]. Qed.

Lemma pspec_classify : pspec Pcl classify.
Proof.
  intros [p m] Hp. cbn [sm] in Hp. unfold classify, bind, cur_line, get_state. cbn [sp sm].
  destruct (current_line p) as [l|] eqn:El; [|cbn; split; [reflexivity|]; intros H; congruence].
  destruct (strip l) as [|c r].
  - apply (pspec_frame Pcl _ keeps_found_empty (St p m) Hp).
  - cbn [sp sm]. destruct (mstate_eqb (m_state m) MStart && sequence_match l).
    + apply (pspec_found_sequence (St p m) Hp).
    + destruct (header_match l).
      * apply (pspec_found_header (St p m) Hp).
      * apply (pspec_frame Pcl _ keeps_found_text (St p m) Hp).
Qed.

Lemma rstrip_string_of_uint d : rstrip (NilEmpty.string_of_uint d) = NilEmpty.string_of_uint d.
Proof.
  induction d as [|d IH|d IH|d IH|d IH|d IH|d IH|d IH|d IH|d IH|d IH];
    cbn [NilEmpty.string_of_uint rstrip]; try reflexivity;
    rewrite IH; destruct d; reflexivity.
Qed.

Lemma py_int_py_str_N n : py_int (strip (py_str_N n)) = Some n.
Proof.
  assert (Hn : N.to_uint n <> Decimal.Nil).
  { intros H. pose proof (DecimalN.Unsigned.of_to n) as E. rewrite H in E.
    cbn in E. subst n. discriminate H. }
  assert (Hs : strip (py_str_N n) = py_str_N n).
  { unfold py_str_N, NilZero.string_of_uint, strip.
    destruct (N.to_uint n) eqn:E; [contradiction|..];
      rewrite rstrip_string_of_uint; reflexivity. }
  unfold py_int. rewrite Hs. unfold py_str_N. rewrite (NilZero.usu _ Hn). cbn [option_map].
  rewrite DecimalN.Unsigned.of_to. reflexivity.
Qed.

Lemma measure_le s : measure s <= 2 + pot s + rest (data (sp s)).
Proof. unfold measure. destruct (m_state (sm s)); lia. Qed.

Lemma ppot_pos q cl t : 1 <= ppot q cl t.
Proof.
  unfold ppot. destruct q, cl; try lia.
  destruct (py_int _); [destruct (N.eqb _ _)|]; lia.
Qed.

(** after a retry that pauses again, from a state that was not paused *)
Lemma pot_Pcl s0 s' :
  Pcl s0 s' -> m_paused (sm s') = true ->
  exists l, current_line (sp s0) = Some l /\
    pot s' < ppot (m_state (sm s0)) (Some l) (m_temp (sm s0)) /\ pot s' <= 1 + weight l.
Proof.
  intros [[Hq [Hs [Ht [[l [Hl Hne]] Hc]]]] | [Hq [Hs [_ [_ [l [l' [Hl [Hl' Hw]]]]]]]]] Hp;
    exists l; unfold pot; rewrite Hp, Hs; split; try exact Hl.
  - rewrite Hq, Hc, Ht. unfold ppot. rewrite py_int_py_str_N, N.eqb_refl.
    destruct (py_int (strip l)) as [n|]; [|lia].
    destruct (N.eqb_spec n (prev (m_temp (sm s0)) + 1)); [congruence | lia].
  - rewrite Hq, Hl'. unfold ppot. lia.
Qed.

Lemma measure_eq s : m_state (sm s) <> MFinished -> measure s = 2 + pot s + rest (data (sp s)).
Proof. unfold measure. destruct (m_state (sm s)); congruence. Qed.

Lemma done_finishes s : m_state (sm s) <> MFinished -> m_state (sm (fst (done s))) = MFinished.
Proof.
  intros Hq. unfold done. rewrite fire_eq.
  assert (Hex : existsb (mstate_eqb (m_state (sm s))) [MUnit; MUnitText; MStart] = true)
    by (destruct (m_state (sm s)); congruence || reflexivity).
  rewrite Hex. unfold final_unit_before, bind, get_state, set_missing_line, modify_m.
  cbn [fst snd sp sm].
  match goal with |- context [final_unit_after ?x] =>
    pose proof (keeps_final_unit_after x) as K; destruct (final_unit_after x) end.
  unfold core_s in K. cbn in K |- *. injection K as _ _ K. exact K.
Qed.

Lemma iterate_eq p m :
  iterate (St p m) =
  if m_paused m then classify (St p (unpause m))
  else match next_line p with
       | (p', Ok true) => classify (St p' (unpause m))
       | (p', Ok false) => done (St p' (unpause m))
       | (p', Exc e) => (St p' (unpause m), Exc e)
       end.
Proof.
  unfold iterate, bind, need_pause, liftP, unpause. cbn [sp sm].
  destruct (m_paused m); [reflexivity|]. cbn [sp sm].
  destruct (next_line p) as [p' [[|]|e]]; reflexivity.
Qed.

Lemma skipn_nth_error {A} (ls : list A) n x :
  nth_error ls n = Some x -> skipn n ls = x :: skipn (S n) ls.
Proof.
  revert n; induction ls as [|y ls IH]; intros [|n] H; try discriminate H.
  - injection H as ->. reflexivity.
  - apply IH, H.
Qed.

Lemma iterate_decreases s :
  m_state (sm s) <> MFinished -> quits (snd (iterate s)) = false ->
  measure (fst (iterate s)) < measure s.
Proof.
  destruct s as [p m]. cbn [sm]. intros Hq Hquit.
  rewrite (measure_eq (St p m)) by exact Hq. unfold pot at 1. cbn [sp sm].
  rewrite iterate_eq in *.
  destruct (m_paused m) eqn:Hp.
  - pose proof (pspec_classify (St p (unpause m)) eq_refl) as [Hd Hc].
    destruct (classify (St p (unpause m))) as [s' r] eqn:Ec. cbn [fst snd sp] in *.
    pose proof (measure_le s') as Hm. rewrite Hd in Hm.
    destruct (m_paused (sm s')) eqn:Hp'.
    + destruct (Hc eq_refl) as [_ Hq']. specialize (Hq' Hquit).
      destruct (pot_Pcl _ _ Hq' Hp') as [l [Hl [Hlt _]]]. cbn in Hl, Hlt. rewrite Hl. lia.
    + unfold pot in Hm. rewrite Hp' in Hm.
      pose proof (ppot_pos (m_state m) (current_line p) (m_temp m)). lia.
  - unfold next_line in *.
    destruct (data p) as [d|] eqn:Ed.
    + destruct (readline d) as [l d'] eqn:Er. destruct l as [|c l'].
      * cbn [fst]. unfold measure at 1. rewrite done_finishes by exact Hq. lia.
      * unfold readline in Er.
        destruct (nth_error (s_lines d) (s_pos d)) as [l0|] eqn:En; [|discriminate Er].
        injection Er as -> <-.
        cbn [rest]. rewrite (skipn_nth_error _ _ _ En). cbn [cost_lines fold_right].
        revert Hquit.
        match goal with |- context [classify ?x] =>
          pose proof (pspec_classify x eq_refl) as [Hd Hc]; destruct (classify x) as [s' r] eqn:Ec
        end.
        intros Hquit.
        cbn [fst snd sp data] in *.
        pose proof (measure_le s') as Hm. rewrite Hd in Hm. cbn [rest] in Hm.
        fold (cost_lines (skipn (S (s_pos d)) (s_lines d))).
        destruct (m_paused (sm s')) eqn:Hp'.
        -- destruct (Hc eq_refl) as [_ Hq']. specialize (Hq' Hquit).
           destruct (pot_Pcl _ _ Hq' Hp') as [l [Hl [_ Hle]]]. cbn [sp current_line] in Hl.
           assert (Hlen : length l <= length (String c l'))
             by (injection Hl as <-; apply (rstrip_length (String c l'))).
           pose proof (weight_le_length l). unfold line_cost. cbn [s_pos s_lines] in Hm. lia.
        -- unfold pot in Hm. rewrite Hp' in Hm. cbn [s_pos s_lines] in Hm. unfold line_cost. lia.
    + cbn [fst]. unfold measure at 1. rewrite done_finishes by exact Hq. lia.
Qed.

Lemma measure_sp p p' m :
  data p' = data p -> current_line p' = current_line p -> measure (St p' m) = measure (St p m).
Proof. intros Hd Hc. unfold measure, pot. cbn [sp sm]. rewrite Hd, Hc. reflexivity. Qed.

Lemma parsed_measure s :
  measure (fst (parsed s)) = measure s /\ m_state (sm (fst (parsed s))) = m_state (sm s) /\
  snd (parsed s) = Ok (match m_parsed (sm s) with Some u => Some u | None => None end).
Proof.
  destruct s as [p [q t pa pz ml]]. unfold parsed. cbn [sp sm m_parsed].
  destruct pa; repeat split; reflexivity.
Qed.

Lemma loop_body_decreases s s' y :
  loop_body s = (s', Ok (y, false)) -> measure s' < measure s.
Proof.
  unfold loop_body, bind, get_state, ret. cbn [sm].
  destruct (mstate_eqb (m_state (sm s)) MFinished) eqn:Hf.
  - destruct (parsed s) as [s1 r1] eqn:Ep.
    pose proof (parsed_measure s) as [_ [Hst Hr]]. rewrite Ep in Hst, Hr. cbn [fst snd] in Hst, Hr.
    subst r1. rewrite Hst, Hf. discriminate.
  - assert (Hq : m_state (sm s) <> MFinished)
      by (intros E; rewrite E in Hf; discriminate Hf).
    pose proof (iterate_decreases s Hq) as Hdec.
    destruct (iterate s) as [s1 r] eqn:Ei. cbn [fst snd] in Hdec.
    destruct r as [[]|e].
    + destruct (parsed s1) as [s2 r2] eqn:Ep.
      pose proof (parsed_measure s1) as [Hm [Hst Hr]]. rewrite Ep in Hm, Hst, Hr.
      cbn [fst snd] in Hm, Hst, Hr. subst r2.
      intros E. injection E as <- _ _. rewrite Hm. apply Hdec. reflexivity.
    + destruct e; try discriminate.
      * intros E. injection E as <- _. apply Hdec. reflexivity.
      * pose proof (add_msg_data LError (current_line_num (sp s1) + 1) 1
          match current_line (sp s1) with Some l => l | None => "None" end
          "Unparsable line" (sp s1)) as [Hd Hc].
        unfold add_error.
        destruct (add_msg LError _ _ _ _ (sp s1)) as [p' [u|e]] eqn:Ea; [|discriminate].
        intros E. injection E as <- _. cbn [fst] in Hd, Hc.
        destruct s1 as [p1 m1]. cbn [sp sm] in *.
        rewrite (measure_sp p1 p' m1 Hd Hc). apply Hdec. reflexivity.
Qed.

Lemma run_not_out_of_fuel fuel s :
  measure s < fuel -> match snd (run fuel s) with OutOfFuel _ => False | _ => True end.
Proof.
  revert s; induction fuel as [|f IH]; intros s Hlt; [lia|].
  cbn [run]. destruct (loop_body s) as [s' [[y brk]|e]] eqn:El; [|exact I].
  destruct brk; [exact I|].
  pose proof (loop_body_decreases s s' y El) as Hd.
  specialize (IH s' ltac:(lia)). destruct (run f s') as [r o]. exact IH.
Qed.

Lemma cost_lines_fuel ls : 2 + cost_lines ls < fold_right (fun l n => line_cost l + n) 4 ls.
Proof. unfold cost_lines. induction ls as [|l ls IH]; simpl; lia. Qed.

(** C3: the pause and retry mechanism of the parser terminates: on every
    decoded text, [SubRipParser._parse] ends (exhausted or raising) within
    [parse_fuel doc] passes of its loop, so it never runs out of fuel. *)
Theorem parse_terminates stop doc :
  match snd (parse_doc stop doc) with OutOfFuel _ => False | _ => True end.
Proof.
  unfold parse_doc. apply run_not_out_of_fuel.
  unfold measure, init_st, init_machine, pot. cbn [sm sp m_state m_paused].
  unfold set_data, new_parser. cbn [data rest skipn].
  apply cost_lines_fuel.
Qed.

(* ------------------------------------------------------------------ *)
(** ** Parsing a well-formed SubRip document *)

Lemma dchar_props d : d < 10 ->
  is_digit (dchar d) = true /\ is_hclass (dchar d) = true /\ is_space (dchar d) = false /\
  Ascii.eqb (dchar d) ":" = false /\ Ascii.eqb (dchar d) "," = false /\
  Ascii.eqb (dchar d) "." = false /\ Ascii.eqb (dchar d) "-" = false /\
  Ascii.eqb (dchar d) "|" = false /\ Ascii.eqb (dchar d) "010" = false /\
  Ascii.eqb (dchar d) "013" = false /\ Ascii.eqb (dchar d) "{" = false.
Proof.
  intros H. do 10 (destruct d as [|d]; [vm_compute; repeat split; reflexivity|]). lia.
Qed.

Lemma py_int_is_ok s n : py_int_is s n = true -> py_int s = Some (N.of_nat n).
Proof.
  unfold py_int_is. destruct (py_int s); [|discriminate]. intros H. apply N.eqb_eq in H. congruence.
Qed.

Lemma forallb_seq (f : nat -> bool) k n : forallb f (seq 0 k) = true -> n < k -> f n = true.
Proof.
  intros H Hn. rewrite forallb_forall in H. apply H, in_seq. lia.
Qed.

Lemma py_int_two n : n < 100 -> py_int (two_digits n) = Some (N.of_nat n).
Proof.
  intros H. apply py_int_is_ok.
  apply (forallb_seq (fun n => py_int_is (two_digits n) n) 100); [vm_compute; reflexivity | exact H].
Qed.

Lemma py_int_three n : n < 1000 -> py_int (three_digits n) = Some (N.of_nat n).
Proof.
  intros H. apply py_int_is_ok.
  apply (forallb_seq (fun n => py_int_is (three_digits n) n) 1000); [vm_compute; reflexivity | exact H].
Qed.

Lemma str_app_nil s : (s ++ EmptyString)%string = s.
Proof. induction s as [|c s IH]; [reflexivity|]. cbn. rewrite IH. reflexivity. Qed.

Lemma str_app_assoc a b c : ((a ++ b) ++ c)%string = (a ++ (b ++ c))%string.
Proof. induction a as [|x a IH]; [reflexivity|]. cbn. rewrite IH. reflexivity. Qed.

Lemma str_length_app a b : String.length (a ++ b) = String.length a + String.length b.
Proof. induction a as [|x a IH]; [reflexivity|]. cbn. rewrite IH. reflexivity. Qed.

Lemma rstrip_app_blank s t : rstrip t = EmptyString -> rstrip (s ++ t) = rstrip s.
Proof. intros H. induction s as [|c s IH]; [exact H|]. cbn [append rstrip]. rewrite IH. reflexivity. Qed.

Lemma rstrip_snoc s c : is_space c = false -> rstrip (s ++ String c EmptyString) = s ++ String c EmptyString.
Proof.
  intros H. induction s as [|x s IH]; cbn [append rstrip].
  - rewrite H. reflexivity.
  - rewrite IH. destruct s; reflexivity.
Qed.

Lemma take_while_prefix f a r :
  (forall c, In c (list_ascii_of_string a) -> f c = true) ->
  take_while f (a ++ r) = let (x, y) := take_while f r in ((a ++ x)%string, y).
Proof.
  induction a as [|c a IH]; intros H; cbn [append take_while].
  - destruct (take_while f r); reflexivity.
  - rewrite (H c (or_introl eq_refl)). rewrite IH by (intros c' Hc'; apply H; right; exact Hc').
    destruct (take_while f r); reflexivity.
Qed.

Lemma py_find_none d s : no_char d s -> py_find (String d EmptyString) s = None.
Proof.
  unfold no_char. induction s as [|c s IH]; intros H; [reflexivity|].
  cbn [py_find prefix]. destruct (ascii_dec d c) as [E|E].
  - exfalso. apply (H c (or_introl eq_refl)). congruence.
  - rewrite IH by (intros c' Hc'; apply H; right; exact Hc'). reflexivity.
Qed.

Lemma split_aux_skip d sep cur s r :
  no_char d s ->
  split_aux (String d sep) cur 0 (s ++ r) = split_aux (String d sep) (cur ++ s) 0 r.
Proof.
  unfold no_char. revert cur; induction s as [|c s IH]; intros cur H.
  - rewrite str_app_nil. reflexivity.
  - cbn [append split_aux]. cbn [prefix]. destruct (ascii_dec d c) as [E|E].
    + exfalso. apply (H c (or_introl eq_refl)). congruence.
    + rewrite IH by (intros c' Hc'; apply H; right; exact Hc').
      rewrite str_app_assoc. reflexivity.
Qed.

Lemma dchar_tchar d : d < 10 -> tchar (dchar d).
Proof.
  intros H. destruct (dchar_props d H) as (H1 & H2 & H3 & H4 & H5 & H6 & H7 & H8 & H9 & H10 & H11).
  unfold tchar. repeat split; try assumption; intros E; rewrite E in *; discriminate.
Qed.

Lemma div10_lt n k : n < 10 * k -> n / 10 < k.
Proof. intros H. apply Nat.Div0.div_lt_upper_bound. lia. Qed.

Lemma time_str_chars t : time_ok t -> forall c, In c (list_ascii_of_string (time_str t)) -> tchar c.
Proof.
  destruct t as [h m s ms]. unfold time_ok, time_str, two_digits, three_digits. cbn [t_h t_m t_s t_ms].
  intros (Hh & Hm & Hs & Hms) c Hc. cbn [append list_ascii_of_string In] in Hc.
  repeat destruct Hc as [<-|Hc]; try contradiction;
    try (apply dchar_tchar;
         first [apply div10_lt; lia | apply Nat.mod_upper_bound; lia
               | apply Nat.Div0.div_lt_upper_bound; lia]);
    unfold tchar; vm_compute; repeat split; try reflexivity; discriminate.
Qed.

Lemma lstrip_app_t a r : all_t a -> a <> EmptyString -> lstrip (a ++ r) = (a ++ r)%string.
Proof.
  intros Ha Hn. destruct a as [|c a]; [contradiction|].
  destruct (Ha c (or_introl eq_refl)) as (_ & Hs & _). cbn [append lstrip]. rewrite Hs. reflexivity.
Qed.

Lemma take_while_all f s : (forall c, In c (list_ascii_of_string s) -> f c = true) ->
  take_while f s = (s, EmptyString).
Proof.
  intros H. rewrite <- (str_app_nil s) at 1. rewrite take_while_prefix by exact H.
  cbn [take_while]. rewrite str_app_nil. reflexivity.
Qed.

Lemma take_while_space_t b : all_t b -> b <> EmptyString -> take_while is_space b = (EmptyString, b).
Proof.
  intros Hb Hn. destruct b as [|c b]; [contradiction|].
  destruct (Hb c (or_introl eq_refl)) as (_ & Hs & _). cbn. rewrite Hs. reflexivity.
Qed.

Lemma header_match_hdr a b :
  all_t a -> all_t b -> a <> EmptyString -> b <> EmptyString ->
  header_match (a ++ " --> " ++ b) = Some ((a ++ " --> " ++ b)%string, EmptyString).
Proof.
  intros Ha Hb Hna Hnb. unfold header_match.
  rewrite lstrip_app_t by assumption.
  rewrite take_while_prefix by (intros c Hc; apply (Ha c Hc)).
  cbn. replace (is_hclass " ") with false by reflexivity.
  rewrite str_app_nil.
  destruct a as [|c a']; [contradiction|].
  cbn. replace (is_space " ") with true by reflexivity. replace (is_space "-") with false by reflexivity.
  cbn. rewrite substring_0_length. replace (is_space " ") with true by reflexivity.
  rewrite take_while_space_t by assumption.
  rewrite take_while_all by (intros c' Hc'; apply (Hb c' Hc')).
  destruct b as [|c2 b']; [contradiction|]. reflexivity.
Qed.

Lemma in_str_app c s t :
  In c (list_ascii_of_string (s ++ t)) -> In c (list_ascii_of_string s) \/ In c (list_ascii_of_string t).
Proof.
  induction s as [|x s IH]; cbn; [auto|]. intros [->|H]; [auto|]. destruct (IH H); auto.
Qed.

Lemma no_char_app d s t : no_char d s -> no_char d t -> no_char d (s ++ t).
Proof. intros Hs Ht c Hc. destruct (in_str_app c s t Hc); auto. Qed.

Lemma all_t_no_char d s : all_t s -> (forall c, tchar c -> c <> d) -> no_char d s.
Proof. intros Hs Hd c Hc. apply Hd, Hs, Hc. Qed.

Lemma rstrip_all_t s : all_t s -> rstrip s = s.
Proof.
  induction s as [|c s IH]; intros H; [reflexivity|].
  cbn [rstrip]. rewrite IH by (intros c' Hc'; apply H; right; exact Hc').
  destruct (H c (or_introl eq_refl)) as (_ & Hs & _).
  destruct s; [rewrite Hs|]; reflexivity.
Qed.

Lemma lstrip_t a : all_t a -> a <> EmptyString -> lstrip a = a.
Proof.
  intros Ha Hn. destruct a as [|c a]; [contradiction|].
  destruct (Ha c (or_introl eq_refl)) as (_ & Hs & _). cbn [lstrip]. rewrite Hs. reflexivity.
Qed.

Lemma strip_left_t a : all_t a -> a <> EmptyString -> strip (a ++ " ") = a.
Proof.
  intros Ha Hn. unfold strip. rewrite rstrip_app_blank by reflexivity.
  rewrite rstrip_all_t by exact Ha. apply lstrip_t; assumption.
Qed.

Lemma strip_right_t b : all_t b -> b <> EmptyString -> strip (" " ++ b) = b.
Proof.
  intros Hb Hn. unfold strip. cbn [append rstrip]. rewrite rstrip_all_t by exact Hb.
  destruct b as [|c b']; [contradiction|]. cbn [lstrip].
  replace (is_space " ") with true by reflexivity. exact (lstrip_t (String c b') Hb Hn).
Qed.

Lemma py_split_hdr a b :
  all_t a -> all_t b -> py_split "-->" (a ++ " --> " ++ b) = [(a ++ " ")%string; (" " ++ b)%string].
Proof.
  intros Ha Hb. unfold py_split.
  rewrite split_aux_skip by (apply all_t_no_char; [exact Ha | intros c (_ & _ & _ & H & _); exact H]).
  cbn. rewrite <- (str_app_nil b) at 1.
  rewrite split_aux_skip by (apply all_t_no_char; [exact Hb | intros c (_ & _ & _ & H & _); exact H]).
  reflexivity.
Qed.

Lemma time_str_all_t t : time_ok t -> all_t (time_str t).
Proof. intros H c Hc. exact (time_str_chars t H c Hc). Qed.

Lemma time_str_ne t : time_str t <> EmptyString.
Proof. unfold time_str, two_digits. discriminate. Qed.

Lemma time_str_dstr9 t :
  time_str t = dstr9 (dchar (t_h t / 10)) (dchar (t_h t mod 10)) (dchar (t_m t / 10))
    (dchar (t_m t mod 10)) (dchar (t_s t / 10)) (dchar (t_s t mod 10))
    (dchar (t_ms t / 100)) (dchar (t_ms t / 10 mod 10)) (dchar (t_ms t mod 10)).
Proof. reflexivity. Qed.

Lemma time_match_dstr9 d1 d2 d3 d4 d5 d6 d7 d8 d9 :
  is_digit d1 = true -> is_digit d2 = true -> is_digit d3 = true -> is_digit d4 = true ->
  is_digit d5 = true -> is_digit d6 = true -> is_digit d7 = true -> is_digit d8 = true ->
  is_digit d9 = true ->
  time_match (dstr9 d1 d2 d3 d4 d5 d6 d7 d8 d9) = Some (dstr9 d1 d2 d3 d4 d5 d6 d7 d8 d9).
Proof.
  intros H1 H2 H3 H4 H5 H6 H7 H8 H9. unfold time_match, dstr9, digits12_then, digits13.
  rewrite H1, H2. cbn -[is_digit]. rewrite H3, H4. cbn -[is_digit]. rewrite H5, H6.
  cbn -[is_digit]. rewrite H7, H8, H9. reflexivity.
Qed.

Lemma time_digits t : time_ok t ->
  is_digit (dchar (t_h t / 10)) = true /\ is_digit (dchar (t_h t mod 10)) = true /\
  is_digit (dchar (t_m t / 10)) = true /\ is_digit (dchar (t_m t mod 10)) = true /\
  is_digit (dchar (t_s t / 10)) = true /\ is_digit (dchar (t_s t mod 10)) = true /\
  is_digit (dchar (t_ms t / 100)) = true /\ is_digit (dchar (t_ms t / 10 mod 10)) = true /\
  is_digit (dchar (t_ms t mod 10)) = true.
Proof.
  intros (Hh & Hm & Hs & Hms).
  repeat split; apply dchar_props;
    first [apply div10_lt; lia | apply Nat.mod_upper_bound; lia
          | apply Nat.Div0.div_lt_upper_bound; lia].
Qed.

Lemma time_match_time_str t : time_ok t -> time_match (time_str t) = Some (time_str t).
Proof.
  intros H. destruct (time_digits t H) as (H1 & H2 & H3 & H4 & H5 & H6 & H7 & H8 & H9).
  rewrite time_str_dstr9. apply time_match_dstr9; assumption.
Qed.

Lemma dchar_dchars k : k < 10 -> dchars (dchar k).
Proof.
  intros H. destruct (dchar_props k H) as (_ & _ & _ & H1 & H2 & H3 & _).
  unfold dchars. repeat split; intros E; rewrite E in *; discriminate.
Qed.

Lemma two_dchars n : n < 100 -> forall c, In c (list_ascii_of_string (two_digits n)) -> dchars c.
Proof.
  intros H c Hc. cbn [two_digits three_digits list_ascii_of_string In] in Hc.
  repeat destruct Hc as [<-|Hc]; try contradiction; apply dchar_dchars;
    first [apply div10_lt; lia | apply Nat.mod_upper_bound; lia].
Qed.

Lemma three_dchars n : n < 1000 -> forall c, In c (list_ascii_of_string (three_digits n)) -> dchars c.
Proof.
  intros H c Hc. cbn [two_digits three_digits list_ascii_of_string In] in Hc.
  repeat destruct Hc as [<-|Hc]; try contradiction; apply dchar_dchars;
    first [apply Nat.mod_upper_bound; lia | apply Nat.Div0.div_lt_upper_bound; lia].
Qed.

Lemma py_split_time t : time_ok t ->
  py_split ":" (time_str t) =
  [two_digits (t_h t); two_digits (t_m t); (two_digits (t_s t) ++ "," ++ three_digits (t_ms t))%string].
Proof.
  intros (Hh & Hm & Hs & Hms). unfold py_split, time_str.
  rewrite split_aux_skip by (intros c Hc; apply (two_dchars _ Hh c Hc)).
  cbn -[two_digits three_digits].
  rewrite split_aux_skip by (intros c Hc; apply (two_dchars _ Hm c Hc)).
  cbn -[two_digits three_digits].
  rewrite <- (str_app_nil (two_digits (t_s t) ++ _)).
  rewrite split_aux_skip.
  - reflexivity.
  - apply no_char_app; [intros c Hc; apply (two_dchars _ Hs c Hc)|].
    intros c Hc. cbn [append list_ascii_of_string In] in Hc. destruct Hc as [<-|Hc]; [discriminate|].
    apply (three_dchars _ Hms c Hc).
Qed.

Lemma replace_char_all_app a b s t :
  replace_char_all a b (s ++ t) = (replace_char_all a b s ++ replace_char_all a b t)%string.
Proof. induction s as [|c s IH]; [reflexivity|]. cbn. rewrite IH. reflexivity. Qed.

Lemma replace_char_all_none a b s : no_char a s -> replace_char_all a b s = s.
Proof.
  unfold no_char. induction s as [|c s IH]; intros H; [reflexivity|].
  cbn [replace_char_all]. rewrite IH by (intros c' Hc'; apply H; right; exact Hc').
  unfold is_char. destruct (Ascii.eqb_spec c a) as [E|E]; [|reflexivity].
  exfalso. exact (H c (or_introl eq_refl) E).
Qed.

Lemma split_aux_none d sep cur s :
  no_char d s -> split_aux (String d sep) cur 0 s = [(cur ++ s)%string].
Proof.
  intros H. rewrite <- (str_app_nil s) at 1. rewrite split_aux_skip by exact H. reflexivity.
Qed.

Lemma prefix_empty s : prefix EmptyString s = true.
Proof. destruct s; reflexivity. Qed.

Lemma convert_time t : time_ok t ->
  exists q, convert (py_split ":" (time_str t)) = Some q /\ Qeq q (seconds t).
Proof.
  intros Ht. pose proof Ht as (Hh & Hm & Hs & Hms).
  rewrite (py_split_time t Ht). unfold convert.
  rewrite (py_int_two _ Hh), (py_int_two _ Hm).
  rewrite replace_char_all_app.
  rewrite (replace_char_all_none _ _ (two_digits (t_s t)))
    by (intros c Hc; apply (two_dchars _ Hs c Hc)).
  cbn -[two_digits three_digits].
  rewrite (replace_char_all_none _ _ (three_digits (t_ms t)))
    by (intros c Hc; apply (three_dchars _ Hms c Hc)).
  unfold py_float, py_split.
  rewrite split_aux_skip by (intros c Hc; apply (two_dchars _ Hs c Hc)).
  cbn -[two_digits three_digits].
  rewrite prefix_empty.
  rewrite split_aux_none by (intros c Hc; apply (three_dchars _ Hms c Hc)).
  cbn -[two_digits three_digits py_int].
  rewrite (py_int_two _ Hs), (py_int_three _ Hms).
  eexists. split; [reflexivity|].
  cbn [three_digits String.length]. change (Pos.of_nat (10 ^ 3)) with 1000%positive.
  unfold seconds. rewrite !nat_N_Z.
  unfold Qeq, Qplus, inject_Z. cbn [Qnum Qden].
  rewrite !Nat2Z.inj_add, !Nat2Z.inj_mul. lia.
Qed.

Lemma py_str_N_chars n : forall c, In c (list_ascii_of_string (py_str_N n)) -> schar c.
Proof.
  assert (Hne : forall d c, In c (list_ascii_of_string (NilEmpty.string_of_uint d)) -> schar c).
  { induction d; cbn [NilEmpty.string_of_uint list_ascii_of_string In]; intros c Hc;
      try contradiction; destruct Hc as [<-|Hc]; try (apply IHd; exact Hc);
      unfold schar; vm_compute; repeat split; try reflexivity; discriminate. }
  unfold py_str_N, NilZero.string_of_uint. destruct (N.to_uint n);
    try (apply Hne; fail).
  cbn. intros c [<-|[]]. unfold schar; vm_compute; repeat split; try reflexivity; discriminate.
Qed.

Lemma py_str_N_ne n : py_str_N n <> EmptyString.
Proof. unfold py_str_N, NilZero.string_of_uint. destruct (N.to_uint n); discriminate. Qed.

Lemma rstrip_nospace s : (forall c, In c (list_ascii_of_string s) -> is_space c = false) -> rstrip s = s.
Proof.
  induction s as [|c s IH]; intros H; [reflexivity|].
  cbn [rstrip]. rewrite IH by (intros c' Hc'; apply H; right; exact Hc').
  destruct s; [rewrite (H c (or_introl eq_refl))|]; reflexivity.
Qed.

Lemma lstrip_nospace s : (forall c, In c (list_ascii_of_string s) -> is_space c = false) -> lstrip s = s.
Proof. destruct s as [|c s]; intros H; [reflexivity|]. cbn. rewrite (H c (or_introl eq_refl)). reflexivity. Qed.

Lemma strip_py_str_N n : strip (py_str_N n) = py_str_N n.
Proof.
  assert (H : forall c, In c (list_ascii_of_string (py_str_N n)) -> is_space c = false)
    by (intros c Hc; apply (py_str_N_chars n c Hc)).
  unfold strip. rewrite (rstrip_nospace _ H). apply (lstrip_nospace _ H).
Qed.

Lemma sequence_match_py_str_N n : sequence_match (py_str_N n) = true.
Proof.
  unfold sequence_match. rewrite strip_py_str_N.
  pose proof (py_str_N_chars n) as Hc. pose proof (py_str_N_ne n) as Hn.
  destruct (py_str_N n) as [|a s]; [contradiction|].
  apply forallb_forall. intros c Hin. apply (Hc c Hin).
Qed.

Lemma rstrip_nl s : rstrip (s ++ nl) = rstrip s.
Proof. apply rstrip_app_blank. reflexivity. Qed.

Lemma lines_acc_line cur l r :
  no_char "010" l -> no_char "013" l ->
  lines_acc cur (l ++ nl ++ r) = ((cur ++ l ++ nl)%string :: lines_acc EmptyString r).
Proof.
  unfold no_char. revert cur; induction l as [|c l IH]; intros cur H1 H2.
  - cbn. reflexivity.
  - cbn [append lines_acc].
    destruct (Ascii.eqb_spec c "010") as [E|_]; [exfalso; exact (H1 c (or_introl eq_refl) E)|].
    destruct (Ascii.eqb_spec c "013") as [E|_]; [exfalso; exact (H2 c (or_introl eq_refl) E)|].
    rewrite IH; [| intros c' Hc'; apply H1; right; exact Hc' | intros c' Hc'; apply H2; right; exact Hc'].
    unfold char_str. rewrite str_app_assoc. reflexivity.
Qed.

Lemma py_lines_join ls :
  Forall (fun l => no_char "010" l /\ no_char "013" l) ls ->
  py_lines (join_lines ls) = map (fun l => (l ++ nl)%string) ls.
Proof.
  unfold py_lines. induction 1 as [|l ls [H1 H2] _ IH]; [reflexivity|].
  cbn [join_lines fold_right map]. fold (join_lines ls).
  rewrite lines_acc_line by assumption. rewrite IH. reflexivity.
Qed.

Lemma firstn_S_nth {A} (L : list A) n x :
  nth_error L n = Some x -> firstn (S n) L = (firstn n L ++ [x])%list.
Proof.
  revert n; induction L as [|y L IH]; intros [|n] H; try discriminate H.
  - injection H as ->. reflexivity.
  - cbn in H |- *. f_equal. apply IH, H.
Qed.

Lemma iterate_cfg stop L pos cl q t pz l :
  nth_error L pos = Some l -> l <> EmptyString ->
  iterate (cfg stop L pos cl q t pz) = classify (cfg stop L (S pos) (Some (rstrip l)) q t pz).
Proof.
  intros Hn Hl. unfold cfg at 1. rewrite iterate_eq. cbn [m_paused].
  unfold next_line, readline. cbn [data s_lines s_pos]. rewrite Hn.
  destruct l as [|c l']; [contradiction|]. cbn [warnings errors stop_level read_lines current_line_num].
  unfold cfg, unpause. cbn [m_state m_temp m_parsed m_missing_line].
  rewrite (firstn_S_nth L pos _ Hn).
  replace (Z.of_nat pos - 1 + 1)%Z with (Z.of_nat (S pos) - 1)%Z by lia. reflexivity.
Qed.

Lemma classify_blank stop L pos t :
  classify (cfg stop L pos (Some EmptyString) MUnitText t None) =
  (cfg stop L pos (Some EmptyString) MStart t None, Ok tt).
Proof.
  unfold classify, bind, cur_line, cfg. cbn [sp current_line strip lstrip rstrip].
  unfold found_empty. rewrite fire_eq. cbn [sm m_state existsb mstate_eqb orb].
  unfold validate_empty, bind, get_state, ret. cbn. reflexivity.
Qed.

Lemma match_ne {A} (a b : A) s : s <> EmptyString ->
  match s with EmptyString => a | String _ _ => b end = b.
Proof. destruct s; [contradiction|reflexivity]. Qed.

Lemma classify_seq stop L pos t n :
  n = (prev t + 1)%N ->
  classify (cfg stop L pos (Some (py_str_N n)) MStart t None) =
  (cfg stop L pos (Some (py_str_N n)) MUnit (Some (empty_unit n)) t, Ok tt).
Proof.
  intros Hn. unfold classify, bind, cur_line, cfg. cbn [sp current_line].
  rewrite strip_py_str_N, match_ne by apply py_str_N_ne.
  unfold get_state. cbn [sm m_state mstate_eqb andb]. rewrite sequence_match_py_str_N.
  unfold found_sequence. rewrite fire_eq. cbn [sm m_state existsb mstate_eqb orb].
  unfold validate_unit, create_unit, bind, get_temp, cur_line, of_option, get_state, set_parsed,
    set_temp, modify_m, ret, raise.
  cbn -[py_int strip py_str_N N.eqb N.add].
  rewrite py_int_py_str_N. cbn -[py_int strip py_str_N N.eqb N.add].
  replace (n =? match t with Some u => u_sequence u | None => 0 end + 1)%N with true
    by (symmetry; apply N.eqb_eq; exact Hn). cbn -[py_int strip py_str_N N.eqb N.add].
  rewrite py_int_py_str_N. reflexivity.
Qed.

Lemma rstrip_app_t x b : all_t b -> b <> EmptyString -> rstrip (x ++ b) = (x ++ b)%string.
Proof.
  intros Hb Hn. induction x as [|c x IH]; [apply rstrip_all_t, Hb|].
  cbn [append rstrip]. rewrite IH. destruct x; [destruct b; [contradiction|]|]; reflexivity.
Qed.

Lemma header_facts u : time_ok (su_start u) -> time_ok (su_end u) ->
  strip (header_str u) = header_str u /\ header_str u <> EmptyString /\
  header_match (header_str u) = Some (header_str u, EmptyString) /\
  py_find "." (header_str u) = None /\
  py_split "-->" (header_str u) =
    [(time_str (su_start u) ++ " ")%string; (" " ++ time_str (su_end u))%string] /\
  strip (time_str (su_start u) ++ " ") = time_str (su_start u) /\
  strip (" " ++ time_str (su_end u)) = time_str (su_end u).
Proof.
  intros H1 H2. pose proof (time_str_all_t _ H1) as Ha. pose proof (time_str_all_t _ H2) as Hb.
  pose proof (time_str_ne (su_start u)) as Hna. pose proof (time_str_ne (su_end u)) as Hnb.
  unfold header_str. repeat split.
  - unfold strip. rewrite <- str_app_assoc. rewrite rstrip_app_t by assumption.
    rewrite str_app_assoc. apply lstrip_app_t; assumption.
  - destruct (time_str (su_start u)); [contradiction|discriminate].
  - apply header_match_hdr; assumption.
  - apply py_find_none. apply no_char_app; [apply all_t_no_char; [exact Ha|]|].
    + intros c (_ & _ & H & _). exact H.
    + apply no_char_app; [intros c Hc; cbn in Hc; intuition (subst; discriminate)|].
      apply all_t_no_char; [exact Hb|]. intros c (_ & _ & H & _). exact H.
  - apply py_split_hdr; assumption.
  - apply strip_left_t; assumption.
  - apply strip_right_t; assumption.
Qed.

Lemma classify_hdr stop L pos n u :
  time_ok (su_start u) -> time_ok (su_end u) ->
  exists q1 q2, Qeq q1 (seconds (su_start u)) /\ Qeq q2 (seconds (su_end u)) /\
  classify (cfg stop L pos (Some (header_str u)) MUnit (Some (empty_unit n)) None) =
  (cfg stop L pos (Some (header_str u)) MUnitText (Some (Unit n [] (Some q1) (Some q2) None)) None,
   Ok tt).
Proof.
  intros H1 H2.
  destruct (convert_time _ H1) as [q1 [Hc1 Hq1]]. destruct (convert_time _ H2) as [q2 [Hc2 Hq2]].
  exists q1, q2. split; [exact Hq1|]. split; [exact Hq2|].
  destruct (header_facts u H1 H2) as (Hs & Hne & Hm & Hf & Hsp & Hsa & Hsb).
  pose proof (time_match_time_str _ H1) as Hta. pose proof (time_match_time_str _ H2) as Htb.
  unfold classify, bind, cur_line, cfg. cbn [sp current_line].
  rewrite Hs, match_ne by exact Hne.
  unfold get_state. cbn [sm m_state mstate_eqb andb]. rewrite Hm.
  unfold found_header. rewrite fire_eq. cbn [sm m_state existsb mstate_eqb orb].
  unfold validate_header, parse_time, update_temp, bind, get_temp, cur_line, get_state,
    set_temp, modify_m, ret, raise.
  cbn -[strip header_match py_find py_split time_match convert header_str time_str].
  rewrite Hf, Hm, Hsp, Hsa, Hsb, Hta, Htb.
  cbn -[strip header_match py_find py_split time_match convert header_str time_str].
  rewrite Hsp, Hsa, Hsb, Hta, Htb, Hc1, Hc2. reflexivity.
Qed.

Lemma tagged_none x : (forall r, x <> String "{" r) -> tagged_match x = None.
Proof.
  intros H. destruct x as [|c r]; [reflexivity|]. cbn [tagged_match]. unfold is_char.
  destruct (Ascii.eqb_spec c "{") as [->|_]; [exfalso; exact (H r eq_refl)|reflexivity].
Qed.

Lemma classify_text stop L pos x u :
  text_ok x ->
  classify (cfg stop L pos (Some x) MUnitText (Some u) None) =
  (cfg stop L pos (Some x) MUnitText
     (Some (Unit (u_sequence u) (u_lines u ++ [x]) (u_start u) (u_end u) (u_position u))) None,
   Ok tt).
Proof.
  intros (Hs & Hr & Hbar & _ & _ & Hb & Hm).
  assert (Hsp : py_split "|" x = [x]) by (apply split_aux_none, Hbar).
  pose proof (tagged_none x Hb) as Ht.
  unfold classify, bind, cur_line, cfg. cbn [sp current_line].
  rewrite match_ne by exact Hs.
  unfold get_state. cbn [sm m_state mstate_eqb andb]. rewrite Hm.
  unfold found_text. rewrite fire_eq. cbn [sm m_state existsb mstate_eqb orb].
  unfold validate_text, insert_text, add_lines, update_temp, bind, get_temp, cur_line, get_state,
    set_temp, modify_m, ret, raise.
  cbn -[strip header_match py_split tagged_match rstrip].
  rewrite Ht. cbn -[strip header_match py_split tagged_match rstrip].
  rewrite Hsp. cbn [map]. rewrite Hr. reflexivity.
Qed.

Lemma loop_body_step s stop L pos cl q t pz :
  mstate_eqb (m_state (sm s)) MFinished = false ->
  iterate s = (cfg stop L pos cl q t pz, Ok tt) ->
  mstate_eqb q MFinished = false ->
  loop_body s = (cfg stop L pos cl q t None, Ok (pz, false)).
Proof.
  intros Hf Hi Hq. unfold loop_body, bind, get_state, ret. rewrite Hf, Hi.
  unfold parsed, cfg. destruct pz; cbn; rewrite Hq; reflexivity.
Qed.

Lemma run_step f s s' y :
  loop_body s = (s', Ok (y, false)) ->
  run (S f) s = ((opt_list y ++ fst (run f s'))%list, snd (run f s')).
Proof. intros H. cbn [run]. rewrite H. destruct (run f s'). reflexivity. Qed.

Lemma run_last f s s' y :
  loop_body s = (s', Ok (y, true)) -> run (S f) s = (opt_list y, Finished s').
Proof. intros H. cbn [run]. rewrite H. reflexivity. Qed.

Lemma loop_body_eof_start stop L pos cl t :
  nth_error L pos = None ->
  exists s', loop_body (cfg stop L pos cl MStart t None) = (s', Ok (t, true)) /\
             warnings (sp s') = [] /\ errors (sp s') = [].
Proof.
  intros Hn. unfold loop_body, bind, get_state, ret. cbn [cfg sm m_state mstate_eqb].
  unfold cfg. rewrite iterate_eq. cbn [m_paused].
  unfold next_line, readline. cbn [data s_lines s_pos]. rewrite Hn.
  unfold done. rewrite fire_eq.
  cbn [sm m_state unpause existsb mstate_eqb orb].
  unfold final_unit_before, final_unit_after, bind, get_state, get_temp, set_missing_line,
    set_parsed, set_temp, modify_m, ret, parsed.
  cbn. destruct t; eexists; (split; [reflexivity|]); split; reflexivity.
Qed.

Lemma nth_error_firstn_lt {A} (L : list A) n m : n < m -> nth_error (firstn m L) n = nth_error L n.
Proof.
  revert n m; induction L as [|x L IH]; intros n m H; [destruct m; reflexivity|].
  destruct m as [|m]; [lia|]. destruct n as [|n]; [reflexivity|]. cbn. apply IH. lia.
Qed.

Lemma loop_body_eof_text stop L k l' u x :
  nth_error L (S k) = None -> nth_error L k = Some x ->
  (stop = None \/ stop = Some "error") ->
  exists s1 s2,
    loop_body (cfg stop L (S k) (Some l') MUnitText (Some u) None) = (s1, Ok (None, false)) /\
    loop_body s1 = (s2, Ok (Some u, true)) /\ errors (sp s2) = [].
Proof.
  intros Hn Hk Hstop.
  assert (HR : nth_error (firstn (S k) L) k = Some x) by (rewrite nth_error_firstn_lt by lia; exact Hk).
  unfold loop_body, bind, get_state, ret. cbn [cfg sm m_state mstate_eqb].
  unfold cfg. rewrite iterate_eq. cbn [m_paused].
  unfold next_line, readline. cbn [data s_lines s_pos]. rewrite Hn.
  replace (Z.of_nat (S k) - 1)%Z with (Z.of_nat k) by lia.
  generalize dependent (firstn (S k) L). intros RL HR.
  unfold done. rewrite fire_eq.
  cbn [sm m_state unpause existsb mstate_eqb orb].
  unfold final_unit_before, final_unit_after, bind, get_state, get_temp, set_missing_line,
    set_parsed, set_temp, modify_m, ret, parsed, line_num, fetch, cur_line, warn, liftP, raise.
  cbn -[add_warning fetch_line Z.of_nat].
  unfold fetch_line. cbn -[add_warning py_index Z.of_nat].
  rewrite Z.ltb_irrefl. unfold py_index.
  replace (0 <=? Z.of_nat k)%Z with true by (symmetry; apply Z.leb_le; lia).
  rewrite Nat2Z.id, HR.
  cbn -[add_warning Z.of_nat].
  unfold add_warning, add_msg.
  destruct Hstop as [-> | ->]; cbn; do 2 eexists; repeat split; reflexivity.
Qed.

Lemma skipn_cons_nth {A} (L : list A) pos x r :
  skipn pos L = x :: r -> nth_error L pos = Some x /\ skipn (S pos) L = r.
Proof.
  revert pos; induction L as [|y L IH]; intros [|pos] H; cbn in H |- *; try discriminate H.
  - injection H as -> ->. split; reflexivity.
  - apply IH, H.
Qed.

Lemma skipn_nil_nth {A} (L : list A) pos : skipn pos L = [] -> nth_error L pos = None.
Proof.
  revert pos; induction L as [|y L IH]; intros [|pos] H; cbn in H |- *; try discriminate H; auto.
Qed.

Lemma skipn_app_nth {A} (L : list A) pos xs r i :
  skipn pos L = (xs ++ r)%list -> i < List.length xs -> nth_error L (pos + i) = nth_error xs i.
Proof.
  revert pos i; induction xs as [|x xs IH]; intros pos i H Hi; [cbn in Hi; lia|].
  destruct (skipn_cons_nth L pos x _ H) as [Hn Hs]. destruct i as [|i].
  - rewrite Nat.add_0_r. exact Hn.
  - replace (pos + S i) with (S pos + i) by lia. apply (IH (S pos) i Hs). cbn in Hi. lia.
Qed.

Lemma addnl_ne l : addnl l <> EmptyString.
Proof. unfold addnl. destruct l; discriminate. Qed.

Lemma run_one f s s' :
  loop_body s = (s', Ok (None, false)) -> run (S f) s = run f s'.
Proof. intros H. rewrite (run_step f s s' None H). cbn [opt_list app]. destruct (run f s'). reflexivity. Qed.

Lemma run_texts stop L ts : forall pos l0 u rest f,
  Forall text_ok ts ->
  skipn pos L = (map addnl ts ++ rest)%list ->
  exists l1,
    run (List.length ts + f) (cfg stop L pos (Some l0) MUnitText (Some u) None) =
    run f (cfg stop L (List.length ts + pos) (Some l1) MUnitText
             (Some (Unit (u_sequence u) (u_lines u ++ ts) (u_start u) (u_end u) (u_position u)))
             None).
Proof.
  induction ts as [|x ts IH]; intros pos l0 u rest f Hok Hs.
  - exists l0. cbn [List.length plus]. rewrite app_nil_r. destruct u; reflexivity.
  - inversion Hok as [|? ? Hx Hts]; subst.
    destruct (skipn_cons_nth L pos _ _ Hs) as [Hn Hs'].
    assert (Hb : loop_body (cfg stop L pos (Some l0) MUnitText (Some u) None) =
      (cfg stop L (S pos) (Some x) MUnitText
         (Some (Unit (u_sequence u) (u_lines u ++ [x]) (u_start u) (u_end u) (u_position u))) None,
       Ok (None, false))).
    { apply loop_body_step; [reflexivity| |reflexivity].
      rewrite (iterate_cfg _ _ _ _ _ _ _ _ Hn (addnl_ne x)).
      unfold addnl. rewrite rstrip_nl. destruct Hx as (Hs1 & Hr & Hrest). rewrite Hr.
      apply classify_text. split; [exact Hs1|split; [exact Hr|exact Hrest]]. }
    cbn [List.length]. replace (S (List.length ts) + f) with (S (List.length ts + f)) by lia.
    rewrite (run_one _ _ _ Hb).
    destruct (IH (S pos) x (Unit (u_sequence u) (u_lines u ++ [x]) (u_start u) (u_end u) (u_position u))
                 rest f Hts Hs') as [l1 E]. exists l1. rewrite E.
    cbn [u_sequence u_lines u_start u_end u_position]. rewrite <- app_assoc.
    replace (List.length ts + S pos) with (S (List.length ts + pos)) by lia. reflexivity.
Qed.

Lemma rstrip_header u : time_ok (su_start u) -> time_ok (su_end u) ->
  rstrip (header_str u) = header_str u.
Proof.
  intros H1 H2. unfold header_str. rewrite <- str_app_assoc.
  apply rstrip_app_t; [apply time_str_all_t, H2 | apply time_str_ne].
Qed.

Lemma rstrip_py_str_N n : rstrip (py_str_N n) = py_str_N n.
Proof. apply rstrip_nospace. intros c Hc. apply (py_str_N_chars n c Hc). Qed.

Lemma run_unit stop L pos cl t n u rest f :
  n = (prev t + 1)%N -> unit_ok u ->
  skipn pos L = (addnl (py_str_N n) :: addnl (header_str u) :: map addnl (su_text u) ++ rest)%list ->
  exists l1 q1 q2, Qeq q1 (seconds (su_start u)) /\ Qeq q2 (seconds (su_end u)) /\
    let s' := cfg stop L (S (S (List.length (su_text u) + pos))) (Some l1) MUnitText
                (Some (Unit n (su_text u) (Some q1) (Some q2) None)) None in
    run (S (S (List.length (su_text u) + f))) (cfg stop L pos cl MStart t None) =
    ((opt_list t ++ fst (run f s'))%list, snd (run f s')).
Proof.
  intros Hn (H1 & H2 & Hts) Hs.
  destruct (skipn_cons_nth L pos _ _ Hs) as [Hn0 Hs1].
  destruct (skipn_cons_nth L (S pos) _ _ Hs1) as [Hn1 Hs2].
  assert (B1 : loop_body (cfg stop L pos cl MStart t None) =
    (cfg stop L (S pos) (Some (py_str_N n)) MUnit (Some (empty_unit n)) None, Ok (t, false))).
  { apply loop_body_step; [reflexivity| |reflexivity].
    rewrite (iterate_cfg _ _ _ _ _ _ _ _ Hn0 (addnl_ne _)).
    unfold addnl. rewrite rstrip_nl, rstrip_py_str_N. apply classify_seq, Hn. }
  destruct (classify_hdr stop L (S (S pos)) n u H1 H2) as (q1 & q2 & Hq1 & Hq2 & C).
  assert (B2 : loop_body (cfg stop L (S pos) (Some (py_str_N n)) MUnit (Some (empty_unit n)) None) =
    (cfg stop L (S (S pos)) (Some (header_str u)) MUnitText
       (Some (Unit n [] (Some q1) (Some q2) None)) None, Ok (None, false))).
  { apply loop_body_step; [reflexivity| |reflexivity].
    rewrite (iterate_cfg _ _ _ _ _ _ _ _ Hn1 (addnl_ne _)).
    unfold addnl. rewrite rstrip_nl, rstrip_header by assumption. exact C. }
  destruct (run_texts stop L (su_text u) (S (S pos)) (header_str u)
              (Unit n [] (Some q1) (Some q2) None) rest f Hts Hs2) as [l1 E].
  exists l1, q1, q2. split; [exact Hq1|]. split; [exact Hq2|]. cbv zeta.
  rewrite (run_step _ _ _ _ B1). rewrite (run_one _ _ _ B2). rewrite E.
  cbn [u_sequence u_lines u_start u_end u_position app].
  replace (List.length (su_text u) + S (S pos)) with (S (S (List.length (su_text u) + pos))) by lia.
  reflexivity.
Qed.

Lemma skipn_skip {A} (L : list A) pos xs R :
  skipn pos L = (xs ++ R)%list -> skipn (List.length xs + pos) L = R.
Proof.
  revert pos; induction xs as [|x xs IH]; intros pos H; [exact H|].
  destruct (skipn_cons_nth L pos _ _ H) as [_ H']. cbn [List.length].
  replace (S (List.length xs) + pos) with (List.length xs + S pos) by lia. apply IH, H'.
Qed.

Lemma blank_after_cases trailing us :
  (us = [] /\ trailing = false /\ blank_after trailing us = []) \/ blank_after trailing us = [EmptyString].
Proof. destruct us; [destruct trailing|]; auto. Qed.

Lemma run_units stop trailing L us : forall n pos cl t f,
  Forall unit_ok us -> n = (prev t + 1)%N ->
  skipn pos L = map addnl (srt_lines n trailing us) ->
  (trailing = true \/ stop = None \/ stop = Some "error") ->
  List.length (srt_lines n trailing us) + 2 <= f ->
  exists ys s_end,
    run f (cfg stop L pos cl MStart t None) = ((opt_list t ++ ys)%list, Finished s_end) /\
    units_match ys n us /\ errors (sp s_end) = [] /\ (trailing = true -> warnings (sp s_end) = []).
Proof.
  induction us as [|u us IH]; intros n pos cl t f Hok Hn Hs Hstop Hf.
  - destruct (loop_body_eof_start stop L pos cl t (skipn_nil_nth L pos Hs)) as (s' & B & Hw & He).
    destruct f as [|f]; [cbn in Hf; lia|]. rewrite (run_last _ _ _ _ B).
    exists [], s'. rewrite app_nil_r. repeat split; auto.
  - inversion Hok as [|? ? Hu Hus]; subst.
    cbn [srt_lines map] in Hs. rewrite map_app in Hs.
    cbn [srt_lines List.length] in Hf. rewrite !length_app in Hf.
    destruct (run_unit stop L pos cl t _ u _ (f - S (S (List.length (su_text u)))) eq_refl Hu Hs)
      as (l1 & q1 & q2 & Hq1 & Hq2 & E).
    cbv zeta in E.
    replace f with (S (S (List.length (su_text u) + (f - S (S (List.length (su_text u))))))) by lia.
    rewrite E. clear E.
    set (U := Unit (prev t + 1) (su_text u) (Some q1) (Some q2) None).
    set (f1 := f - S (S (List.length (su_text u)))).
    set (pos' := S (S (List.length (su_text u) + pos))).
    assert (Hs' : skipn pos' L = map addnl (blank_after trailing us ++ srt_lines (prev t + 1 + 1) trailing us)).
    { rewrite map_app. rewrite <- map_app.
      change (addnl (py_str_N (prev t + 1)) :: addnl (header_str u) :: map addnl (su_text u) ++
                map addnl (blank_after trailing us ++ srt_lines (prev t + 1 + 1) trailing us))%list
        with ((addnl (py_str_N (prev t + 1)) :: addnl (header_str u) :: map addnl (su_text u)) ++
                map addnl (blank_after trailing us ++ srt_lines (prev t + 1 + 1) trailing us))%list in Hs.
      rewrite map_app in Hs.
      pose proof (skipn_skip L pos _ _ Hs) as H. cbn [List.length] in H. rewrite length_map in H.
      rewrite map_app. exact H. }
    assert (HU : unit_matches U (prev t + 1) u) by (repeat split; assumption).
    destruct (blank_after_cases trailing us) as [(-> & -> & Hb) | Hb].
    + (* the last unit, not followed by a blank line *)
      rewrite Hb in Hs'. cbn [srt_lines app map] in Hs'.
      destruct Hstop as [Hstop|Hstop]; [discriminate Hstop|].
      assert (Hx : exists x, nth_error L (S (List.length (su_text u) + pos)) = Some x).
      { rewrite Hb in Hs. cbn [srt_lines app map] in Hs.
        replace (S (List.length (su_text u) + pos)) with (pos + S (List.length (su_text u))) by lia.
        rewrite (skipn_app_nth L pos (addnl (py_str_N (prev t + 1)) :: addnl (header_str u) :: map addnl (su_text u)) []
                    (S (List.length (su_text u)))).
        - destruct (nth_error _ _) as [y|] eqn:E; [exists y; reflexivity|].
          apply nth_error_None in E. cbn [List.length] in E. rewrite length_map in E. lia.
        - exact Hs.
        - cbn [List.length]. rewrite length_map. lia. }
      destruct Hx as [x Hx].
      destruct (loop_body_eof_text stop L (S (List.length (su_text u) + pos)) l1 U x
                  (skipn_nil_nth L _ Hs') Hx Hstop) as (s1 & s2 & B1 & B2 & He).
      rewrite Hb in Hf. cbn [List.length srt_lines] in Hf.
      assert (Ef : f1 = S (S (f1 - 2))) by (unfold f1; lia). rewrite Ef.
      rewrite (run_one _ _ _ B1), (run_last _ _ _ _ B2).
      exists [U], s2. cbn [fst snd opt_list]. repeat split; auto. discriminate.
    + rewrite Hb in Hs'. cbn [app map] in Hs'.
      destruct (skipn_cons_nth L pos' _ _ Hs') as [Hn' Hs''].
      assert (B : loop_body (cfg stop L pos' (Some l1) MUnitText (Some U) None) =
        (cfg stop L (S pos') (Some EmptyString) MStart (Some U) None, Ok (None, false))).
      { apply loop_body_step; [reflexivity| |reflexivity].
        rewrite (iterate_cfg _ _ _ _ _ _ _ _ Hn' (addnl_ne _)). apply classify_blank. }
      rewrite Hb in Hf. cbn [List.length] in Hf.
      assert (Ef : f1 = S (f1 - 1)) by (unfold f1; lia). rewrite Ef.
      rewrite (run_one _ _ _ B).
      destruct (IH (prev t + 1 + 1)%N (S pos') (Some EmptyString) (Some U) (f1 - 1) Hus eq_refl Hs''
                  Hstop ltac:(unfold f1; lia)) as (ys & s_end & R & Hm & He & Hw).
      rewrite R. exists (U :: ys), s_end. cbn [fst snd opt_list app].
      repeat split; auto.
Qed.

Lemma header_crlf u : time_ok (su_start u) -> time_ok (su_end u) -> crlf_free (header_str u).
Proof.
  intros H1 H2. unfold header_str.
  assert (Ht : forall t d, time_ok t -> (d = "010"%char \/ d = "013"%char) -> no_char d (time_str t)).
  { intros t d Ht Hd. apply all_t_no_char; [apply time_str_all_t, Ht|].
    intros c (_ & _ & _ & _ & _ & Hc1 & Hc2). destruct Hd as [->| ->]; assumption. }
  assert (Ha : forall d, (d = "010"%char \/ d = "013"%char) -> no_char d " --> ").
  { intros d Hd c Hc. cbn in Hc. destruct Hd as [->| ->];
      repeat (destruct Hc as [<-|Hc]; [discriminate|]); contradiction. }
  split; (apply no_char_app; [|apply no_char_app]);
    first [apply Ht | apply Ha]; try assumption; first [left; reflexivity | right; reflexivity].
Qed.

Lemma seq_crlf n : crlf_free (py_str_N n).
Proof. split; intros c Hc; destruct (py_str_N_chars n c Hc) as (_ & _ & ? & ?); assumption. Qed.

Lemma srt_lines_crlf trailing us : forall n,
  Forall unit_ok us -> Forall crlf_free (srt_lines n trailing us).
Proof.
  induction us as [|u us IH]; intros n Hok; [constructor|].
  inversion Hok as [|? ? (H1 & H2 & H3) Hus]; subst.
  cbn [srt_lines]. constructor; [apply seq_crlf|]. constructor; [apply header_crlf; assumption|].
  apply Forall_app; split.
  - eapply Forall_impl; [|exact H3]. intros x (_ & _ & _ & ? & ? & _). split; assumption.
  - apply Forall_app; split; [|apply IH, Hus].
    destruct (blank_after_cases trailing us) as [(_ & _ & ->) | ->]; repeat constructor; intros c [].
Qed.

Lemma parse_fuel_lines ls : List.length ls + 4 <= fold_right (fun l n => line_cost l + n) 4 ls.
Proof. induction ls as [|l ls IH]; cbn [List.length fold_right]; unfold line_cost in *; lia. Qed.

(** C1 (amended): parsing a well-formed document whose text lines are kept
    literally yields its units in order, with their text and times. *)
Theorem parse_well_formed stop trailing us :
  Forall unit_ok us -> (trailing = true \/ stop = None \/ stop = Some "error") ->
  match parse_result stop (srt_doc trailing us) with
  | Some (ys, ws, es) => units_match ys 1 us /\ es = [] /\ (trailing = true -> ws = [])
  | None => False
  end.
Proof.
  intros Hok Hstop. unfold parse_result, parse_doc.
  set (L := map addnl (srt_lines 1 trailing us)).
  assert (HL : py_lines (srt_doc trailing us) = L)
    by (apply py_lines_join; eapply Forall_impl; [|apply srt_lines_crlf, Hok]; intros l H; exact H).
  assert (Hi : init_st stop (srt_doc trailing us) = cfg stop L 0 None MStart None None)
    by (unfold init_st; rewrite HL; reflexivity).
  assert (Hf : List.length (srt_lines 1 trailing us) + 2 <= parse_fuel (srt_doc trailing us)).
  { unfold parse_fuel. rewrite HL. pose proof (parse_fuel_lines L) as H.
    unfold L in H at 1. rewrite length_map in H. lia. }
  rewrite Hi.
  destruct (run_units stop trailing L us 1 0 None None _ Hok eq_refl eq_refl Hstop Hf)
    as (ys & s_end & R & Hm & He & Hw).
  rewrite R. cbn [opt_list app]. auto.
Qed.

Lemma parse_well_formed_witness :
  Forall unit_ok [u_hello] /\
  match parse_result None (srt_doc true [u_hello]) with
  | Some (ys, ws, es) => units_match ys 1 [u_hello] /\ es = [] /\ (true = true -> ws = [])
  | None => False
  end.
Proof.
  assert (H : Forall unit_ok [u_hello]).
  { repeat constructor; cbn; try lia.
    - discriminate.
    - intros c Hc. cbn in Hc. repeat (destruct Hc as [<-|Hc]; [discriminate|]). contradiction.
    - intros c Hc. cbn in Hc. repeat (destruct Hc as [<-|Hc]; [discriminate|]). contradiction.
    - intros c Hc. cbn in Hc. repeat (destruct Hc as [<-|Hc]; [discriminate|]). contradiction.
    - intros r Hr. discriminate Hr. }
  split; [exact H|]. apply (parse_well_formed None true [u_hello] H). left; reflexivity.
Defined.

(** C1, as stated: the text line [a|b] of a well-formed unit is kept
    unchanged. *)
Lemma pipe_text_kept_fails :
  ~ match parse_result (Some "error") doc_pipe with
    | Some ([u], _, _) => u_lines u = ["a|b"]
    | _ => False
    end.
Proof. vm_compute. discriminate. Qed.

(** ** Further properties of the parser *)

(** X1: [_next_line] keeps the read history in step with the stream: on a
    stream of non-empty lines, if [read_lines] holds the lines before the
    read position and [current_line_num] the index of the last of them,
    this stays true after [_next_line], and after [_rewind]. *)
Theorem next_line_keeps_history (p : parser) :
  lines_ok p -> hist_ok p ->
  hist_ok (fst (next_line p)) /\ lines_ok (fst (next_line p)) /\ hist_ok (rewind p).
Proof.
  destruct p as [ws es stop [[L pos]|] rl n cl]; unfold hist_ok, lines_ok;
    cbn [data read_lines current_line_num s_lines s_pos]; intros Hl [Hr Hn]; subst.
  - unfold next_line, readline. cbn [data s_lines s_pos]. destruct (nth_error L pos) as [l|] eqn:E.
    + destruct l as [|c l'].
      * exfalso. apply nth_error_In in E. rewrite Forall_forall in Hl. exact (Hl _ E eq_refl).
      * cbn [fst data s_lines s_pos read_lines current_line_num rewind option_map seek0].
        split; [|split; [exact Hl|split; reflexivity]].
        split; [rewrite (firstn_S_nth L pos _ E); reflexivity | lia].
    + cbn [fst set_data data s_lines s_pos read_lines current_line_num rewind option_map seek0].
      repeat split; auto.
  - repeat split; auto.
Qed.

Lemma nth_error_lt_length {A} (L : list A) n x : nth_error L n = Some x -> n < List.length L.
Proof. intros H. apply nth_error_Some. rewrite H. discriminate. Qed.

(** X2: [_next_line] keeps Python's invariant of the line buffer,
    [len(_read_lines) == _current_line_num + 1] ([cursor_ok]); after it has
    read a line, [_fetch_line] at the new [current_line_num] returns that
    line, and every earlier index returns what it returned before the read. *)
Theorem fetch_after_next_line (p p' : parser) :
  cursor_ok p -> next_line p = (p', Ok true) ->
  cursor_ok p' /\
  (exists l, current_line p' = Some l /\ fetch_line (current_line_num p') p' = (p', Ok l)) /\
  (forall i, (0 <= i <= current_line_num p)%Z -> fetch_line i p' = (p', snd (fetch_line i p))).
Proof.
  destruct p as [ws es stop [d|] rl n cl]; unfold cursor_ok;
    cbn [data read_lines current_line_num]; intros Hc Hnext; [|discriminate Hnext].
  unfold next_line, readline in Hnext. cbn [data] in Hnext.
  destruct (nth_error (s_lines d) (s_pos d)) as [l|]; [|discriminate Hnext].
  destruct l as [|c l']; [discriminate Hnext|].
  injection Hnext as <-. cbn [read_lines current_line_num current_line].
  split; [rewrite length_app; cbn [List.length]; lia|].
  split.
  - eexists. split; [reflexivity|]. unfold fetch_line. cbn [current_line_num read_lines].
    rewrite Z.ltb_irrefl. unfold py_index.
    replace (0 <=? n + 1)%Z with true by (symmetry; apply Z.leb_le; lia).
    replace (Z.to_nat (n + 1)) with (List.length rl) by lia.
    rewrite nth_error_app2 by lia. rewrite Nat.sub_diag. reflexivity.
  - intros i Hi. unfold fetch_line. cbn [current_line_num read_lines].
    replace (n + 1 <? i)%Z with false by (symmetry; apply Z.ltb_ge; lia).
    replace (n <? i)%Z with false by (symmetry; apply Z.ltb_ge; lia).
    unfold py_index. replace (0 <=? i)%Z with true by (symmetry; apply Z.leb_le; lia).
    rewrite nth_error_app1 by lia. destruct (nth_error rl (Z.to_nat i)); reflexivity.
Qed.

Lemma fetch_after_next_line_witness :
  cursor_ok p_ab /\ next_line p_ab = (Parser [] [] None (Some (Stream ["a"; "b"] 2)) ["a"; "b"] 1 (Some "b"), Ok true) /\
  (cursor_ok (Parser [] [] None (Some (Stream ["a"; "b"] 2)) ["a"; "b"] 1 (Some "b")) /\
   (exists l, current_line (Parser [] [] None (Some (Stream ["a"; "b"] 2)) ["a"; "b"] 1 (Some "b")) = Some l /\
     fetch_line 1 (Parser [] [] None (Some (Stream ["a"; "b"] 2)) ["a"; "b"] 1 (Some "b")) =
       (Parser [] [] None (Some (Stream ["a"; "b"] 2)) ["a"; "b"] 1 (Some "b"), Ok l)) /\
   (forall i, (0 <= i <= 0)%Z ->
     fetch_line i (Parser [] [] None (Some (Stream ["a"; "b"] 2)) ["a"; "b"] 1 (Some "b")) =
       (Parser [] [] None (Some (Stream ["a"; "b"] 2)) ["a"; "b"] 1 (Some "b"), snd (fetch_line i p_ab)))).
Proof.
  assert (H2 : cursor_ok p_ab) by reflexivity.
  assert (H3 : next_line p_ab = (Parser [] [] None (Some (Stream ["a"; "b"] 2)) ["a"; "b"] 1 (Some "b"), Ok true))
    by reflexivity.
  split; [exact H2|]. split; [exact H3|]. exact (fetch_after_next_line _ _ H2 H3).
Defined.

Section DetectOutcome.

Variable decode : string -> list byte -> option (list N).
Variable buf : list byte.

Let fails (n : string) : Prop := fst (can_decode decode (bytes_io buf) n) = false.

Lemma detect_loop_gives_up (fuel : nat) (q : list cand) (tried : list string) :
  q <> [] -> NoDup tried -> (forall n, In n tried -> fails n) ->
  (List.length (expand q) < fuel)%nat ->
  match fst (detect_loop decode fuel (rev q) tried (bytes_io buf)) with
  | DOk _ _ => True
  | EncodingError m tr =>
      m = "Could not detect proper encoding" /\ NoDup tr /\
      (forall n, In n tr <-> In n tried \/ In n (map cand_name (expand q))) /\
      (forall c, In c (expand q) -> fails (cand_name c))
  | _ => False
  end.
Proof.
  revert q tried; induction fuel as [|f IH]; intros q tried Hq Hnd Ht Hf; [lia|].
  destruct q as [|c r]; [congruence|].
  cbn [detect_loop]. unfold pop. rewrite rev_involutive. cbv beta iota.
  rewrite (can_decode_bytes_io decode buf). cbv beta iota.
  destruct (fst (can_decode decode (bytes_io buf) (cand_name c))) eqn:Hc.
  - destruct (cand_result c); exact I.
  - set (name := cand_name c) in *.
    set (tried' := if existsb (String.eqb name) tried then tried else (tried ++ [name])%list).
    assert (Hin' : forall n, In n tried' <-> In n tried \/ n = name).
    { intros n. unfold tried'. destruct (existsb (String.eqb name) tried) eqn:Ee.
      - apply existsb_exists in Ee as [z [Hz Hzn]]. apply String.eqb_eq in Hzn. subst z.
        split; [auto|]. intros [H| ->]; auto.
      - rewrite in_app_iff. cbn [In]. split; intros [H|H]; auto; destruct H as [H|[]]; auto. }
    assert (Hnd' : NoDup tried').
    { unfold tried'. destruct (existsb (String.eqb name) tried) eqn:Ee; [exact Hnd|].
      apply NoDup_app; [exact Hnd | constructor; [intros []|constructor] |].
      intros x Hx [<-|[]]. apply Bool.not_true_iff_false in Ee. apply Ee.
      apply existsb_exists. exists name. split; [exact Hx | apply String.eqb_refl]. }
    assert (Ht' : forall n, In n tried' -> fails n).
    { intros n Hn. apply Hin' in Hn as [Hn| ->]; [auto | exact Hc]. }
    rewrite expand_cons in Hf |- *. cbn [List.length] in Hf. rewrite length_app, length_map in Hf.
    fold name in Hf |- *.
    set (sim := match similar_encodings name with Some s => s | None => [] end) in *.
    set (P := fun s0 : string => negb (existsb (String.eqb s0) tried')).
    assert (HX : exists X, (List.length X <= 1)%nat /\
               (forall y, In y X -> similar_encodings (cand_name y) = None) /\
               (forall y, In y X -> In (cand_name y) sim) /\
               (forall x, In x sim -> In (CName x) X \/ In x tried') /\
               (match similar_encodings name with
                | Some ((_ :: _) as s) =>
                    (rev r ++ map CName (filter P s))%list
                | _ => rev r end) = (rev r ++ X)%list).
    { unfold sim. destruct (similar_encodings name) as [s|] eqn:Hs.
      - destruct (similar_encodings_single _ _ Hs) as [x [-> Hx]].
        exists (map CName (filter P [x])). cbn [filter]. fold (P x).
        destruct (P x) eqn:Hp; cbn.
        + split; [lia|]. split; [intros y [<-|[]]; exact Hx|].
          split; [intros y [<-|[]]; left; reflexivity|].
          split; [intros x' [<-|[]]; left; left; reflexivity | reflexivity].
        + split; [lia|]. split; [intros y []|]. split; [intros y []|].
          split; [|rewrite ?app_nil_r; reflexivity].
          intros x' [<-|[]]. right. unfold P in Hp. apply negb_false_iff, existsb_exists in Hp.
          destruct Hp as [z [Hz Hzy]]. apply String.eqb_eq in Hzy. subst z. exact Hz.
      - exists []. split; [cbn; lia|]. split; [intros y []|]. split; [intros y []|].
        split; [intros x []|]. rewrite ?app_nil_r; reflexivity. }
    destruct HX as (X & HXl & HXs & HXin & HXcov & HXeq).
    rewrite HXeq.
    assert (HrX : (rev r ++ X)%list = rev (X ++ r)%list).
    { rewrite rev_app_distr. f_equal. destruct X as [|x [|y X]]; [reflexivity | reflexivity | simpl in HXl; lia]. }
    assert (Hsimfail : forall x, In x sim -> In (CName x) X \/ fails x).
    { intros x Hx. destruct (HXcov x Hx) as [H|H]; [left; exact H | right; apply Ht', H]. }
    rewrite HrX. destruct (X ++ r)%list as [|c0 l] eqn:E.
    + apply app_eq_nil in E as [-> ->]. cbn [fst].
      split; [reflexivity|]. split; [exact Hnd'|]. split.
      * intros n. rewrite Hin'. cbn [expand flat_map map]. rewrite app_nil_r, map_map.
        cbn [cand_name In]. rewrite in_map_iff. split.
        -- intros [H|H]; [left; exact H | right; left; symmetry; exact H].
        -- intros [H|[H|[x [<- Hx]]]]; [left; exact H | right; symmetry; exact H |].
           destruct (HXcov x Hx) as [[]|H]. apply Hin' in H. exact H.
      * intros c' Hc'. cbn [expand flat_map] in Hc'. rewrite app_nil_r in Hc'.
        destruct Hc' as [<-|Hc']; [exact Hc|].
        apply in_map_iff in Hc' as [x [<- Hx]]. destruct (Hsimfail x Hx) as [[]|H]; exact H.
    + destruct (rev (c0 :: l)) eqn:E2.
      { apply (f_equal (@List.length cand)) in E2. rewrite length_rev in E2. discriminate E2. }
      rewrite <- E2, <- E.
      assert (Hrec := IH (X ++ r)%list tried' ltac:(rewrite E; discriminate) Hnd' Ht').
      rewrite expand_app, (expand_id X HXs) in Hrec.
      assert (Hlen : (List.length (X ++ expand r) < f)%nat).
      { rewrite length_app. unfold sim in *.
        destruct (similar_encodings name) as [s|] eqn:Hs.
        - destruct (similar_encodings_single _ _ Hs) as [x [-> _]]. cbn in Hf. lia.
        - destruct X as [|x X]; [cbn in Hf |- *; lia|]. destruct (HXin x (or_introl eq_refl)). }
      specialize (Hrec Hlen).
      destruct (fst (detect_loop decode f (rev (X ++ r)) tried' (bytes_io buf))) as [e0 q0 | m tr | |];
        try exact Hrec.
      destruct Hrec as (Hm & Hndr & Hinr & Hfr).
      split; [exact Hm|]. split; [exact Hndr|]. split.
      * intros n. rewrite Hinr, Hin'. cbn [map]. rewrite !map_app, !in_app_iff, map_map.
        cbn [cand_name In]. rewrite map_id, in_app_iff. fold name.
        assert (A : In n (map cand_name X) -> In n sim)
          by (intros H; apply in_map_iff in H as [y [<- Hy]]; apply HXin, Hy).
        assert (B : In n sim -> In n (map cand_name X) \/ In n tried')
          by (intros H; destruct (HXcov n H) as [H'|H'];
              [left; apply in_map_iff; exists (CName n); auto | right; exact H']).
        rewrite Hin' in B. split; intros; intuition (subst; auto).
      * intros c' Hc'. destruct Hc' as [<-|Hc']; [exact Hc|].
        apply in_app_or in Hc' as [Hc'|Hc'].
        -- apply in_map_iff in Hc' as [x [<- Hx]].
           destruct (Hsimfail x Hx) as [H|H]; [apply Hfr, in_or_app; left; exact H | exact H].
        -- apply Hfr, in_or_app. right. exact Hc'.
Qed.

End DetectOutcome.

(** X3: when [detect] raises [EncodingError], no candidate it tried (the
    hint, the language guesses, the chardet guess and their similar
    encodings) decodes the data; with no candidate at all the message is
    [Have no clue where to start.] and nothing was tried, otherwise the
    message is [Could not detect proper encoding] and the tried list holds
    each candidate name once. [detect] raises no other exception. *)
Theorem detect_outcome (chardet : list byte -> option string * Q)
  (decode : string -> list byte -> option (list N)) (buf : list byte) (enc lang : option string) :
  match fst (detect chardet decode (bytes_io buf) enc lang) with
  | DOk _ _ => True
  | EncodingError m tried =>
      let cs := candidates enc lang (chardet buf) in
      (forall c, In c (expand cs) -> fst (can_decode decode (bytes_io buf) (cand_name c)) = false) /\
      NoDup tried /\
      ((cs = [] /\ m = "Have no clue where to start." /\ tried = []) \/
       (cs <> [] /\ m = "Could not detect proper encoding" /\
        forall n, In n tried <-> In n (map cand_name (expand cs))))
  | _ => False
  end.
Proof.
  unfold detect, bread, bread_all, bseek0, bytes_io. cbn [b_pos b_bytes skipn].
  rewrite !bprefix_firstn by (simpl; lia).
  destruct (bprefix BOM_UTF8 buf); [exact I|].
  destruct (bprefix BOM_UTF16 buf); [exact I|].
  cbv zeta. destruct (candidates enc lang (chardet buf)) as [|c r] eqn:E.
  - split; [intros c []|]. split; [constructor|]. left. auto.
  - pose proof (detect_loop_gives_up decode buf (2 * List.length (c :: r) + 1) (c :: r) []
                  ltac:(discriminate) (NoDup_nil _) ltac:(intros n [])
                  ltac:(pose proof (length_expand (c :: r)); lia)) as H.
    unfold bytes_io in H.
    destruct (fst (detect_loop decode (2 * List.length (c :: r) + 1) (rev (c :: r)) [] (BStream buf 0)))
      as [e0 q0 | m tr | |]; try exact H.
    destruct H as (Hm & Hnd & Hin & Hf).
    split; [exact Hf|]. split; [exact Hnd|]. right. split; [discriminate|]. split; [exact Hm|].
    intros n. rewrite Hin. split; [intros [[]|H]; exact H | intros H; right; exact H].
Qed.

(** X4: [detect] leaves the byte stream rewound to its start, whatever it
    returns or raises. *)
Theorem detect_restores_stream (chardet : list byte -> option string * Q)
  (decode : string -> list byte -> option (list N)) (d : bstream) (enc lang : option string) :
  snd (detect chardet decode d enc lang) = bseek0 d.
Proof.
  destruct d as [b pos]. unfold detect, bread, bread_all, bseek0. cbn [b_pos b_bytes skipn].
  destruct (bprefix BOM_UTF8 _); [reflexivity|].
  destruct (bprefix BOM_UTF16 _); [reflexivity|].
  cbv zeta. destruct (candidates enc lang (chardet b)); [reflexivity|].
  apply (detect_loop_stream decode b).
Qed.

Lemma iterate_at ws es stop L pos cl q t pz ml l :
  nth_error L pos = Some l -> l <> EmptyString ->
  iterate (at_line ws es stop L pos cl (Machine q t pz false ml)) =
  classify (at_line ws es stop L (S pos) (Some (rstrip l)) (Machine q t pz false ml)).
Proof.
  intros Hn Hl. unfold at_line at 1. rewrite iterate_eq. cbn [m_paused].
  unfold next_line, readline. cbn [data s_lines s_pos]. rewrite Hn.
  destruct l as [|c l']; [contradiction|]. cbn [warnings errors stop_level read_lines current_line_num].
  unfold at_line, unpause. cbn [m_state m_temp m_parsed m_missing_line].
  rewrite (firstn_S_nth L pos _ Hn).
  replace (Z.of_nat pos - 1 + 1)%Z with (Z.of_nat (S pos) - 1)%Z by lia. reflexivity.
Qed.

Lemma loop_body_iter s s' :
  mstate_eqb (m_state (sm s)) MFinished = false ->
  iterate s = (s', Ok tt) ->
  loop_body s = (let (s'', y) := (match m_parsed (sm s') with
                  | Some u => (St (sp s') (Machine (m_state (sm s')) (m_temp (sm s')) None
                                          (m_paused (sm s')) (m_missing_line (sm s'))), Some u)
                  | None => (s', None) end) in (s'', Ok (y, mstate_eqb (m_state (sm s')) MFinished))).
Proof.
  intros Hf Hi. unfold loop_body, bind, get_state, ret. rewrite Hf, Hi.
  unfold parsed. destruct (m_parsed (sm s')); reflexivity.
Qed.

Lemma loop_body_exc s s' e :
  mstate_eqb (m_state (sm s)) MFinished = false ->
  iterate s = (s', Exc e) ->
  loop_body s =
  match e with
  | Skip => (s', Ok (None, false))
  | InvalidStateTransition =>
      let p := sp s' in
      let l := match current_line p with Some l => l | None => "None" end in
      match add_error (current_line_num p + 1) 1 l "Unparsable line" p with
      | (p', Ok _) => (St p' (sm s'), Ok (None, false))
      | (p', Exc e) => (St p' (sm s'), Exc e)
      end
  | e => (s', Exc e)
  end.
Proof.
  intros Hf Hi. unfold loop_body, bind, get_state, ret. rewrite Hf, Hi.
  destruct e; reflexivity.
Qed.

Lemma loop_body_step' s s' :
  mstate_eqb (m_state (sm s)) MFinished = false ->
  iterate s = (s', Ok tt) -> m_parsed (sm s') = None -> m_state (sm s') <> MFinished ->
  loop_body s = (s', Ok (None, false)).
Proof.
  intros Hf Hi Hp Hq. unfold loop_body, bind, get_state, ret. rewrite Hf, Hi.
  unfold parsed. rewrite Hp. destruct (m_state (sm s')); [..|contradiction]; reflexivity.
Qed.

Lemma add_msg_below lvl ln c l d p :
  below_stop (stop_level p) lvl ->
  add_msg lvl ln c l d p =
  (Parser (warnings p ++ match lvl with LWarning => [Msg ln c l d] | LError => [] end)
          (errors p ++ match lvl with LError => [Msg ln c l d] | LWarning => [] end)
          (stop_level p) (data p) (read_lines p) (current_line_num p) (current_line p), Ok tt).
Proof.
  destruct p as [w e stop dt rl n cl]; cbn [stop_level warnings errors data read_lines
    current_line_num current_line].
  intros Hb. unfold add_msg. cbn [stop_level warnings errors data read_lines
    current_line_num current_line].
  destruct stop as [s|].
  - destruct Hb as [->|[j [Hj Hlt]]].
    + cbn. destruct lvl; rewrite !app_nil_r; reflexivity.
    + destruct s as [|a s']; [discriminate Hj|]. cbn [truthy_str]. rewrite Hj.
      replace (j <=? level_index lvl)%nat with false by (symmetry; apply Nat.leb_gt; exact Hlt).
      destruct lvl; rewrite !app_nil_r; reflexivity.
  - cbn. destruct lvl; rewrite !app_nil_r; reflexivity.
Qed.

Lemma add_msg_at lvl ln c l d p s j :
  stop_level p = Some s -> levels_index s = Some j -> (j <= level_index lvl)%nat ->
  add_msg lvl ln c l d p = (p, Exc (raised_as lvl (Msg ln c l d))).
Proof.
  destruct p as [w e stop dt rl n cl]; cbn [stop_level]. intros -> Hj Hle.
  destruct s as [|a s']; [discriminate Hj|].
  unfold add_msg. cbn [stop_level truthy_str]. rewrite Hj. apply Nat.leb_le in Hle. rewrite Hle.
  destruct lvl; reflexivity.
Qed.

Lemma strip_rstrip_ne l : strip (rstrip l) <> EmptyString -> l <> EmptyString.
Proof. intros H ->. apply H. reflexivity. Qed.

(** X6: a non-blank line that is not a timing line, met right after a
    sequence number, is an [Unparsable line] error at column 1: below the
    error stop level it is recorded and parsing goes on in the same state;
    with stop level [warning] or [error] it raises [ParseError]. *)
Theorem unparsable_line ws es stop L pos cl t ml l :
  nth_error L pos = Some l -> strip (rstrip l) <> EmptyString -> header_match (rstrip l) = None ->
  let m := Msg (Z.of_nat pos + 1) 1 (rstrip l) "Unparsable line" in
  let s0 := at_line ws es stop L pos cl (Machine MUnit t None false ml) in
  (below_stop stop LError ->
     loop_body s0 = (at_line ws (es ++ [m]) stop L (S pos) (Some (rstrip l))
                       (Machine MUnit t None false ml), Ok (None, false))) /\
  ((stop = Some "warning" \/ stop = Some "error") ->
     loop_body s0 = (at_line ws es stop L (S pos) (Some (rstrip l))
                       (Machine MUnit t None false ml), Exc (ParseError m))).
Proof.
  intros Hn Hs Hh m s0.
  assert (Hi : iterate s0 = (at_line ws es stop L (S pos) (Some (rstrip l))
                       (Machine MUnit t None false ml), Exc InvalidStateTransition)).
  { unfold s0. rewrite (iterate_at _ _ _ _ _ _ _ _ _ _ l Hn (strip_rstrip_ne l Hs)).
    unfold classify, bind, cur_line, at_line. cbn [sp current_line].
    rewrite match_ne by exact Hs.
    unfold get_state. cbn [sm m_state mstate_eqb andb]. rewrite Hh.
    unfold found_text. rewrite fire_eq. reflexivity. }
  rewrite (loop_body_exc s0 _ _ eq_refl Hi).
  unfold at_line, m. cbn [sp sm current_line current_line_num].
  replace (Z.of_nat (S pos) - 1 + 1)%Z with (Z.of_nat pos + 1)%Z by lia.
  unfold add_error. split.
  - intros Hb. rewrite add_msg_below by exact Hb.
    cbn [warnings errors stop_level data read_lines current_line_num current_line].
    rewrite app_nil_r. reflexivity.
  - intros [-> | ->]; (erewrite add_msg_at; [reflexivity | reflexivity | reflexivity | cbn; lia]).
Qed.

Lemma fetch_line_at ws es stop L pos cl l :
  nth_error L pos = Some l ->
  fetch_line (Z.of_nat (S pos) - 1)
    (Parser ws es stop (Some (Stream L (S pos))) (firstn (S pos) L) (Z.of_nat (S pos) - 1) cl) =
  (Parser ws es stop (Some (Stream L (S pos))) (firstn (S pos) L) (Z.of_nat (S pos) - 1) cl,
   Ok (rstrip l)).
Proof.
  intros Hn. unfold fetch_line. cbn [current_line_num read_lines]. rewrite Z.ltb_irrefl.
  unfold py_index. replace (0 <=? Z.of_nat (S pos) - 1)%Z with true by (symmetry; apply Z.leb_le; lia).
  replace (Z.to_nat (Z.of_nat (S pos) - 1)) with pos by lia.
  rewrite nth_error_firstn_lt by lia. rewrite Hn. reflexivity.
Qed.

Ltac step_cbn :=
  cbn -[add_msg fetch_line firstn Z.of_nat Z.sub Z.add strip rstrip header_match sequence_match
        py_int py_str_N N.add N.eqb py_find py_split time_match convert tagged_match header_str
        time_str].

(** X7: before the first unit, a blank line gives the warning [Have empty
    line before first unit.] and any other line that is neither a sequence
    number nor a timing line gives [Junk before first unit.]; the machine
    stays at the start with no unit. *)
Theorem lines_before_first_unit ws es stop L pos cl l ml :
  nth_error L pos = Some l -> l <> EmptyString -> below_stop stop LWarning ->
  (strip (rstrip l) = EmptyString \/
   (strip (rstrip l) <> EmptyString /\ sequence_match (rstrip l) = false /\
    header_match (rstrip l) = None)) ->
  let d := if String.eqb (strip (rstrip l)) EmptyString
           then "Have empty line before first unit." else "Junk before first unit." in
  loop_body (at_line ws es stop L pos cl (Machine MStart None None false ml)) =
  (at_line (ws ++ [Msg (Z.of_nat pos + 1) 1 (rstrip l) d]) es stop L (S pos) (Some (rstrip l))
     (Machine MStart None None false ml), Ok (None, false)).
Proof.
  intros Hn Hl Hb Hc d.
  rewrite (loop_body_exc (at_line ws es stop L pos cl (Machine MStart None None false ml))
     (at_line (ws ++ [Msg (Z.of_nat pos + 1) 1 (rstrip l) d]) es stop L
     (S pos) (Some (rstrip l)) (Machine MStart None None false ml)) Skip eq_refl); [reflexivity|].
  rewrite (iterate_at _ _ _ _ _ _ _ _ _ _ l Hn Hl).
  unfold classify, bind, cur_line, at_line. cbn [sp current_line].
  destruct Hc as [Hs | (Hs & Hq & Hh)].
  - rewrite Hs. unfold d. rewrite Hs. cbn [String.eqb].
    unfold found_empty. rewrite fire_eq. cbn [sm m_state existsb mstate_eqb orb].
    unfold validate_empty, bind, get_state, get_temp, line_num, fetch, warn, liftP, add_warning, ret, raise.
    step_cbn. rewrite (fetch_line_at _ _ _ _ _ _ l Hn). step_cbn.
    rewrite add_msg_below by exact Hb. step_cbn. rewrite app_nil_r.
    replace (Z.of_nat (S pos) - 1 + 1)%Z with (Z.of_nat pos + 1)%Z by lia. reflexivity.
  - rewrite match_ne by exact Hs. unfold d. destruct (strip (rstrip l)) eqn:E; [contradiction|].
    cbn [String.eqb]. unfold get_state. cbn [sm m_state mstate_eqb andb]. rewrite Hq, Hh.
    unfold found_text. rewrite fire_eq. cbn [sm m_state existsb mstate_eqb orb].
    unfold validate_text, bind, get_state, get_temp, line_num, cur_line, warn, liftP, add_warning, ret, raise.
    step_cbn. rewrite add_msg_below by exact Hb. step_cbn. rewrite app_nil_r.
    replace (Z.of_nat (S pos) - 1 + 1)%Z with (Z.of_nat pos + 1)%Z by lia. reflexivity.
Qed.

(** X8: a blank line between a sequence number and its timings gives the
    warning [Have empty line between sequence number and timings.] and
    changes nothing else. *)
Theorem blank_before_timings ws es stop L pos cl l t ml :
  nth_error L pos = Some l -> l <> EmptyString -> below_stop stop LWarning ->
  strip (rstrip l) = EmptyString ->
  loop_body (at_line ws es stop L pos cl (Machine MUnit t None false ml)) =
  (at_line (ws ++ [Msg (Z.of_nat pos + 1) 1 (rstrip l)
                     "Have empty line between sequence number and timings."])
     es stop L (S pos) (Some (rstrip l)) (Machine MUnit t None false ml), Ok (None, false)).
Proof.
  intros Hn Hl Hb Hs.
  rewrite (loop_body_exc (at_line ws es stop L pos cl (Machine MUnit t None false ml))
     (at_line (ws ++ [Msg (Z.of_nat pos + 1) 1 (rstrip l)
                     "Have empty line between sequence number and timings."]) es stop L
     (S pos) (Some (rstrip l)) (Machine MUnit t None false ml)) Skip eq_refl); [reflexivity|].
  rewrite (iterate_at _ _ _ _ _ _ _ _ _ _ l Hn Hl).
  unfold classify, bind, cur_line, at_line. cbn [sp current_line]. rewrite Hs.
  unfold found_empty. rewrite fire_eq. cbn [sm m_state existsb mstate_eqb orb].
  unfold validate_empty, bind, get_state, get_temp, line_num, fetch, warn, liftP, add_warning, ret, raise.
  step_cbn. rewrite (fetch_line_at _ _ _ _ _ _ l Hn). step_cbn.
  rewrite add_msg_below by exact Hb. step_cbn. rewrite app_nil_r.
  replace (Z.of_nat (S pos) - 1 + 1)%Z with (Z.of_nat pos + 1)%Z by lia. reflexivity.
Qed.

(** X9: a timing line in the text of a unit gives the warning [Duplicated
    time information, ignoring.] and leaves the unit as it was. *)
Theorem duplicate_timing_ignored ws es stop L pos cl l t ml g :
  nth_error L pos = Some l -> below_stop stop LWarning ->
  strip (rstrip l) <> EmptyString -> header_match (rstrip l) = Some g ->
  loop_body (at_line ws es stop L pos cl (Machine MUnitText t None false ml)) =
  (at_line (ws ++ [Msg (Z.of_nat pos + 1) 1 (rstrip l) "Duplicated time information, ignoring."])
     es stop L (S pos) (Some (rstrip l)) (Machine MUnitText t None false ml), Ok (None, false)).
Proof.
  intros Hn Hb Hs Hh.
  rewrite (loop_body_exc (at_line ws es stop L pos cl (Machine MUnitText t None false ml))
     (at_line (ws ++ [Msg (Z.of_nat pos + 1) 1 (rstrip l) "Duplicated time information, ignoring."])
     es stop L (S pos) (Some (rstrip l)) (Machine MUnitText t None false ml)) Skip eq_refl);
    [reflexivity|].
  rewrite (iterate_at _ _ _ _ _ _ _ _ _ _ l Hn (strip_rstrip_ne l Hs)).
  unfold classify, bind, cur_line, at_line. cbn [sp current_line].
  rewrite match_ne by exact Hs.
  unfold get_state. cbn [sm m_state mstate_eqb andb]. rewrite Hh.
  unfold found_header. rewrite fire_eq. cbn [sm m_state existsb mstate_eqb orb].
  unfold validate_header, bind, get_state, line_num, cur_line, warn, liftP, add_warning, ret, raise.
  step_cbn. rewrite add_msg_below by exact Hb. step_cbn. rewrite app_nil_r.
  replace (Z.of_nat (S pos) - 1 + 1)%Z with (Z.of_nat pos + 1)%Z by lia. reflexivity.
Qed.

(** X10: after a unit has ended, a further blank line is appended to that
    unit's lines as an empty line. *)
Theorem blank_after_unit ws es stop L pos cl l u ml :
  nth_error L pos = Some l -> l <> EmptyString -> strip (rstrip l) = EmptyString ->
  loop_body (at_line ws es stop L pos cl (Machine MStart (Some u) None false ml)) =
  (at_line ws es stop L (S pos) (Some (rstrip l))
     (Machine MStart (Some (Unit (u_sequence u) (u_lines u ++ [EmptyString]) (u_start u) (u_end u)
                                 (u_position u))) None false ml), Ok (None, false)).
Proof.
  intros Hn Hl Hs.
  apply loop_body_step'; [reflexivity| |reflexivity|discriminate].
  rewrite (iterate_at _ _ _ _ _ _ _ _ _ _ l Hn Hl).
  unfold classify, bind, cur_line, at_line. cbn [sp current_line]. rewrite Hs.
  unfold found_empty. rewrite fire_eq. cbn [sm m_state existsb mstate_eqb orb].
  unfold validate_empty, add_lines, update_temp, set_temp, modify_m, bind, get_state, get_temp, ret.
  step_cbn. reflexivity.
Qed.

(** X11: after a unit has ended, a text line that is not a sequence
    number reopens the unit: an empty line and the text line are appended
    to its lines and the machine is back in the unit's text. *)
Theorem text_after_blank ws es stop L pos cl l u ml :
  nth_error L pos = Some l -> text_ok (rstrip l) -> sequence_match (rstrip l) = false ->
  loop_body (at_line ws es stop L pos cl (Machine MStart (Some u) None false ml)) =
  (at_line ws es stop L (S pos) (Some (rstrip l))
     (Machine MUnitText (Some (Unit (u_sequence u) (u_lines u ++ [EmptyString; rstrip l])
                                    (u_start u) (u_end u) (u_position u))) None false ml),
   Ok (None, false)).
Proof.
  intros Hn Ht Hq. pose proof Ht as (Hs & Hr & Hbar & _ & _ & Hb & Hm).
  assert (Hsp : py_split "|" (rstrip l) = [rstrip l]) by (apply split_aux_none, Hbar).
  pose proof (tagged_none _ Hb) as Htg.
  apply loop_body_step'; [reflexivity| |reflexivity|discriminate].
  rewrite (iterate_at _ _ _ _ _ _ _ _ _ _ l Hn (strip_rstrip_ne l Hs)).
  unfold classify, bind, cur_line, at_line. cbn [sp current_line].
  rewrite match_ne by exact Hs.
  unfold get_state. cbn [sm m_state mstate_eqb andb]. rewrite Hq, Hm.
  unfold found_text. rewrite fire_eq. cbn [sm m_state existsb mstate_eqb orb].
  unfold validate_text, insert_text, add_lines, update_temp, bind, get_temp, cur_line, get_state,
    set_temp, modify_m, ret, raise.
  step_cbn. rewrite Htg. step_cbn. rewrite Hsp. cbn [map]. rewrite Hr.
  rewrite <- app_assoc. reflexivity.
Qed.

Lemma loop_body_ok s s' :
  mstate_eqb (m_state (sm s)) MFinished = false ->
  iterate s = (s', Ok tt) -> m_state (sm s') <> MFinished ->
  loop_body s = (St (sp s') (Machine (m_state (sm s')) (m_temp (sm s')) None (m_paused (sm s'))
                                    (m_missing_line (sm s'))), Ok (m_parsed (sm s'), false)).
Proof.
  intros Hf Hi Hq. unfold loop_body, bind, get_state, ret. rewrite Hf, Hi.
  destruct s' as [p [q t pr pa ml]]. cbn [sm sp m_state m_temp m_parsed m_paused m_missing_line] in *.
  unfold parsed. cbn [sm sp m_state m_temp m_parsed m_paused m_missing_line].
  destruct pr; destruct q; try contradiction; reflexivity.
Qed.

Lemma classify_seq_at ws es stop L pos t ml n :
  n = (prev t + 1)%N ->
  classify (at_line ws es stop L pos (Some (py_str_N n)) (Machine MStart t None false ml)) =
  (at_line ws es stop L pos (Some (py_str_N n)) (Machine MUnit (Some (empty_unit n)) t false ml), Ok tt).
Proof.
  intros Hn. unfold classify, bind, cur_line, at_line. cbn [sp current_line].
  rewrite strip_py_str_N, match_ne by apply py_str_N_ne.
  unfold get_state. cbn [sm m_state mstate_eqb andb]. rewrite sequence_match_py_str_N.
  unfold found_sequence. rewrite fire_eq. cbn [sm m_state existsb mstate_eqb orb].
  unfold validate_unit, create_unit, bind, get_temp, cur_line, of_option, get_state, set_parsed,
    set_temp, modify_m, ret, raise.
  step_cbn. rewrite py_int_py_str_N. step_cbn.
  replace (n =? match t with Some u => u_sequence u | None => 0 end + 1)%N with true
    by (symmetry; apply N.eqb_eq; exact Hn). step_cbn.
  rewrite py_int_py_str_N. reflexivity.
Qed.

(** X13: a sequence number other than the expected one (the previous
    unit's plus one) gives the warning [Sequence number out of sync]; the
    line is replaced by the expected number and read again, which starts a
    unit with that number and yields the previous unit. *)
Theorem sequence_resync ws es stop L pos cl l t ml k :
  nth_error L pos = Some l -> below_stop stop LWarning ->
  strip (rstrip l) <> EmptyString -> sequence_match (rstrip l) = true ->
  py_int (strip (rstrip l)) = Some k -> k <> (prev t + 1)%N ->
  let n := (prev t + 1)%N in
  let ws' := (ws ++ [Msg (Z.of_nat pos + 1) 1 (rstrip l) "Sequence number out of sync"])%list in
  let s1 := at_line ws' es stop L (S pos) (Some (py_str_N n)) (Machine MStart t None true ml) in
  loop_body (at_line ws es stop L pos cl (Machine MStart t None false ml)) = (s1, Ok (None, false)) /\
  loop_body s1 =
  (at_line ws' es stop L (S pos) (Some (py_str_N n)) (Machine MUnit (Some (empty_unit n)) None false ml),
   Ok (t, false)).
Proof.
  intros Hn Hb Hs Hq Hk Hne n ws' s1. split.
  - rewrite (loop_body_exc (at_line ws es stop L pos cl (Machine MStart t None false ml)) s1 Skip
      eq_refl); [reflexivity|].
    rewrite (iterate_at _ _ _ _ _ _ _ _ _ _ l Hn (strip_rstrip_ne l Hs)).
    unfold classify, bind, cur_line, at_line. cbn [sp current_line].
    rewrite match_ne by exact Hs.
    unfold get_state. cbn [sm m_state mstate_eqb andb]. rewrite Hq.
    unfold found_sequence. rewrite fire_eq. cbn [sm m_state existsb mstate_eqb orb].
    unfold validate_unit, bind, get_temp, cur_line, of_option, pause, set_paused, modify_m,
      set_line, line_num, fetch, warn, liftP, add_warning, ret, raise.
    step_cbn. rewrite Hk. step_cbn.
    replace (k =? match t with Some u => u_sequence u | None => 0 end + 1)%N with false
      by (symmetry; apply N.eqb_neq; exact Hne). step_cbn.
    rewrite (fetch_line_at _ _ _ _ _ _ l Hn). step_cbn.
    rewrite add_msg_below by exact Hb. step_cbn. rewrite app_nil_r.
    replace (Z.of_nat (S pos) - 1 + 1)%Z with (Z.of_nat pos + 1)%Z by lia. reflexivity.
  - rewrite (loop_body_ok s1 (at_line ws' es stop L (S pos) (Some (py_str_N n))
       (Machine MUnit (Some (empty_unit n)) t false ml)) eq_refl); [reflexivity| |discriminate].
    unfold s1, at_line at 1. rewrite iterate_eq. cbn [m_paused]. unfold unpause. cbn [m_state m_temp m_parsed m_missing_line].
    apply classify_seq_at. reflexivity.
Qed.

Lemma iterate_eof_at ws es stop L pos cl q t pr ml :
  nth_error L pos = None ->
  iterate (at_line ws es stop L pos cl (Machine q t pr false ml)) =
  done (at_line ws es stop L pos cl (Machine q t pr false ml)).
Proof.
  intros Hn. unfold at_line. rewrite iterate_eq. cbn [m_paused].
  unfold next_line, readline. cbn [data s_lines s_pos]. rewrite Hn. reflexivity.
Qed.

Lemma loop_body_finished ws es stop L pos cl t u pz ml :
  loop_body (at_line ws es stop L pos cl (Machine MFinished t (Some u) pz ml)) =
  (at_line ws es stop L pos cl (Machine MFinished t None pz ml), Ok (Some u, true)).
Proof. reflexivity. Qed.

Lemma done_at ws es stop L k x l' q t pr ml :
  nth_error L k = Some x -> (q = MUnit \/ q = MUnitText) ->
  done (at_line ws es stop L (S k) (Some l') (Machine q t pr false ml)) =
  match add_msg LWarning (Z.of_nat k + 1) (Z.of_nat (length l')) (rstrip x) "Missing empty line after unit."
          (Parser ws es stop (Some (Stream L (S k))) (firstn (S k) L) (Z.of_nat (S k) - 1) (Some l')) with
  | (p', Ok _) => (St p' (Machine MFinished None t false true), Exc Skip)
  | (p', Exc e) => (St p' (Machine MFinished None t false true), Exc e)
  end.
Proof.
  intros Hk Hq. unfold done. rewrite fire_eq. unfold at_line. cbn [sm m_state].
  replace (existsb (mstate_eqb q) [MUnit; MUnitText; MStart]) with true
    by (destruct Hq as [-> | ->]; reflexivity).
  unfold final_unit_before, final_unit_after, bind, get_state, get_temp, set_missing_line,
    set_parsed, set_temp, modify_m, ret, line_num, fetch, cur_line, warn, liftP, raise, add_warning.
  step_cbn.
  replace (negb (mstate_eqb q MStart)) with true by (destruct Hq as [-> | ->]; reflexivity).
  step_cbn. rewrite (fetch_line_at _ _ _ _ _ _ x Hk). step_cbn.
  replace (Z.of_nat (S k) - 1 + 1)%Z with (Z.of_nat k + 1)%Z by lia.
  destruct (add_msg _ _ _ _ _ _) as [p' [[]|e]]; reflexivity.
Qed.

(** X14: when the input ends inside a unit, below the warning stop level
    the warning [Missing empty line after unit.] is recorded and the unit is
    still yielded; with stop level [warning] [ParseWarning] is raised and
    the unit is not yielded. *)
Theorem missing_blank_at_eof ws es stop L k x l' q u ml f :
  nth_error L k = Some x -> nth_error L (S k) = None -> (q = MUnit \/ q = MUnitText) ->
  let m := Msg (Z.of_nat k + 1) (Z.of_nat (length l')) (rstrip x) "Missing empty line after unit." in
  let s0 := at_line ws es stop L (S k) (Some l') (Machine q (Some u) None false ml) in
  (below_stop stop LWarning ->
     run (S (S f)) s0 =
     ([u], Finished (at_line (ws ++ [m]) es stop L (S k) (Some l') (Machine MFinished None None false true)))) /\
  (stop = Some "warning" ->
     run (S f) s0 =
     ([], Raised (ParseWarning m) (at_line ws es stop L (S k) (Some l') (Machine MFinished None (Some u) false true)))).
Proof.
  intros Hk Hn Hq m s0.
  pose proof (fun ws' => done_at ws' es stop L k x l' q (Some u) None ml Hk Hq) as Hd.
  split.
  - intros Hb. unfold s0.
    rewrite (run_one _ _ (at_line (ws ++ [m]) es stop L (S k) (Some l') (Machine MFinished None (Some u) false true))).
    + apply (run_last f _ _ (Some u)). apply loop_body_finished.
    + rewrite (loop_body_exc _ (at_line (ws ++ [m]) es stop L (S k) (Some l')
                  (Machine MFinished None (Some u) false true)) Skip); [reflexivity| |].
      * destruct Hq as [-> | ->]; reflexivity.
      * rewrite iterate_eof_at by exact Hn. rewrite Hd.
        rewrite add_msg_below by exact Hb. step_cbn. rewrite app_nil_r. reflexivity.
  - intros Hs. unfold s0. cbn [run].
    rewrite (loop_body_exc _ (at_line ws es stop L (S k) (Some l')
                  (Machine MFinished None (Some u) false true)) (ParseWarning m)).
    + reflexivity.
    + destruct Hq as [-> | ->]; reflexivity.
    + rewrite iterate_eof_at by exact Hn. rewrite Hd. rewrite Hs.
      erewrite add_msg_at; [reflexivity|reflexivity|reflexivity|cbn; lia].
Qed.

Lemma sequence_match_header v : time_ok (su_start v) -> time_ok (su_end v) ->
  sequence_match (header_str v) = false.
Proof.
  intros H1 H2. destruct (header_facts v H1 H2) as (Hs & _).
  unfold sequence_match. rewrite Hs. unfold header_str, time_str, two_digits.
  cbn [append list_ascii_of_string forallb].
  replace (is_digit ":") with false by reflexivity. cbn [andb]. rewrite !andb_false_r. reflexivity.
Qed.

Lemma header_nosq_step ws es stop L pos cl l t ml v :
  nth_error L pos = Some l -> rstrip l = header_str v ->
  time_ok (su_start v) -> time_ok (su_end v) -> below_stop stop LWarning ->
  exists q1 q2, Qeq q1 (seconds (su_start v)) /\ Qeq q2 (seconds (su_end v)) /\
  loop_body (at_line ws es stop L pos cl (Machine MStart t None false ml)) =
  (at_line (ws ++ [Msg (Z.of_nat pos + 1) 1 (header_str v) "New unit starts without a sequence."])
     es stop L (S pos) (Some (header_str v))
     (Machine MUnitText (Some (Unit (prev t + 1) [] (Some q1) (Some q2) None)) t false ml),
   Ok (None, false)).
Proof.
  intros Hn Hr H1 H2 Hb.
  destruct (convert_time _ H1) as [q1 [Hc1 Hq1]]. destruct (convert_time _ H2) as [q2 [Hc2 Hq2]].
  exists q1, q2. split; [exact Hq1|]. split; [exact Hq2|].
  destruct (header_facts v H1 H2) as (Hs & Hne & Hm & Hf & Hsp & Hsa & Hsb).
  pose proof (time_match_time_str _ H1) as Hta. pose proof (time_match_time_str _ H2) as Htb.
  pose proof (sequence_match_header v H1 H2) as Hq.
  assert (Hl : l <> EmptyString) by (intros ->; rewrite <- Hr in Hne; apply Hne; reflexivity).
  rewrite (loop_body_exc (at_line ws es stop L pos cl (Machine MStart t None false ml))
     (at_line (ws ++ [Msg (Z.of_nat pos + 1) 1 (header_str v) "New unit starts without a sequence."])
     es stop L (S pos) (Some (header_str v))
     (Machine MUnitText (Some (Unit (prev t + 1) [] (Some q1) (Some q2) None)) t false ml)) Skip
     eq_refl); [reflexivity|].
  rewrite (iterate_at _ _ _ _ _ _ _ _ _ _ l Hn Hl). rewrite Hr.
  unfold classify, bind, cur_line, at_line. cbn [sp current_line].
  rewrite Hs, match_ne by exact Hne.
  unfold get_state. cbn [sm m_state mstate_eqb andb]. rewrite Hq, Hm.
  unfold found_header. rewrite fire_eq. cbn [sm m_state existsb mstate_eqb orb].
  unfold validate_header, skip_sequence, bind, get_state. step_cbn.
  unfold fix_sequence_skip, parse_time, update_temp, bind, get_temp, cur_line, get_state,
    set_temp, set_parsed, modify_m, ret, raise, line_num, warn, liftP, add_warning.
  step_cbn. rewrite Hsp, Hsa, Hsb, Hta, Htb. step_cbn. rewrite Hc1, Hc2. step_cbn.
  rewrite add_msg_below by exact Hb. step_cbn. rewrite app_nil_r.
  replace (Z.of_nat (S pos) - 1 + 1)%Z with (Z.of_nat pos + 1)%Z by lia. reflexivity.
Qed.

(** X15: a timing line where a sequence number is expected gives the
    warning [New unit starts without a sequence.] and starts a unit
    numbered after the previous one, with those timings; the unit read
    before is set aside as the parsed unit, not yielded in this pass. *)
Theorem timing_without_sequence ws es stop L pos cl l t ml v :
  nth_error L pos = Some l -> rstrip l = header_str v ->
  time_ok (su_start v) -> time_ok (su_end v) -> below_stop stop LWarning ->
  exists q1 q2, Qeq q1 (seconds (su_start v)) /\ Qeq q2 (seconds (su_end v)) /\
  loop_body (at_line ws es stop L pos cl (Machine MStart t None false ml)) =
  (at_line (ws ++ [Msg (Z.of_nat pos + 1) 1 (header_str v) "New unit starts without a sequence."])
     es stop L (S pos) (Some (header_str v))
     (Machine MUnitText (Some (Unit (prev t + 1) [] (Some q1) (Some q2) None)) t false ml),
   Ok (None, false)).
Proof. apply header_nosq_step. Qed.

(** X16: if the last line of the input is a timing line without a sequence
    number, following a completed unit, that completed unit is never
    yielded: the only unit produced is the new one started by the timing
    line. *)
Theorem final_timing_drops_unit ws es stop L pos cl l u ml v f :
  nth_error L pos = Some l -> nth_error L (S pos) = None -> rstrip l = header_str v ->
  time_ok (su_start v) -> time_ok (su_end v) -> below_stop stop LWarning ->
  exists q1 q2, Qeq q1 (seconds (su_start v)) /\ Qeq q2 (seconds (su_end v)) /\
  fst (run (S (S (S f))) (at_line ws es stop L pos cl (Machine MStart (Some u) None false ml))) =
  [Unit (u_sequence u + 1) [] (Some q1) (Some q2) None].
Proof.
  intros Hn Hn' Hr H1 H2 Hb.
  destruct (header_nosq_step ws es stop L pos cl l (Some u) ml v Hn Hr H1 H2 Hb)
    as (q1 & q2 & Hq1 & Hq2 & E1).
  exists q1, q2. split; [exact Hq1|]. split; [exact Hq2|].
  rewrite (run_one _ _ _ E1). cbn [prev].
  set (nu := Unit (u_sequence u + 1) [] (Some q1) (Some q2) None).
  set (ws1 := (ws ++ [Msg (Z.of_nat pos + 1) 1 (header_str v) "New unit starts without a sequence."])%list).
  set (m := Msg (Z.of_nat pos + 1) (Z.of_nat (length (header_str v))) (rstrip l) "Missing empty line after unit.").
  rewrite (run_one _ _ (at_line (ws1 ++ [m]) es stop L (S pos) (Some (header_str v))
             (Machine MFinished None (Some nu) false true))).
  - rewrite (run_last f _ _ (Some nu) (loop_body_finished _ _ _ _ _ _ _ _ _ _)). reflexivity.
  - rewrite (loop_body_exc _ (at_line (ws1 ++ [m]) es stop L (S pos) (Some (header_str v))
                  (Machine MFinished None (Some nu) false true)) Skip); [reflexivity|reflexivity|].
    rewrite iterate_eof_at by exact Hn'.
    rewrite (done_at _ _ _ _ _ l _ _ _ _ _ Hn (or_intror eq_refl)).
    rewrite add_msg_below by exact Hb. step_cbn. rewrite app_nil_r. reflexivity.
Qed.

(** X12: a text line of a unit (not starting with [{]) is split at each
    [|], and each part, stripped of trailing whitespace, is appended as a
    line of the unit. *)
Theorem text_line_split_on_pipe ws es stop L pos cl l u ml :
  nth_error L pos = Some l -> strip (rstrip l) <> EmptyString ->
  header_match (rstrip l) = None -> (forall r, rstrip l <> String "{" r) ->
  loop_body (at_line ws es stop L pos cl (Machine MUnitText (Some u) None false ml)) =
  (at_line ws es stop L (S pos) (Some (rstrip l))
     (Machine MUnitText (Some (Unit (u_sequence u) (u_lines u ++ map rstrip (py_split "|" (rstrip l)))
                                    (u_start u) (u_end u) (u_position u))) None false ml),
   Ok (None, false)).
Proof.
  intros Hn Hs Hm Hb.
  pose proof (tagged_none _ Hb) as Htg.
  apply loop_body_step'; [reflexivity| |reflexivity|discriminate].
  rewrite (iterate_at _ _ _ _ _ _ _ _ _ _ l Hn (strip_rstrip_ne l Hs)).
  unfold classify, bind, cur_line, at_line. cbn [sp current_line].
  rewrite match_ne by exact Hs.
  unfold get_state. cbn [sm m_state mstate_eqb andb]. rewrite Hm.
  unfold found_text. rewrite fire_eq. cbn [sm m_state existsb mstate_eqb orb].
  unfold validate_text, insert_text, add_lines, update_temp, bind, get_temp, cur_line, get_state,
    set_temp, modify_m, ret, raise.
  step_cbn. rewrite Htg. step_cbn. reflexivity.
Qed.

Lemma pres_bind {A B} (P : st -> Prop) (m : M A) (k : A -> M B) :
  pres P m -> (forall a, pres P (k a)) -> pres P (bind m k).
Proof.
  intros Hm Hk s H. unfold bind. specialize (Hm s H).
  destruct (m s) as [s1 [a|e]]; cbn [fst] in *; [apply Hk|]; exact Hm.
Qed.

Lemma keeps_pres {A} lo (m : M A) : keeps seq_obs m -> pres (fun s => seq_inv lo (seq_obs s)) m.
Proof. intros Hk s H. rewrite Hk. exact H. Qed.

Lemma obs_liftP {A} (m : ST parser A) : keeps seq_obs (liftP m).
Proof. intros [p q]. unfold liftP. cbn [sp]. destruct (m p); reflexivity. Qed.

Lemma obs_get_state : keeps seq_obs get_state. Proof. intros s; reflexivity. Qed.
Lemma obs_get_temp : keeps seq_obs get_temp. Proof. intros s; reflexivity. Qed.
Lemma obs_line_num : keeps seq_obs line_num. Proof. intros s; reflexivity. Qed.
Lemma obs_cur_line : keeps seq_obs cur_line.
Proof. intros s. unfold cur_line. destruct (current_line (sp s)); reflexivity. Qed.
Lemma obs_set_line l : keeps seq_obs (set_line l). Proof. intros s; reflexivity. Qed.
Lemma obs_set_paused b : keeps seq_obs (set_paused b). Proof. intros s; reflexivity. Qed.
Lemma obs_set_missing_line b : keeps seq_obs (set_missing_line b). Proof. intros s; reflexivity. Qed.
Lemma obs_of_option {A} e (o : option A) : keeps seq_obs (of_option e o).
Proof. destruct o; intros s; reflexivity. Qed.
Lemma obs_ml : keeps seq_obs (fun s : st => (s, Ok (m_missing_line (sm s)))).
Proof. intros s; reflexivity. Qed.
Lemma obs_need_pause : keeps seq_obs need_pause. Proof. intros s; reflexivity. Qed.
Lemma obs_fetch i : keeps seq_obs (fetch i). Proof. apply obs_liftP. Qed.
Lemma obs_warn ln c l d : keeps seq_obs (warn ln c l d). Proof. apply obs_liftP. Qed.
Lemma obs_err ln c l d : keeps seq_obs (err ln c l d). Proof. apply obs_liftP. Qed.

Lemma obs_update_temp f : (forall u, u_sequence (f u) = u_sequence u) -> keeps seq_obs (update_temp f).
Proof.
  intros Hf [p [q t pr pa ml]]. unfold update_temp, bind, get_temp, set_temp, modify_m, raise.
  destruct t; unfold seq_obs; cbn -[u_sequence]; [rewrite Hf|]; reflexivity.
Qed.

Create HintDb seqobs.
#[local] Hint Resolve keeps_ret keeps_raise obs_liftP obs_get_state obs_get_temp obs_line_num
  obs_cur_line obs_set_line obs_set_paused obs_set_missing_line obs_of_option obs_ml
  obs_need_pause obs_fetch obs_warn obs_err : seqobs.

Ltac obs_tac :=
  repeat match goal with
  | |- keeps _ (bind _ _) => apply keeps_bind; [ | intros ? ]
  | |- keeps _ (match ?x with _ => _ end) => destruct x
  | |- keeps _ (update_temp _) => apply obs_update_temp; reflexivity
  | |- keeps _ _ => solve [auto with seqobs]
  end.

Lemma obs_add_lines ls : keeps seq_obs (add_lines ls).
Proof. unfold add_lines. obs_tac. Qed.
#[local] Hint Resolve obs_add_lines : seqobs.

Lemma obs_parse_time : keeps seq_obs parse_time.
Proof. unfold parse_time. obs_tac. Qed.
Lemma obs_validate_text : keeps seq_obs validate_text.
Proof. unfold validate_text. obs_tac. Qed.
Lemma obs_insert_text : keeps seq_obs insert_text.
Proof. unfold insert_text, pause. obs_tac. Qed.
Lemma obs_validate_empty : keeps seq_obs validate_empty.
Proof. unfold validate_empty. obs_tac. Qed.
Lemma obs_final_unit_before : keeps seq_obs final_unit_before.
Proof. unfold final_unit_before. obs_tac. Qed.

Lemma pres_fire lo from to_ before after :
  existsb (mstate_eqb MFinished) from = false ->
  pres (fun s => seq_inv lo (seq_obs s)) before ->
  (forall s s1 a, before s = (s1, Ok a) -> seq_obs s1 = seq_obs s) ->
  keeps seq_obs after ->
  pres (fun s => seq_inv lo (seq_obs s)) (fire from to_ before after).
Proof.
  intros Hf Hp Hok Ha s H. rewrite fire_eq.
  destruct (existsb (mstate_eqb (m_state (sm s))) from) eqn:Ex; [|exact H].
  assert (Hq : m_state (sm s) <> MFinished) by (intros Hq; rewrite Hq in Ex; congruence).
  destruct (before s) as [s1 [a|e]] eqn:Eb.
  - rewrite Ha. pose proof (Hok _ _ _ Eb) as Ho.
    destruct s as [p [q t pr pa ml]], s1 as [p1 [q1 t1 pr1 pa1 ml1]].
    unfold seq_obs in Ho, H |- *. cbn [sm m_state m_parsed m_temp] in Ho, H, Hq |- *.
    injection Ho as -> -> ->. destruct H as (H1 & H2 & H3).
    split; [exact H1|]. split; [exact H2|].
    intros Ht. destruct (H3 Ht) as [->|HH]; [contradiction|right; exact HH].
  - specialize (Hp s H). rewrite Eb in Hp. exact Hp.
Qed.

Lemma raises_bind {A B} (m : M A) (k : A -> M B) : (forall a, raises (k a)) -> raises (bind m k).
Proof.
  intros Hk s. unfold bind. destruct (m s) as [s1 [a|e]]; [apply Hk|exists e; reflexivity].
Qed.

Lemma raises_raise {A} e : raises (@raise st A e).
Proof. intros s. exists e. reflexivity. Qed.

Lemma okkeeps_keeps {A} (m : M A) : keeps seq_obs m -> okkeeps m.
Proof. intros Hk s s1 a E. specialize (Hk s). rewrite E in Hk. exact Hk. Qed.

Lemma okkeeps_raises {A} (m : M A) : raises m -> okkeeps m.
Proof. intros Hr s s1 a E. destruct (Hr s) as [e He]. rewrite E in He. discriminate He. Qed.

Lemma okkeeps_bind {A B} (m : M A) (k : A -> M B) :
  okkeeps m -> (forall a, okkeeps (k a)) -> okkeeps (bind m k).
Proof.
  intros Hm Hk s s2 b. unfold bind. destruct (m s) as [s1 [a|e]] eqn:E; [|discriminate].
  intros E2. rewrite (Hk a s1 s2 b E2). exact (Hm s s1 a E).
Qed.

Lemma pres_skip_sequence lo : pres (fun s => seq_inv lo (seq_obs s)) skip_sequence.
Proof.
  intros s H. unfold skip_sequence. rewrite fire_eq.
  destruct s as [p [q t pr pa ml]]. cbn [sm m_state] in *.
  destruct (existsb (mstate_eqb q) [MUnitText; MStart]) eqn:Ex; [|exact H].
  assert (Hq : q <> MFinished) by (intros ->; discriminate Ex).
  unfold ret. cbn [sp sm m_temp m_parsed m_paused m_missing_line].
  unfold fix_sequence_skip, bind at 1, get_temp. cbn [sm m_temp].
  unfold bind at 1, set_parsed, modify_m. cbn [sp sm m_state m_temp m_parsed m_paused m_missing_line].
  unfold bind at 1, set_temp, modify_m. cbn [sp sm m_state m_temp m_parsed m_paused m_missing_line].
  rewrite obs_parse_time. unfold seq_obs in H |- *. cbn [sm m_state m_temp m_parsed] in H |- *.
  destruct H as (H1 & H2 & H3). split; [|split].
  - intros x Hx. destruct t as [u|]; [|discriminate Hx]. injection Hx as <-.
    exact (proj1 (H2 _ eq_refl)).
  - intros x Hx. injection Hx as <-. cbn [u_sequence empty_unit]. split.
    + destruct t as [u|]; cbn [option_map] in *.
      * destruct (H2 _ eq_refl) as [Hl _]. lia.
      * destruct (H3 eq_refl) as [->|[-> _]]; [contradiction|lia].
    + intros y Hy. destruct t as [u|]; [|discriminate Hy]. injection Hy as <-. lia.
  - discriminate.
Qed.

Lemma pres_validate_header lo : pres (fun s => seq_inv lo (seq_obs s)) validate_header.
Proof.
  unfold validate_header. apply pres_bind; [apply keeps_pres, obs_get_state|intros q].
  destruct (mstate_eqb q MUnitText); [apply keeps_pres; obs_tac|].
  destruct (mstate_eqb q MStart).
  - apply pres_bind; [apply pres_skip_sequence|intros _]. apply keeps_pres. obs_tac.
  - apply keeps_pres. unfold pause. obs_tac.
Qed.

Lemma okkeeps_validate_header : okkeeps validate_header.
Proof.
  unfold validate_header. apply okkeeps_bind; [apply okkeeps_keeps, obs_get_state|intros q].
  destruct (mstate_eqb q MUnitText); [apply okkeeps_keeps; obs_tac|].
  destruct (mstate_eqb q MStart).
  - apply okkeeps_raises, raises_bind. intros _.
    repeat (apply raises_bind; intros ?). apply raises_raise.
  - apply okkeeps_keeps. unfold pause. obs_tac.
Qed.

Lemma pres_found_sequence lo : pres (fun s => seq_inv lo (seq_obs s)) found_sequence.
Proof.
  intros [[w e sl d rl cn cl] [q t pr pa ml]] H. unfold found_sequence. rewrite fire_eq.
  cbn [sm m_state]. destruct q; cbn [existsb mstate_eqb orb]; try exact H.
  unfold validate_unit, create_unit, bind, get_temp, cur_line, of_option, pause, set_paused, modify_m,
    set_line, line_num, ret, raise, fetch, warn, liftP, get_state, set_temp, set_parsed.
  cbn -[py_int strip py_str_N N.eqb N.add add_warning fetch_line negb].
  do 30 (try (destruct_inner; cbn -[py_int strip py_str_N N.eqb N.add add_warning fetch_line negb])).
  all: unfold seq_obs in H |- *; cbn [sm m_state m_temp m_parsed] in H |- *.
  all: try exact H.
  all: try congruence.
  all: destruct H as (H1 & H2 & H3).
  all: try specialize (H1 _ eq_refl); try (specialize (H2 _ eq_refl); destruct H2 as [H2 H2']).
  all: try specialize (H2' _ eq_refl).
  all: repeat match goal with
       | E : negb _ = false |- _ => apply negb_false_iff in E
       | E : (_ =? _)%N = true |- _ => apply N.eqb_eq in E
       end.
  all: (split; [|split]); intros;
    repeat match goal with
    | E : Some _ = Some _ |- _ => injection E as E
    | E : Some _ = None |- _ => discriminate E
    | E : None = Some _ |- _ => discriminate E
    end; subst.
  all: try (split; [|intros; repeat match goal with
    | E : Some _ = Some _ |- _ => injection E as E
    | E : None = Some _ |- _ => discriminate E end; subst]).
  all: try (destruct (H3 eq_refl) as [Hx|[Hx _]]; [discriminate Hx|subst lo]).
  all: try lia.
  all: tauto.
Qed.

Lemma pres_found_header lo : pres (fun s => seq_inv lo (seq_obs s)) found_header.
Proof.
  apply pres_fire; [reflexivity | apply pres_validate_header | apply okkeeps_validate_header
    | apply obs_parse_time].
Qed.

Lemma pres_found_text lo : pres (fun s => seq_inv lo (seq_obs s)) found_text.
Proof.
  apply pres_fire; [reflexivity | apply keeps_pres, obs_validate_text
    | apply okkeeps_keeps, obs_validate_text | apply obs_insert_text].
Qed.

Lemma pres_found_empty lo : pres (fun s => seq_inv lo (seq_obs s)) found_empty.
Proof.
  apply pres_fire; [reflexivity | apply keeps_pres, obs_validate_empty
    | apply okkeeps_keeps, obs_validate_empty | apply keeps_ret].
Qed.

Lemma bind_ok {A B} (m : M A) (k : A -> M B) s s1 a : m s = (s1, Ok a) -> bind m k s = k a s1.
Proof. intros E. unfold bind. rewrite E. reflexivity. Qed.

Lemma obs_final_unit_after s :
  seq_obs (fst (final_unit_after s)) =
  (m_state (sm s), option_map u_sequence (m_temp (sm s)), None).
Proof.
  unfold final_unit_after.
  do 3 (erewrite bind_ok by reflexivity).
  match goal with |- seq_obs (fst (?R ?x)) = _ =>
    assert (K : keeps seq_obs R) by obs_tac; rewrite K end.
  reflexivity.
Qed.

Lemma pres_done lo : pres (fun s => seq_inv lo (seq_obs s)) done.
Proof.
  intros s H. unfold done. rewrite fire_eq.
  destruct (existsb (mstate_eqb (m_state (sm s))) _) eqn:Ex; [|exact H].
  destruct (final_unit_before s) as [s1 r] eqn:Eb.
  pose proof (obs_final_unit_before s) as K. rewrite Eb in K. cbn [fst] in K.
  assert (Hr : r = Ok tt) by (unfold final_unit_before, bind, get_state, set_missing_line,
    modify_m in Eb; injection Eb as _ <-; reflexivity). subst r.
  rewrite obs_final_unit_after. cbn [sm m_state m_temp].
  unfold seq_obs in K, H. injection K as _ Kp Kt. rewrite Kt.
  destruct H as (H1 & H2 & H3). split; [|split].
  - intros p Hp. destruct (m_temp (sm s)) as [u|]; [|discriminate Hp].
    exact (proj1 (H2 _ Hp)).
  - discriminate.
  - intros _. left. reflexivity.
Qed.

Lemma pres_classify lo : pres (fun s => seq_inv lo (seq_obs s)) classify.
Proof.
  unfold classify. apply pres_bind; [apply keeps_pres, obs_cur_line|intros l].
  destruct (strip l); [apply pres_found_empty|].
  apply pres_bind; [apply keeps_pres, obs_get_state|intros q].
  destruct (_ && _); [apply pres_found_sequence|].
  destruct (header_match l); [apply pres_found_header|apply pres_found_text].
Qed.

Lemma pres_iterate lo : pres (fun s => seq_inv lo (seq_obs s)) iterate.
Proof.
  unfold iterate. apply pres_bind; [apply keeps_pres, obs_need_pause|intros p].
  destruct p; [apply pres_classify|].
  apply pres_bind; [apply keeps_pres, obs_liftP|intros b].
  destruct b; [apply pres_classify|apply pres_done].
Qed.

Lemma loop_body_seq lo s s' y b :
  seq_inv lo (seq_obs s) -> loop_body s = (s', Ok (y, b)) ->
  match y with
  | Some u => (lo < u_sequence u)%N /\ seq_inv (u_sequence u) (seq_obs s')
  | None => seq_inv lo (seq_obs s')
  end.
Proof.
  intros H E.
  assert (Hi : seq_inv lo (seq_obs (fst ((if mstate_eqb (m_state (sm s)) MFinished
                                          then ret tt else iterate) s))))
    by (destruct (mstate_eqb _ _); [exact H|apply pres_iterate, H]).
  unfold loop_body, bind, get_state in E.
  destruct ((if mstate_eqb (m_state (sm s)) MFinished then ret tt else iterate) s)
    as [s1 [a|e]] eqn:E1; cbn [fst] in Hi.
  - unfold parsed, ret in E. destruct (m_parsed (sm s1)) as [u|] eqn:Ep.
    + injection E as <- <- _. destruct s1 as [p1 [q1 t1 pr1 pa1 ml1]].
      unfold seq_obs in Hi |- *. cbn [sm m_state m_temp m_parsed] in Hi, Ep |- *. subst pr1.
      destruct Hi as (H1 & H2 & H3). cbn [option_map] in H1, H2, H3.
      split; [exact (H1 _ eq_refl)|]. split; [|split].
      * discriminate.
      * intros x Hx. destruct (H2 _ Hx) as [_ Hlt]. split; [exact (Hlt _ eq_refl)|discriminate].
      * intros Ht. destruct (H3 Ht) as [->|[_ Hn]]; [left; reflexivity|discriminate Hn].
    + injection E as <- <- _. exact Hi.
  - destruct e; try discriminate E.
    + injection E as <- <- _. exact Hi.
    + destruct (add_error _ _ _ _ _) as [p' [|]]; [|discriminate E].
      injection E as <- <- _. exact Hi.
Qed.

Lemma run_seq f : forall lo s, seq_inv lo (seq_obs s) ->
  Forall (fun u => (lo < u_sequence u)%N) (fst (run f s)) /\
  Sorted N.lt (map u_sequence (fst (run f s))).
Proof.
  induction f as [|f IH]; intros lo s H; [split; constructor|].
  cbn [run]. destruct (loop_body s) as [s' [[y b]|e]] eqn:E; [|split; constructor].
  pose proof (loop_body_seq lo s s' y b H E) as Hy.
  destruct y as [u|].
  - destruct Hy as [Hlt Hu].
    destruct b.
    + cbn. split; repeat constructor. exact Hlt.
    + destruct (IH _ _ Hu) as [Hf Hs]. destruct (run f s') as [r o]. cbn [fst app] in Hf, Hs |- *.
      split.
      * constructor; [exact Hlt|]. eapply Forall_impl; [|exact Hf]. intros v Hv. cbv beta in *. lia.
      * cbn [map]. constructor; [exact Hs|].
        destruct r as [|v r]; constructor. inversion Hf; assumption.
  - destruct b; [split; constructor|]. destruct (IH _ _ Hy) as [Hf Hs].
    destruct (run f s') as [r o]. exact (conj Hf Hs).
Qed.

(** X5: the units [_parse] yields carry positive sequence numbers in
    strictly increasing order, whatever the document and the stop level. *)
Theorem parse_sequence_increasing stop doc :
  Forall (fun u => (0 < u_sequence u)%N) (fst (parse_doc stop doc)) /\
  Sorted N.lt (map u_sequence (fst (parse_doc stop doc))).
Proof.
  apply run_seq. unfold seq_obs, init_st, init_machine. cbn.
  split; [discriminate|]. split; [discriminate|]. intros _. right. split; reflexivity.
Qed.

Lemma unparsable_line_witness :
  let l := addnl "x" in
  let m := Msg (Z.of_nat 0 + 1) 1 (rstrip l) "Unparsable line" in
  let s0 := at_line [] [] None [l] 0 None (Machine MUnit None None false false) in
  (below_stop None LError ->
     loop_body s0 = (at_line [] ([] ++ [m]) None [l] 1 (Some (rstrip l))
                       (Machine MUnit None None false false), Ok (None, false))) /\
  ((None = Some "warning" \/ None = Some "error") ->
     loop_body s0 = (at_line [] [] None [l] 1 (Some (rstrip l))
                       (Machine MUnit None None false false), Exc (ParseError m))).
Proof.
  apply (unparsable_line [] [] None [addnl "x"] 0 None None false (addnl "x")).
  - reflexivity.
  - intros H. vm_compute in H. discriminate H.
  - vm_compute. reflexivity.
Defined.

Lemma lines_before_first_unit_witness :
  let l := addnl "x" in
  loop_body (at_line [] [] None [l] 0 None (Machine MStart None None false false)) =
  (at_line ([] ++ [Msg (Z.of_nat 0 + 1) 1 (rstrip l)
       (if String.eqb (strip (rstrip l)) EmptyString
        then "Have empty line before first unit." else "Junk before first unit.")])
     [] None [l] 1 (Some (rstrip l)) (Machine MStart None None false false), Ok (None, false)).
Proof.
  apply (lines_before_first_unit [] [] None [addnl "x"] 0 None (addnl "x") false).
  - reflexivity.
  - discriminate.
  - exact I.
  - right. split; [intros H; vm_compute in H; discriminate H|]. split; vm_compute; reflexivity.
Defined.

Lemma blank_before_timings_witness :
  loop_body (at_line [] [] None [nl] 0 None (Machine MUnit (Some (empty_unit 1)) None false false)) =
  (at_line ([] ++ [Msg (Z.of_nat 0 + 1) 1 (rstrip nl)
                     "Have empty line between sequence number and timings."])
     [] None [nl] 1 (Some (rstrip nl)) (Machine MUnit (Some (empty_unit 1)) None false false),
   Ok (None, false)).
Proof.
  apply (blank_before_timings [] [] None [nl] 0 None nl (Some (empty_unit 1)) false).
  - reflexivity.
  - discriminate.
  - exact I.
  - reflexivity.
Defined.

Lemma duplicate_timing_ignored_witness :
  let l := addnl (header_str u_hello) in
  loop_body (at_line [] [] None [l] 0 None (Machine MUnitText (Some u_one) None false false)) =
  (at_line ([] ++ [Msg (Z.of_nat 0 + 1) 1 (rstrip l) "Duplicated time information, ignoring."])
     [] None [l] 1 (Some (rstrip l)) (Machine MUnitText (Some u_one) None false false),
   Ok (None, false)).
Proof.
  apply (duplicate_timing_ignored [] [] None [addnl (header_str u_hello)] 0 None
           (addnl (header_str u_hello)) (Some u_one) false
           (header_str u_hello, EmptyString)).
  - reflexivity.
  - exact I.
  - intros H. vm_compute in H. discriminate H.
  - vm_compute. reflexivity.
Defined.

Lemma blank_after_unit_witness :
  loop_body (at_line [] [] None [nl] 0 None (Machine MStart (Some u_one) None false false)) =
  (at_line [] [] None [nl] 1 (Some (rstrip nl))
     (Machine MStart (Some (Unit 1 (["A"] ++ [EmptyString]) None None None)) None false false),
   Ok (None, false)).
Proof.
  apply (blank_after_unit [] [] None [nl] 0 None nl u_one false).
  - reflexivity.
  - discriminate.
  - reflexivity.
Defined.

Lemma text_after_blank_witness :
  let l := addnl "B" in
  loop_body (at_line [] [] None [l] 0 None (Machine MStart (Some u_one) None false false)) =
  (at_line [] [] None [l] 1 (Some (rstrip l))
     (Machine MUnitText (Some (Unit 1 (["A"] ++ [EmptyString; rstrip l]) None None None))
        None false false), Ok (None, false)).
Proof.
  apply (text_after_blank [] [] None [addnl "B"] 0 None (addnl "B") u_one false).
  - reflexivity.
  - cbn. repeat split.
    + discriminate.
    + intros c Hc. cbn in Hc. destruct Hc as [<-|[]]. discriminate.
    + intros c Hc. cbn in Hc. destruct Hc as [<-|[]]. discriminate.
    + intros c Hc. cbn in Hc. destruct Hc as [<-|[]]. discriminate.
    + intros r Hr. discriminate Hr.
  - reflexivity.
Defined.

Lemma sequence_resync_witness :
  let l := addnl "5" in
  let ws' := ([] ++ [Msg (Z.of_nat 0 + 1) 1 (rstrip l) "Sequence number out of sync"])%list in
  let s1 := at_line ws' [] None [l] 1 (Some (py_str_N 2)) (Machine MStart (Some u_one) None true false) in
  loop_body (at_line [] [] None [l] 0 None (Machine MStart (Some u_one) None false false)) =
    (s1, Ok (None, false)) /\
  loop_body s1 =
  (at_line ws' [] None [l] 1 (Some (py_str_N 2)) (Machine MUnit (Some (empty_unit 2)) None false false),
   Ok (Some u_one, false)).
Proof.
  apply (sequence_resync [] [] None [addnl "5"] 0 None (addnl "5") (Some u_one) false 5%N).
  - reflexivity.
  - exact I.
  - intros H. vm_compute in H. discriminate H.
  - vm_compute. reflexivity.
  - vm_compute. reflexivity.
  - discriminate.
Defined.

Lemma missing_blank_at_eof_witness :
  let L := [addnl "A"] in
  let m := Msg (Z.of_nat 0 + 1) (Z.of_nat (length "A")) (rstrip (addnl "A"))
             "Missing empty line after unit." in
  let s0 := at_line [] [] None L 1 (Some "A") (Machine MUnitText (Some u_one) None false false) in
  (below_stop None LWarning ->
     run 2 s0 =
     ([u_one], Finished (at_line ([] ++ [m]) [] None L 1 (Some "A") (Machine MFinished None None false true)))) /\
  (None = Some "warning" ->
     run 1 s0 =
     ([], Raised (ParseWarning m) (at_line [] [] None L 1 (Some "A") (Machine MFinished None (Some u_one) false true)))).
Proof.
  apply (missing_blank_at_eof [] [] None [addnl "A"] 0 (addnl "A") "A" MUnitText u_one false 0).
  - reflexivity.
  - reflexivity.
  - right. reflexivity.
Defined.

Lemma timing_without_sequence_witness :
  let l := addnl (header_str u_hello) in
  exists q1 q2, Qeq q1 (seconds (su_start u_hello)) /\ Qeq q2 (seconds (su_end u_hello)) /\
  loop_body (at_line [] [] None [l] 0 None (Machine MStart (Some u_one) None false false)) =
  (at_line ([] ++ [Msg (Z.of_nat 0 + 1) 1 (header_str u_hello) "New unit starts without a sequence."])
     [] None [l] 1 (Some (header_str u_hello))
     (Machine MUnitText (Some (Unit (prev (Some u_one) + 1) [] (Some q1) (Some q2) None))
        (Some u_one) false false),
   Ok (None, false)).
Proof.
  apply (timing_without_sequence [] [] None [addnl (header_str u_hello)] 0 None
           (addnl (header_str u_hello)) (Some u_one) false u_hello).
  - reflexivity.
  - vm_compute. reflexivity.
  - unfold time_ok; cbn; lia.
  - unfold time_ok; cbn; lia.
  - exact I.
Defined.

Lemma final_timing_drops_unit_witness :
  let l := addnl (header_str u_hello) in
  exists q1 q2, Qeq q1 (seconds (su_start u_hello)) /\ Qeq q2 (seconds (su_end u_hello)) /\
  fst (run 3 (at_line [] [] None [l] 0 None (Machine MStart (Some u_one) None false false))) =
  [Unit 2 [] (Some q1) (Some q2) None].
Proof.
  apply (final_timing_drops_unit [] [] None [addnl (header_str u_hello)] 0 None
           (addnl (header_str u_hello)) u_one false u_hello 0).
  - reflexivity.
  - reflexivity.
  - vm_compute. reflexivity.
  - unfold time_ok; cbn; lia.
  - unfold time_ok; cbn; lia.
  - exact I.
Defined.

Lemma text_line_split_on_pipe_witness :
  let l := addnl "a |b" in
  loop_body (at_line [] [] None [l] 0 None (Machine MUnitText (Some u_one) None false false)) =
  (at_line [] [] None [l] 1 (Some (rstrip l))
     (Machine MUnitText (Some (Unit 1 (["A"] ++ map rstrip (py_split "|" (rstrip l))) None None None))
        None false false), Ok (None, false)).
Proof.
  apply (text_line_split_on_pipe [] [] None [addnl "a |b"] 0 None (addnl "a |b") u_one false).
  - reflexivity.
  - intros H. vm_compute in H. discriminate H.
  - vm_compute. reflexivity.
  - intros r Hr. discriminate Hr.
Defined.

(** ** Documents with any sequence numbers and dotted timing lines *)

(** [gen_doc] writes units with any sequence numbers and comma or dotted
    timing lines; [gen_parse] gives what [_parse] returns on it: the units
    renumbered from 1, the warnings of [gen_warns] and [gen_tail], and no
    error. The lemmas below follow the loop through one line, one unit and
    the whole document. *)

Lemma classify_hdr_at ws es stop L p v n ml :
  time_ok (su_start v) -> time_ok (su_end v) ->
  classify (at_line ws es stop L p (Some (header_str v)) (Machine MUnit (Some (empty_unit n)) None false ml)) =
  (at_line ws es stop L p (Some (header_str v))
     (Machine MUnitText (Some (Unit n [] (convert (py_split ":" (time_str (su_start v))))
                                     (convert (py_split ":" (time_str (su_end v)))) None)) None false ml),
   Ok tt).
Proof.
  intros H1 H2.
  destruct (convert_time _ H1) as [q1 [Hc1 _]]. destruct (convert_time _ H2) as [q2 [Hc2 _]].
  destruct (header_facts v H1 H2) as (Hs & Hne & Hm & Hf & Hsp & Hsa & Hsb).
  pose proof (time_match_time_str _ H1) as Hta. pose proof (time_match_time_str _ H2) as Htb.
  unfold classify, bind, cur_line, at_line. cbn [sp current_line].
  rewrite Hs, match_ne by exact Hne.
  unfold get_state. cbn [sm m_state mstate_eqb andb]. rewrite Hm.
  unfold found_header. rewrite fire_eq. cbn [sm m_state existsb mstate_eqb orb].
  unfold validate_header, parse_time, update_temp, bind, get_temp, cur_line, get_state,
    set_temp, modify_m, ret, raise.
  cbn -[strip header_match py_find py_split time_match convert header_str time_str].
  rewrite Hf, Hm, Hsp, Hsa, Hsb, Hta, Htb.
  cbn -[strip header_match py_find py_split time_match convert header_str time_str].
  rewrite Hsp, Hsa, Hsb, Hta, Htb, Hc1, Hc2. reflexivity.
Qed.

Lemma hdr_step_at ws es stop L p cl v n ml :
  nth_error L p = Some (addnl (header_str v)) -> time_ok (su_start v) -> time_ok (su_end v) ->
  loop_body (at_line ws es stop L p cl (Machine MUnit (Some (empty_unit n)) None false ml)) =
  (at_line ws es stop L (S p) (Some (header_str v))
     (Machine MUnitText (Some (Unit n [] (convert (py_split ":" (time_str (su_start v))))
                                     (convert (py_split ":" (time_str (su_end v)))) None)) None false ml),
   Ok (None, false)).
Proof.
  intros Hn H1 H2. apply loop_body_step'; [reflexivity| |reflexivity|discriminate].
  rewrite (iterate_at _ _ _ _ _ _ _ _ _ _ _ Hn (addnl_ne _)).
  unfold addnl. rewrite rstrip_nl, rstrip_header by assumption. apply classify_hdr_at; assumption.
Qed.


(** [validate_header] on the dotted line: the first dot is replaced, a
    warning is given at its column and the line is read again. *)
Lemma dot_pass1 ws es stop L p cl n ml :
  nth_error L p = Some (addnl dot12) -> below_stop stop LWarning ->
  loop_body (at_line ws es stop L p cl (Machine MUnit (Some (empty_unit n)) None false ml)) =
  (at_line (ws ++ [Msg (Z.of_nat p + 1) 9 dot12 dot_msg]) es stop L (S p) (Some dot12a)
     (Machine MUnit (Some (empty_unit n)) None true ml), Ok (None, false)).
Proof.
  intros Hn Hb.
  rewrite (loop_body_exc (at_line ws es stop L p cl (Machine MUnit (Some (empty_unit n)) None false ml))
     (at_line (ws ++ [Msg (Z.of_nat p + 1) 9 dot12 dot_msg]) es stop L (S p) (Some dot12a)
     (Machine MUnit (Some (empty_unit n)) None true ml)) Skip eq_refl); [reflexivity|].
  rewrite (iterate_at _ _ _ _ _ _ _ _ _ _ _ Hn (addnl_ne _)).
  assert (Hr : rstrip (addnl dot12) = dot12) by reflexivity. rewrite Hr.
  assert (Hs : strip dot12 = dot12) by reflexivity.
  assert (Hm : header_match dot12 = Some (dot12, EmptyString)) by reflexivity.
  assert (Hf : py_find "." dot12 = Some 8) by reflexivity.
  assert (Hp : py_replace1 "." "," dot12 = dot12a) by reflexivity.
  unfold classify, bind, cur_line, at_line. cbn [sp current_line].
  rewrite Hs, match_ne by discriminate.
  unfold get_state. cbn [sm m_state mstate_eqb andb]. rewrite Hm.
  unfold found_header. rewrite fire_eq. cbn [sm m_state existsb mstate_eqb orb].
  unfold validate_header, bind, get_state, cur_line, pause, set_paused, modify_m,
    set_line, line_num, fetch, warn, liftP, add_warning, ret, raise.
  step_cbn. rewrite Hf. step_cbn.
  rewrite (fetch_line_at _ _ _ _ _ _ _ Hn). rewrite Hr. step_cbn.
  rewrite add_msg_below by exact Hb. step_cbn. rewrite app_nil_r.
  replace (Z.of_nat (S p) - 1 + 1)%Z with (Z.of_nat p + 1)%Z by lia. try rewrite Hp. reflexivity.
Qed.

(** the second pass replaces the second dot *)
Lemma dot_pass2 ws es stop L p n ml :
  nth_error L p = Some (addnl dot12) -> below_stop stop LWarning ->
  loop_body (at_line ws es stop L (S p) (Some dot12a) (Machine MUnit (Some (empty_unit n)) None true ml)) =
  (at_line (ws ++ [Msg (Z.of_nat p + 1) 26 dot12 dot_msg]) es stop L (S p)
     (Some (header_str (SrtUnit time_1s time_2s [])))
     (Machine MUnit (Some (empty_unit n)) None true ml), Ok (None, false)).
Proof.
  intros Hn Hb.
  rewrite (loop_body_exc (at_line ws es stop L (S p) (Some dot12a) (Machine MUnit (Some (empty_unit n)) None true ml))
     (at_line (ws ++ [Msg (Z.of_nat p + 1) 26 dot12 dot_msg]) es stop L (S p)
     (Some (header_str (SrtUnit time_1s time_2s [])))
     (Machine MUnit (Some (empty_unit n)) None true ml)) Skip eq_refl); [reflexivity|].
  assert (Hr : rstrip (addnl dot12) = dot12) by reflexivity.
  assert (Hs : strip dot12a = dot12a) by reflexivity.
  assert (Hm : header_match dot12a = Some (dot12a, EmptyString)) by reflexivity.
  assert (Hf : py_find "." dot12a = Some 25) by reflexivity.
  assert (Hp : py_replace1 "." "," dot12a = header_str (SrtUnit time_1s time_2s [])) by reflexivity.
  unfold at_line at 1. rewrite iterate_eq. cbn [m_paused]. unfold unpause.
  cbn [m_state m_temp m_parsed m_missing_line].
  unfold classify, bind, cur_line. cbn [sp current_line].
  rewrite Hs, match_ne by discriminate.
  unfold get_state. cbn [sm m_state mstate_eqb andb]. rewrite Hm.
  unfold found_header. rewrite fire_eq. cbn [sm m_state existsb mstate_eqb orb].
  unfold validate_header, bind, get_state, cur_line, pause, set_paused, modify_m,
    set_line, line_num, fetch, warn, liftP, add_warning, ret, raise.
  step_cbn. rewrite Hf. step_cbn.
  rewrite (fetch_line_at _ _ _ _ _ _ _ Hn). rewrite Hr. step_cbn.
  rewrite add_msg_below by exact Hb. step_cbn. rewrite app_nil_r.
  replace (Z.of_nat (S p) - 1 + 1)%Z with (Z.of_nat p + 1)%Z by lia. try rewrite Hp. reflexivity.
Qed.

(** the third pass reads the line with commas *)
Lemma dot_pass3 ws es stop L p n ml :
  loop_body (at_line ws es stop L (S p) (Some (header_str (SrtUnit time_1s time_2s [])))
               (Machine MUnit (Some (empty_unit n)) None true ml)) =
  (at_line ws es stop L (S p) (Some (header_str (SrtUnit time_1s time_2s [])))
     (Machine MUnitText (Some (Unit n [] (convert (py_split ":" (time_str time_1s)))
                                     (convert (py_split ":" (time_str time_2s))) None)) None false ml),
   Ok (None, false)).
Proof.
  apply loop_body_step'; [reflexivity| |reflexivity|discriminate].
  unfold at_line at 1. rewrite iterate_eq. cbn [m_paused]. unfold unpause.
  cbn [m_state m_temp m_parsed m_missing_line].
  apply (classify_hdr_at ws es stop L (S p) (SrtUnit time_1s time_2s []) n ml);
    unfold time_ok; cbn; lia.
Qed.

Lemma seq_step_at ws es stop L pos cl t ml k :
  nth_error L pos = Some (addnl (py_str_N k)) -> k = (prev t + 1)%N ->
  loop_body (at_line ws es stop L pos cl (Machine MStart t None false ml)) =
  (at_line ws es stop L (S pos) (Some (py_str_N k)) (Machine MUnit (Some (empty_unit k)) None false ml),
   Ok (t, false)).
Proof.
  intros Hn Hk.
  rewrite (loop_body_ok (at_line ws es stop L pos cl (Machine MStart t None false ml))
     (at_line ws es stop L (S pos) (Some (py_str_N k))
     (Machine MUnit (Some (empty_unit k)) t false ml)) eq_refl); [reflexivity| |discriminate].
  rewrite (iterate_at _ _ _ _ _ _ _ _ _ _ _ Hn (addnl_ne _)).
  unfold addnl. rewrite rstrip_nl, rstrip_py_str_N. apply classify_seq_at, Hk.
Qed.

Lemma resync_steps ws es stop L pos cl l t ml k :
  nth_error L pos = Some l -> below_stop stop LWarning ->
  strip (rstrip l) <> EmptyString -> sequence_match (rstrip l) = true ->
  py_int (strip (rstrip l)) = Some k -> k <> (prev t + 1)%N ->
  let n := (prev t + 1)%N in
  let ws' := (ws ++ [Msg (Z.of_nat pos + 1) 1 (rstrip l) "Sequence number out of sync"])%list in
  let s1 := at_line ws' es stop L (S pos) (Some (py_str_N n)) (Machine MStart t None true ml) in
  loop_body (at_line ws es stop L pos cl (Machine MStart t None false ml)) = (s1, Ok (None, false)) /\
  loop_body s1 =
  (at_line ws' es stop L (S pos) (Some (py_str_N n)) (Machine MUnit (Some (empty_unit n)) None false ml),
   Ok (t, false)).
Proof.
  intros Hn Hb Hs Hq Hk Hne n ws' s1. split.
  - rewrite (loop_body_exc (at_line ws es stop L pos cl (Machine MStart t None false ml)) s1 Skip
      eq_refl); [reflexivity|].
    rewrite (iterate_at _ _ _ _ _ _ _ _ _ _ l Hn (strip_rstrip_ne l Hs)).
    unfold classify, bind, cur_line, at_line. cbn [sp current_line].
    rewrite match_ne by exact Hs.
    unfold get_state. cbn [sm m_state mstate_eqb andb]. rewrite Hq.
    unfold found_sequence. rewrite fire_eq. cbn [sm m_state existsb mstate_eqb orb].
    unfold validate_unit, bind, get_temp, cur_line, of_option, pause, set_paused, modify_m,
      set_line, line_num, fetch, warn, liftP, add_warning, ret, raise.
    step_cbn. rewrite Hk. step_cbn.
    replace (k =? match t with Some u => u_sequence u | None => 0 end + 1)%N with false
      by (symmetry; apply N.eqb_neq; exact Hne). step_cbn.
    rewrite (fetch_line_at _ _ _ _ _ _ l Hn). step_cbn.
    rewrite add_msg_below by exact Hb. step_cbn. rewrite app_nil_r.
    replace (Z.of_nat (S pos) - 1 + 1)%Z with (Z.of_nat pos + 1)%Z by lia. reflexivity.
  - rewrite (loop_body_ok s1 (at_line ws' es stop L (S pos) (Some (py_str_N n))
       (Machine MUnit (Some (empty_unit n)) t false ml)) eq_refl); [reflexivity| |discriminate].
    unfold s1, at_line at 1. rewrite iterate_eq. cbn [m_paused]. unfold unpause. cbn [m_state m_temp m_parsed m_missing_line].
    apply classify_seq_at. reflexivity.
Qed.

Lemma classify_text_at ws es stop L pos x u ml :
  text_ok x ->
  classify (at_line ws es stop L pos (Some x) (Machine MUnitText (Some u) None false ml)) =
  (at_line ws es stop L pos (Some x)
     (Machine MUnitText (Some (Unit (u_sequence u) (u_lines u ++ [x]) (u_start u) (u_end u) (u_position u)))
        None false ml), Ok tt).
Proof.
  intros (Hs & Hr & Hbar & _ & _ & Hb & Hm).
  assert (Hsp : py_split "|" x = [x]) by (apply split_aux_none, Hbar).
  pose proof (tagged_none x Hb) as Ht.
  unfold classify, bind, cur_line, at_line. cbn [sp current_line].
  rewrite match_ne by exact Hs.
  unfold get_state. cbn [sm m_state mstate_eqb andb]. rewrite Hm.
  unfold found_text. rewrite fire_eq. cbn [sm m_state existsb mstate_eqb orb].
  unfold validate_text, insert_text, add_lines, update_temp, bind, get_temp, cur_line, get_state,
    set_temp, modify_m, ret, raise.
  cbn -[strip header_match py_split tagged_match rstrip firstn Z.of_nat Z.sub].
  rewrite Ht. cbn -[strip header_match py_split tagged_match rstrip firstn Z.of_nat Z.sub].
  rewrite Hsp. cbn [map]. rewrite Hr. reflexivity.
Qed.

Lemma last_cons {A} (x : A) ts d : last (x :: ts) d = last ts x.
Proof.
  revert x d; induction ts as [|y ts IH]; intros x d; [reflexivity|].
  change (last (y :: ts) d = last (y :: ts) x). rewrite !IH. reflexivity.
Qed.

Lemma run_texts_at ws es stop L ts ml : forall pos l0 u rest f,
  Forall text_ok ts ->
  skipn pos L = (map addnl ts ++ rest)%list ->
  run (List.length ts + f) (at_line ws es stop L pos (Some l0) (Machine MUnitText (Some u) None false ml)) =
  run f (at_line ws es stop L (List.length ts + pos) (Some (last ts l0))
           (Machine MUnitText (Some (Unit (u_sequence u) (u_lines u ++ ts) (u_start u) (u_end u) (u_position u)))
              None false ml)).
Proof.
  induction ts as [|x ts IH]; intros pos l0 u rest f Hok Hs.
  - cbn [List.length plus last]. rewrite app_nil_r. destruct u; reflexivity.
  - inversion Hok as [|? ? Hx Hts]; subst.
    destruct (skipn_cons_nth L pos _ _ Hs) as [Hn Hs'].
    assert (Hb : loop_body (at_line ws es stop L pos (Some l0) (Machine MUnitText (Some u) None false ml)) =
      (at_line ws es stop L (S pos) (Some x)
         (Machine MUnitText (Some (Unit (u_sequence u) (u_lines u ++ [x]) (u_start u) (u_end u) (u_position u)))
            None false ml), Ok (None, false))).
    { apply loop_body_step'; [reflexivity| |reflexivity|discriminate].
      rewrite (iterate_at _ _ _ _ _ _ _ _ _ _ _ Hn (addnl_ne x)).
      unfold addnl. rewrite rstrip_nl. pose proof Hx as Hx'. destruct Hx' as (_ & Hr & _). rewrite Hr.
      apply classify_text_at, Hx. }
    cbn [List.length]. replace (S (List.length ts) + f) with (S (List.length ts + f)) by lia.
    rewrite (run_one _ _ _ Hb).
    rewrite (IH (S pos) x (Unit (u_sequence u) (u_lines u ++ [x]) (u_start u) (u_end u) (u_position u))
                 rest f Hts Hs').
    cbn [u_sequence u_lines u_start u_end u_position]. rewrite <- app_assoc.
    replace (List.length ts + S pos) with (S (List.length ts + pos)) by lia.
    rewrite last_cons. reflexivity.
Qed.

Lemma blank_step_at ws es stop L pos cl t ml :
  nth_error L pos = Some (addnl EmptyString) ->
  loop_body (at_line ws es stop L pos cl (Machine MUnitText t None false ml)) =
  (at_line ws es stop L (S pos) (Some EmptyString) (Machine MStart t None false ml), Ok (None, false)).
Proof.
  intros Hn. apply loop_body_step'; [reflexivity| |reflexivity|discriminate].
  rewrite (iterate_at _ _ _ _ _ _ _ _ _ _ _ Hn (addnl_ne _)).
  replace (rstrip (addnl EmptyString)) with EmptyString by reflexivity.
  unfold classify, bind, cur_line, at_line. cbn [sp current_line strip lstrip rstrip].
  unfold found_empty. rewrite fire_eq. cbn [sm m_state existsb mstate_eqb orb].
  unfold validate_empty, bind, get_state, ret. cbn. reflexivity.
Qed.

Lemma eof_start_at ws es stop L pos cl t ml :
  nth_error L pos = None ->
  loop_body (at_line ws es stop L pos cl (Machine MStart t None false ml)) =
  (at_line ws es stop L pos cl (Machine MFinished None None false false), Ok (t, true)).
Proof.
  intros Hn. unfold loop_body, bind, get_state, ret. cbn [at_line sm m_state mstate_eqb].
  rewrite iterate_eof_at by exact Hn.
  unfold done. rewrite fire_eq. unfold at_line.
  cbn [sm m_state existsb mstate_eqb orb].
  unfold final_unit_before, final_unit_after, bind, get_state, get_temp, set_missing_line,
    set_parsed, set_temp, modify_m, ret, parsed.
  cbn. destruct t; reflexivity.
Qed.

Lemma eof_text_at ws es stop L k x l' q u ml f :
  nth_error L k = Some x -> nth_error L (S k) = None -> (q = MUnit \/ q = MUnitText) ->
  below_stop stop LWarning ->
  run (S (S f)) (at_line ws es stop L (S k) (Some l') (Machine q (Some u) None false ml)) =
  ([u], Finished (at_line (ws ++ [Msg (Z.of_nat k + 1) (Z.of_nat (length l')) (rstrip x)
                                     "Missing empty line after unit."]) es stop L (S k) (Some l')
                    (Machine MFinished None None false true))).
Proof.
  intros Hk Hn Hq Hb.
  set (m := Msg (Z.of_nat k + 1) (Z.of_nat (length l')) (rstrip x) "Missing empty line after unit.").
  rewrite (run_one _ _ (at_line (ws ++ [m]) es stop L (S k) (Some l') (Machine MFinished None (Some u) false true))).
  - apply (run_last f _ _ (Some u)). apply loop_body_finished.
  - rewrite (loop_body_exc _ (at_line (ws ++ [m]) es stop L (S k) (Some l')
                (Machine MFinished None (Some u) false true)) Skip); [reflexivity| |].
    + destruct Hq as [-> | ->]; reflexivity.
    + rewrite iterate_eof_at by exact Hn. rewrite (done_at ws es stop L k x l' q (Some u) None ml Hk Hq).
      rewrite add_msg_below by exact Hb. step_cbn. rewrite app_nil_r. reflexivity.
Qed.

(** the sequence line of a unit: one pass when it is the expected number,
    two when it is resynchronised *)
Lemma seq_phase ws es stop L pos cl t k :
  nth_error L pos = Some (addnl (py_str_N k)) -> below_stop stop LWarning ->
  let n := (prev t + 1)%N in
  let s1 := at_line (ws ++ (if N.eqb k n then []
                            else [Msg (Z.of_nat pos + 1) 1 (py_str_N k) "Sequence number out of sync"]))
              es stop L (S pos) (Some (py_str_N n)) (Machine MUnit (Some (empty_unit n)) None false false) in
  exists c, c <= 2 /\ forall f,
    run (c + f) (at_line ws es stop L pos cl (Machine MStart t None false false)) =
    ((opt_list t ++ fst (run f s1))%list, snd (run f s1)).
Proof.
  intros Hn Hb n s1.
  destruct (N.eqb_spec k n) as [Hk|Hk].
  - subst k. exists 1. split; [lia|]. intros f. unfold s1. rewrite app_nil_r.
    apply run_step. apply seq_step_at; [exact Hn|reflexivity].
  - assert (Hr : rstrip (addnl (py_str_N k)) = py_str_N k) by (unfold addnl; rewrite rstrip_nl; apply rstrip_py_str_N).
    destruct (resync_steps ws es stop L pos cl (addnl (py_str_N k)) t false k Hn Hb)
      as [B1 B2].
    + rewrite Hr, strip_py_str_N. apply py_str_N_ne.
    + rewrite Hr. apply sequence_match_py_str_N.
    + rewrite Hr. apply py_int_py_str_N.
    + exact Hk.
    + exists 2. split; [lia|]. intros f. rewrite Hr in B1, B2.
      change (2 + f) with (S (S f)). rewrite (run_one _ _ _ B1). apply run_step. exact B2.
Qed.

(** the timing line of a unit: one pass with commas, three with dots *)
Lemma hdr_phase ws es stop L p cl n h :
  nth_error L p = Some (addnl (hline_str h)) -> hline_ok h -> below_stop stop LWarning ->
  let s2 := at_line (ws ++ map (fun c => Msg (Z.of_nat p + 1) c (hline_str h) dot_msg) (hline_cols h))
              es stop L (S p) (Some (hline_comma h))
              (Machine MUnitText (Some (Unit n [] (convert (py_split ":" (time_str (fst (hline_times h)))))
                                              (convert (py_split ":" (time_str (snd (hline_times h))))) None))
                 None false false) in
  exists c, c <= 3 /\ forall f,
    run (c + f) (at_line ws es stop L p cl (Machine MUnit (Some (empty_unit n)) None false false)) = run f s2.
Proof.
  intros Hn Hh Hb s2. destruct h as [a b|].
  - exists 1. split; [lia|]. intros f. unfold s2. cbn [hline_cols map]. rewrite app_nil_r.
    apply run_one. destruct Hh as [H1 H2].
    apply (hdr_step_at ws es stop L p cl (SrtUnit a b []) n false Hn H1 H2).
  - exists 3. split; [lia|]. intros f. change (3 + f) with (S (S (S f))).
    rewrite (run_one _ _ _ (dot_pass1 ws es stop L p cl n false Hn Hb)).
    rewrite (run_one _ _ _ (dot_pass2 _ es stop L p n false Hn Hb)).
    rewrite (run_one _ _ _ (dot_pass3 _ es stop L p n false)).
    unfold s2. cbn [hline_cols map hline_str hline_comma hline_times fst snd]. rewrite <- app_assoc. reflexivity.
Qed.

(** one unit, from its sequence line to its last text line *)
Lemma run_gunit ws es stop L pos cl t g rest :
  gunit_ok g -> below_stop stop LWarning ->
  skipn pos L = (addnl (py_str_N (g_seq g)) :: addnl (hline_str (g_hdr g)) :: map addnl (g_text g) ++ rest)%list ->
  let n := (prev t + 1)%N in
  let s' := at_line (ws ++ unit_warns n pos g) es stop L (S (S (List.length (g_text g) + pos)))
               (Some (last (g_text g) (hline_comma (g_hdr g))))
               (Machine MUnitText (Some (gen_unit n g)) None false false) in
  exists c, c <= 5 /\ forall f,
  run (c + List.length (g_text g) + f) (at_line ws es stop L pos cl (Machine MStart t None false false)) =
  ((opt_list t ++ fst (run f s'))%list, snd (run f s')).
Proof.
  intros Hok Hb Hs n s'. destruct g as [k h ts]; destruct Hok as [Hh Hts]; cbn [g_seq g_hdr g_text] in *.
  destruct (skipn_cons_nth L pos _ _ Hs) as [Hn0 Hs1].
  destruct (skipn_cons_nth L (S pos) _ _ Hs1) as [Hn1 Hs2].
  destruct (seq_phase ws es stop L pos cl t k Hn0 Hb) as (c1 & Hc1 & E1).
  destruct (hdr_phase (ws ++ (if N.eqb k n then []
                            else [Msg (Z.of_nat pos + 1) 1 (py_str_N k) "Sequence number out of sync"]))
              es stop L (S pos) (Some (py_str_N n)) n h Hn1 Hh Hb) as (c2 & Hc2 & E2).
  exists (c1 + c2). split; [lia|]. intros f.
  replace (c1 + c2 + List.length ts + f) with (c1 + (c2 + (List.length ts + f))) by lia.
  rewrite E1, E2. rewrite (run_texts_at _ es stop L ts false (S (S pos)) (hline_comma h) _ rest f Hts Hs2).
  unfold s', unit_warns, gen_unit. cbn [g_seq g_hdr g_text u_sequence u_lines u_start u_end u_position app].
  rewrite <- app_assoc.
  replace (Z.of_nat (S pos) + 1)%Z with (Z.of_nat pos + 2)%Z by lia.
  replace (List.length ts + S (S pos)) with (S (S (List.length ts + pos))) by lia.
  reflexivity.
Qed.

Lemma rstrip_last ts d : Forall text_ok ts -> rstrip d = d -> rstrip (last ts d) = last ts d.
Proof.
  revert d; induction ts as [|x ts IH]; intros d Hts Hd; [exact Hd|].
  inversion Hts as [|? ? Hx Hts']; subst. rewrite last_cons. apply IH; [exact Hts'|apply Hx].
Qed.

Lemma nth_error_last {A B} (f : A -> B) ts : forall a,
  nth_error (f a :: map f ts) (List.length ts) = Some (f (last ts a)).
Proof.
  induction ts as [|x ts IH]; intros a; [reflexivity|].
  cbn [map List.length]. change (nth_error (f a :: f x :: map f ts) (S (List.length ts)))
    with (nth_error (f x :: map f ts) (List.length ts)). rewrite IH, last_cons. reflexivity.
Qed.

Lemma rstrip_hline h : hline_ok h -> rstrip (hline_str h) = hline_str h.
Proof.
  destruct h as [a b|]; [intros [H1 H2]; exact (rstrip_header (SrtUnit a b []) H1 H2)|intros _; reflexivity].
Qed.

(** the units from [pos] to the end of the document *)
Lemma run_gen stop trailing L gs : forall ws es pos cl t f,
  Forall gunit_ok gs -> below_stop stop LWarning ->
  skipn pos L = map addnl (gen_lines trailing gs) ->
  3 * List.length (gen_lines trailing gs) + 2 <= f ->
  exists s_end,
    run f (at_line ws es stop L pos cl (Machine MStart t None false false)) =
      ((opt_list t ++ gen_units (prev t + 1) gs)%list, Finished s_end) /\
    errors (sp s_end) = es /\
    warnings (sp s_end) = (ws ++ gen_warns (prev t + 1) pos gs ++ (if trailing then [] else gen_tail pos gs))%list.
Proof.
  induction gs as [|g gs IH]; intros ws es pos cl t f Hok Hb Hs Hf.
  - cbn [gen_lines map] in Hs. pose proof (eof_start_at ws es stop L pos cl t false (skipn_nil_nth L pos Hs)) as B.
    destruct f as [|f]; [cbn in Hf; lia|]. rewrite (run_last _ _ _ _ B).
    eexists. split; [rewrite app_nil_r; reflexivity|]. split; [reflexivity|].
    cbn [gen_warns gen_tail sp at_line warnings]. destruct trailing; rewrite !app_nil_r; reflexivity.
  - inversion Hok as [|? ? Hg Hgs]; subst.
    destruct g as [k h ts]. pose proof Hg as [Hh Hts]. cbn [g_seq g_hdr g_text] in *.
    cbn [gen_lines map g_seq g_hdr g_text] in Hs. rewrite map_app in Hs.
    cbn [gen_lines List.length g_text] in Hf. rewrite length_app in Hf.
    pose proof Hs as Hs'. rewrite app_comm_cons, app_comm_cons in Hs'.
    apply skipn_skip in Hs'. cbn [List.length] in Hs'. rewrite length_map in Hs'.
    destruct (run_gunit ws es stop L pos cl t (GUnit k h ts) _ Hg Hb Hs) as (c & Hc & E).
    cbv zeta in E. cbn [g_text g_hdr g_seq] in E.
    set (n := (prev t + 1)%N) in *.
    assert (Hcase : (gs = [] /\ trailing = false) \/
      ((match gs with [] => if trailing then [EmptyString] else [] | _ => [EmptyString] end) = [EmptyString] /\
       (if trailing then [] else gen_tail pos (GUnit k h ts :: gs)) =
       (if trailing then [] else gen_tail (pos + 3 + List.length ts) gs))).
    { destruct gs, trailing; auto. }
    destruct Hcase as [[-> ->] | [HB HT]].
    + (* the last unit, not followed by a blank line *)
      cbn [gen_lines List.length app] in Hf, Hs'. rewrite app_nil_r in Hs.
      replace f with (c + List.length ts + S (S (f - c - List.length ts - 2))) by lia.
      rewrite E. clear E.
      assert (Hx : nth_error L (S (List.length ts + pos)) = Some (addnl (last ts (hline_str h)))).
      { replace (S (List.length ts + pos)) with (pos + S (List.length ts)) by lia.
        rewrite <- nth_error_skipn, Hs. cbn [nth_error]. apply nth_error_last. }
      rewrite (eof_text_at _ es stop L _ _ _ MUnitText _ false _ Hx (skipn_nil_nth L _ Hs')
                 (or_intror eq_refl) Hb).
      cbn [fst snd]. eexists. split; [reflexivity|]. split; [reflexivity|].
      cbn [sp at_line warnings gen_warns gen_tail g_text g_hdr]. rewrite app_nil_r, <- app_assoc.
      unfold addnl. rewrite rstrip_nl, (rstrip_last ts _ Hts (rstrip_hline h Hh)).
      replace (Z.of_nat (S (List.length ts + pos)) + 1)%Z with (Z.of_nat (pos + 2 + List.length ts)) by lia.
      reflexivity.
    + rewrite HB in Hs', Hf. cbn [List.length app map] in Hf, Hs'.
      destruct (skipn_cons_nth L _ _ _ Hs') as [Hn2 Hs3].
      replace f with (c + List.length ts + S (f - c - List.length ts - 1)) by lia.
      rewrite E. clear E. rewrite (run_one _ _ _ (blank_step_at _ es stop L _ _ _ false Hn2)).
      destruct (IH (ws ++ unit_warns n pos (GUnit k h ts))%list es _ (Some EmptyString)
                  (Some (gen_unit n (GUnit k h ts))) (f - c - List.length ts - 1) Hgs Hb Hs3)
        as (s_end & R & He & Hw); [lia|].
      rewrite R. cbn [fst snd opt_list]. exists s_end. split; [reflexivity|]. split; [exact He|].
      rewrite Hw. cbn [gen_warns g_text]. rewrite HT.
      replace (S (S (S (List.length ts)) + pos)) with (pos + 3 + List.length ts) by lia.
      rewrite !app_assoc. reflexivity.
Qed.

Lemma hline_crlf h : hline_ok h -> crlf_free (hline_str h).
Proof.
  destruct h as [a b|]; [intros [H1 H2]; exact (header_crlf (SrtUnit a b []) H1 H2)|intros _].
  split; intros c Hc; cbn in Hc; repeat (destruct Hc as [<-|Hc]; [discriminate|]); contradiction.
Qed.

Lemma gen_lines_crlf trailing gs : Forall gunit_ok gs -> Forall crlf_free (gen_lines trailing gs).
Proof.
  induction gs as [|[k h ts] gs IH]; intros Hok; [constructor|].
  inversion Hok as [|? ? [Hh Hts] Hgs]; subst. cbn [gen_lines g_seq g_hdr g_text].
  constructor; [apply seq_crlf|]. constructor; [apply hline_crlf, Hh|].
  apply Forall_app. split.
  - eapply Forall_impl; [|exact Hts]. intros x Hx. split; apply Hx.
  - apply Forall_app. split; [|apply IH, Hgs].
    assert (He : crlf_free EmptyString) by (split; intros c Hc; destruct Hc).
    destruct gs; [destruct trailing|]; repeat (constructor; [exact He|]); constructor.
Qed.

Lemma parse_fuel_lines4 ls : 4 * List.length ls + 4 <= fold_right (fun l n => line_cost l + n) 4 ls.
Proof. induction ls as [|l ls IH]; cbn [List.length fold_right]; unfold line_cost in *; lia. Qed.

(** [_parse] on a generated document *)
Lemma gen_parse stop trailing gs :
  Forall gunit_ok gs -> below_stop stop LWarning ->
  parse_result stop (gen_doc trailing gs) =
  Some (gen_units 1 gs, (gen_warns 1 0 gs ++ (if trailing then [] else gen_tail 0 gs))%list, []).
Proof.
  intros Hok Hb. unfold parse_result, parse_doc.
  set (L := map addnl (gen_lines trailing gs)).
  assert (HL : py_lines (gen_doc trailing gs) = L)
    by (apply py_lines_join; eapply Forall_impl; [|apply gen_lines_crlf, Hok]; intros l H; exact H).
  assert (Hi : init_st stop (gen_doc trailing gs) = at_line [] [] stop L 0 None (Machine MStart None None false false))
    by (unfold init_st; rewrite HL; reflexivity).
  assert (Hf : 3 * List.length (gen_lines trailing gs) + 2 <= parse_fuel (gen_doc trailing gs)).
  { unfold parse_fuel. rewrite HL. pose proof (parse_fuel_lines4 L) as H.
    unfold L in H at 1. rewrite length_map in H. lia. }
  rewrite Hi.
  destruct (run_gen stop trailing L gs [] [] 0 None None _ Hok Hb eq_refl Hf) as (s_end & R & He & Hw).
  rewrite R, He, Hw. reflexivity.
Qed.

Lemma gen_lines_cons_length g gs :
  List.length (gen_lines true (g :: gs)) = 3 + List.length (g_text g) + List.length (gen_lines true gs).
Proof. cbn [gen_lines List.length]. rewrite !length_app. destruct gs; cbn [List.length]; lia. Qed.

Lemma gen_units_app pre : forall n rest,
  gen_units n (pre ++ rest) = (gen_units n pre ++ gen_units (n + N.of_nat (List.length pre)) rest)%list.
Proof.
  induction pre as [|g pre IH]; intros n rest; cbn [app gen_units List.length].
  - rewrite N.add_0_r. reflexivity.
  - rewrite IH. replace (n + 1 + N.of_nat (List.length pre))%N with (n + N.of_nat (S (List.length pre)))%N by lia.
    reflexivity.
Qed.

Lemma gen_units_length gs : forall n, List.length (gen_units n gs) = List.length gs.
Proof. induction gs as [|g gs IH]; intros n; cbn [gen_units List.length]; [reflexivity|rewrite IH; reflexivity]. Qed.

Lemma gen_warns_app pre : forall n pos rest,
  gen_warns n pos (pre ++ rest) =
  (gen_warns n pos pre ++
   gen_warns (n + N.of_nat (List.length pre)) (pos + List.length (gen_lines true pre)) rest)%list.
Proof.
  induction pre as [|g pre IH]; intros n pos rest.
  - cbn [app gen_warns List.length gen_lines]. rewrite N.add_0_r, Nat.add_0_r. reflexivity.
  - cbn [app gen_warns]. rewrite IH, app_assoc, gen_lines_cons_length. cbn [List.length].
    replace (n + 1 + N.of_nat (List.length pre))%N with (n + N.of_nat (S (List.length pre)))%N by lia.
    replace (pos + 3 + List.length (g_text g) + List.length (gen_lines true pre))
      with (pos + (3 + List.length (g_text g) + List.length (gen_lines true pre))) by lia.
    reflexivity.
Qed.

Lemma gen_tail_app pre : forall pos rest, rest <> [] ->
  gen_tail pos (pre ++ rest) = gen_tail (pos + List.length (gen_lines true pre)) rest.
Proof.
  induction pre as [|g pre IH]; intros pos rest Hr.
  - cbn [app List.length gen_lines]. rewrite Nat.add_0_r. reflexivity.
  - cbn [app]. destruct (pre ++ rest)%list as [|g' l] eqn:E; [apply app_eq_nil in E; tauto|].
    change (gen_tail pos (g :: g' :: l)) with (gen_tail (pos + 3 + List.length (g_text g)) (g' :: l)).
    rewrite <- E, IH by exact Hr. rewrite gen_lines_cons_length. f_equal. lia.
Qed.

Lemma dot_warnings_app ws ws' : dot_warnings (ws ++ ws') = (dot_warnings ws ++ dot_warnings ws')%list.
Proof. apply filter_app. Qed.

Lemma other_warnings_app ws ws' : other_warnings (ws ++ ws') = (other_warnings ws ++ other_warnings ws')%list.
Proof. apply filter_app. Qed.

Lemma dot_warnings_sync n pos g :
  dot_warnings (if N.eqb (g_seq g) n then []
                else [Msg (Z.of_nat pos + 1) 1 (py_str_N (g_seq g)) "Sequence number out of sync"]) = [].
Proof. destruct (N.eqb (g_seq g) n); reflexivity. Qed.

Lemma other_warnings_sync n pos g :
  let w := (if N.eqb (g_seq g) n then []
            else [Msg (Z.of_nat pos + 1) 1 (py_str_N (g_seq g)) "Sequence number out of sync"]) in
  other_warnings w = w.
Proof. destruct (N.eqb (g_seq g) n); reflexivity. Qed.

Lemma dot_warnings_gen gs : forall n pos,
  Forall (fun g => hline_cols (g_hdr g) = []) gs -> dot_warnings (gen_warns n pos gs) = [].
Proof.
  induction gs as [|g gs IH]; intros n pos Hc; [reflexivity|].
  inversion Hc as [|? ? Hg Hgs]; subst. cbn [gen_warns]. unfold unit_warns.
  rewrite Hg, !dot_warnings_app, dot_warnings_sync, IH by exact Hgs. reflexivity.
Qed.

Lemma dot_warnings_tail gs : forall pos, dot_warnings (gen_tail pos gs) = [].
Proof.
  induction gs as [|g gs IH]; intros pos; [reflexivity|].
  destruct gs as [|g' gs]; [reflexivity|]. apply IH.
Qed.

Lemma gunit_ok_su k u : unit_ok u -> gunit_ok (su_gunit k u).
Proof. intros (H1 & H2 & H3). split; [split|]; assumption. Qed.

Lemma gen_unit_matches n k u : unit_ok u -> unit_matches (gen_unit n (su_gunit k u)) n u.
Proof.
  intros (H1 & H2 & H3). destruct (convert_time _ H1) as (q1 & E1 & Q1).
  destruct (convert_time _ H2) as (q2 & E2 & Q2).
  unfold unit_matches, gen_unit, su_gunit.
  cbn [g_text g_hdr hline_times fst snd u_sequence u_lines u_start u_end].
  rewrite E1, E2. repeat split; assumption.
Qed.

Lemma Forall_insert {A} (P : A -> Prop) pre x post :
  Forall P (pre ++ post) -> P x -> Forall P (pre ++ x :: post).
Proof. intros H Hx. apply Forall_app in H as [H1 H2]. apply Forall_app. split; [exact H1|constructor; assumption]. Qed.

Lemma u_hello_ok : unit_ok u_hello.
Proof.
  repeat constructor; cbn; try lia.
  - discriminate.
  - intros c Hc. cbn in Hc. repeat (destruct Hc as [<-|Hc]; [discriminate|]). contradiction.
  - intros c Hc. cbn in Hc. repeat (destruct Hc as [<-|Hc]; [discriminate|]). contradiction.
  - intros c Hc. cbn in Hc. repeat (destruct Hc as [<-|Hc]; [discriminate|]). contradiction.
  - intros r Hr. discriminate Hr.
Qed.

Lemma below_stop_error : below_stop (Some "error") LWarning.
Proof. right. exists 1. split; [reflexivity|cbn; lia]. Qed.

(** C6, amended: take four well-formed units (comma timing lines, text
    lines kept as they are) numbered 1, 2, 4, 5, with or without a blank
    line after the last, and a stop level above warnings. [_parse] yields
    the four units, renumbered 1, 2, 3, 4, with their text and times, and
    no error. The synthesized number 3 becomes the reference, so every unit
    after the gap is out of sync: one "Sequence number out of sync" warning
    at the line holding "4" and one at the line holding "5" (lines 7 + a + b
    and 10 + a + b + c, where a, b, c count the text lines of the first three
    units). With the final blank line these are the only warnings. *)
Theorem gap_warns_per_shifted_unit stop trailing u1 u2 u3 u4 :
  Forall unit_ok [u1; u2; u3; u4] -> below_stop stop LWarning ->
  match parse_result stop (gen_doc trailing [su_gunit 1 u1; su_gunit 2 u2; su_gunit 4 u3; su_gunit 5 u4]) with
  | Some (ys, ws, es) =>
      units_match ys 1 [u1; u2; u3; u4] /\
      map sync_line (sync_warnings ws) =
        [(Z.of_nat (7 + List.length (su_text u1) + List.length (su_text u2)), 1%Z, "4");
         (Z.of_nat (10 + List.length (su_text u1) + List.length (su_text u2) + List.length (su_text u3)),
          1%Z, "5")] /\
      es = [] /\ (trailing = true -> List.length ws = 2)
  | None => False
  end.
Proof.
  intros Hok Hb.
  assert (Hg : Forall gunit_ok [su_gunit 1 u1; su_gunit 2 u2; su_gunit 4 u3; su_gunit 5 u4]).
  { apply Forall_map with (f := fun p => su_gunit (fst p) (snd p)) (l := [(1, u1); (2, u2); (4, u3); (5, u4)]%N).
    apply Forall_map with (f := snd) (l := [(1, u1); (2, u2); (4, u3); (5, u4)]%N) in Hok.
    eapply Forall_impl; [|exact Hok]. intros [k u] Hu. apply gunit_ok_su, Hu. }
  rewrite (gen_parse stop trailing _ Hg Hb).
  apply Forall_cons_iff in Hok as [U1 Hok]; apply Forall_cons_iff in Hok as [U2 Hok];
    apply Forall_cons_iff in Hok as [U3 Hok]; apply Forall_cons_iff in Hok as [U4 _].
  split; [cbn [gen_units units_match]; repeat (split; [apply gen_unit_matches; assumption|]); exact I|].
  assert (Hu : forall n pos k u, unit_warns n pos (su_gunit k u) =
            if N.eqb k n then [] else [Msg (Z.of_nat pos + 1) 1 (py_str_N k) "Sequence number out of sync"])
    by (intros; unfold unit_warns; cbn [su_gunit g_seq g_hdr hline_cols map]; rewrite app_nil_r; reflexivity).
  cbn [gen_warns]. rewrite !Hu. cbn [su_gunit g_text N.eqb N.add Pos.add Pos.eqb app].
  split; [|split; [reflexivity|intros ->; reflexivity]].
  unfold sync_warnings, sync_line. destruct trailing;
    cbn [gen_tail filter description String.eqb Ascii.eqb Bool.eqb andb map sync_line line_number col line app];
    repeat f_equal; first [lia|reflexivity].
Qed.

Lemma gap_warns_per_shifted_unit_witness :
  Forall unit_ok [u_hello; u_hello; u_hello; u_hello] /\ below_stop (Some "error") LWarning /\
  match parse_result (Some "error")
          (gen_doc true [su_gunit 1 u_hello; su_gunit 2 u_hello; su_gunit 4 u_hello; su_gunit 5 u_hello]) with
  | Some (ys, ws, es) =>
      units_match ys 1 [u_hello; u_hello; u_hello; u_hello] /\
      map sync_line (sync_warnings ws) =
        [(Z.of_nat (7 + List.length (su_text u_hello) + List.length (su_text u_hello)), 1%Z, "4");
         (Z.of_nat (10 + List.length (su_text u_hello) + List.length (su_text u_hello)
                    + List.length (su_text u_hello)), 1%Z, "5")] /\
      es = [] /\ (true = true -> List.length ws = 2)
  | None => False
  end.
Proof.
  assert (H : Forall unit_ok [u_hello; u_hello; u_hello; u_hello]) by (repeat (constructor; [exact u_hello_ok|]); constructor).
  split; [exact H|]. split; [exact below_stop_error|].
  exact (gap_warns_per_shifted_unit (Some "error") true u_hello u_hello u_hello u_hello H below_stop_error).
Defined.

(** C7, amended: in a document of well-formed units with comma timing
    lines, a unit whose timing line is [00:00:01.000 --> 00:00:02.000]
    parses to the same units as when that line is written
    [00:00:01,000 --> 00:00:02,000], its times being 1 s and 2 s, and
    neither document has an error. The other warnings are the same, at the
    same lines and columns, and the comma document has no dot warning. The
    dotted line gets two "Used dot as decimal separator instead of comma."
    warnings, at columns 9 and 26 of that line, since each retry replaces
    one dot. *)
Theorem dot_warns_per_dot stop trailing pre k ts post :
  Forall gunit_ok (pre ++ post) -> Forall (fun g => hline_cols (g_hdr g) = []) (pre ++ post) ->
  Forall text_ok ts -> below_stop stop LWarning ->
  match parse_result stop (gen_doc trailing (pre ++ GUnit k HDot12 ts :: post)),
        parse_result stop (gen_doc trailing (pre ++ GUnit k (HComma time_1s time_2s) ts :: post)) with
  | Some (ys, ws, es), Some (ys', ws', es') =>
      ys = ys' /\ es = [] /\ es' = [] /\
      (exists y, nth_error ys (List.length pre) = Some y /\ Qeq_opt (u_start y) 1 /\ Qeq_opt (u_end y) 2) /\
      map msg_pos (other_warnings ws) = map msg_pos (other_warnings ws') /\
      dot_warnings ws' = [] /\
      map sync_line (dot_warnings ws) =
        [(Z.of_nat (List.length (gen_lines true pre)) + 2, 9, dot12);
         (Z.of_nat (List.length (gen_lines true pre)) + 2, 26, dot12)]%Z
  | _, _ => False
  end.
Proof.
  intros Hok Hc Hts Hb.
  assert (Ht : time_ok time_1s /\ time_ok time_2s) by (split; cbv; lia).
  rewrite (gen_parse stop trailing _ (Forall_insert _ pre (GUnit k HDot12 ts) post Hok (conj I Hts)) Hb).
  rewrite (gen_parse stop trailing _ (Forall_insert _ pre (GUnit k (HComma time_1s time_2s) ts) post Hok (conj Ht Hts)) Hb).
  pose proof (Forall_insert (fun g => hline_cols (g_hdr g) = []) pre (GUnit k (HComma time_1s time_2s) ts)
                post Hc eq_refl) as Hc'.
  apply Forall_app in Hc as [Hcpre Hcpost].
  split; [rewrite !gen_units_app; reflexivity|].
  split; [reflexivity|]. split; [reflexivity|].
  split.
  { rewrite gen_units_app, nth_error_app2 by (rewrite gen_units_length; lia).
    rewrite gen_units_length, Nat.sub_diag. cbn [gen_units nth_error].
    eexists. split; [reflexivity|]. split; vm_compute; reflexivity. }
  split.
  { rewrite !other_warnings_app, !map_app. f_equal.
    - rewrite !gen_warns_app. rewrite !other_warnings_app, !map_app. f_equal.
      cbn [gen_warns]. unfold unit_warns. rewrite !other_warnings_app, !map_app.
      rewrite !other_warnings_sync. cbn [g_seq g_hdr g_text hline_cols map]. reflexivity.
    - destruct trailing; [reflexivity|].
      rewrite !gen_tail_app by discriminate.
      destruct post as [|g2 post]; reflexivity. }
  split.
  { rewrite dot_warnings_app, dot_warnings_gen by exact Hc'.
    destruct trailing; [reflexivity|]. apply dot_warnings_tail. }
  rewrite dot_warnings_app. replace (dot_warnings (if trailing then [] else _)) with (@nil msg)
    by (destruct trailing; [reflexivity|symmetry; apply dot_warnings_tail]).
  rewrite app_nil_r, gen_warns_app, dot_warnings_app, dot_warnings_gen by exact Hcpre.
  cbn [app gen_warns]. unfold unit_warns.
  rewrite !dot_warnings_app, dot_warnings_sync, dot_warnings_gen by exact Hcpost.
  rewrite app_nil_r. reflexivity.
Qed.

Lemma dot_warns_per_dot_witness :
  Forall gunit_ok ([su_gunit 1 u_hello] ++ []) /\
  Forall (fun g => hline_cols (g_hdr g) = []) ([su_gunit 1 u_hello] ++ []) /\
  Forall text_ok ["Hello"] /\ below_stop (Some "error") LWarning /\
  match parse_result (Some "error") (gen_doc false ([su_gunit 1 u_hello] ++ GUnit 2 HDot12 ["Hello"] :: [])),
        parse_result (Some "error")
          (gen_doc false ([su_gunit 1 u_hello] ++ GUnit 2 (HComma time_1s time_2s) ["Hello"] :: [])) with
  | Some (ys, ws, es), Some (ys', ws', es') =>
      ys = ys' /\ es = [] /\ es' = [] /\
      (exists y, nth_error ys (List.length [su_gunit 1 u_hello]) = Some y /\
                 Qeq_opt (u_start y) 1 /\ Qeq_opt (u_end y) 2) /\
      map msg_pos (other_warnings ws) = map msg_pos (other_warnings ws') /\
      dot_warnings ws' = [] /\
      map sync_line (dot_warnings ws) =
        [(Z.of_nat (List.length (gen_lines true [su_gunit 1 u_hello])) + 2, 9, dot12);
         (Z.of_nat (List.length (gen_lines true [su_gunit 1 u_hello])) + 2, 26, dot12)]%Z
  | _, _ => False
  end.
Proof.
  assert (H1 : Forall gunit_ok ([su_gunit 1 u_hello] ++ []))
    by (constructor; [exact (gunit_ok_su 1 u_hello u_hello_ok)|constructor]).
  assert (H2 : Forall (fun g => hline_cols (g_hdr g) = []) ([su_gunit 1 u_hello] ++ []))
    by (constructor; [reflexivity|constructor]).
  assert (H3 : Forall text_ok ["Hello"]) by exact (proj2 (proj2 u_hello_ok)).
  split; [exact H1|]. split; [exact H2|]. split; [exact H3|]. split; [exact below_stop_error|].
  exact (dot_warns_per_dot (Some "error") false [su_gunit 1 u_hello] 2 ["Hello"] [] H1 H2 H3 below_stop_error).
Defined.
